(** * searchConf: a shallow embedding of the search core of [searchConf.py]

    The development follows the Python source function by function:
    the extension normalisation and the background worker
    ([_search_worker]), the candidate enumeration ([_iter_files]), the
    content test ([_file_contains_text]), the queue polling of the
    foreground ([_poll_queue]), the start of a search
    ([_on_search_clicked]) and the folder history
    ([_update_folder_history]); then the settings file
    ([load_settings], [save_settings]), the start and the end of a
    session ([_apply_initial_values], [_browse_folder],
    [_save_settings]), the start with Windows ([set_autorun],
    [_ensure_autorun_state]) and the registration of the global hot
    keys ([HotkeyThread._register_hotkeys]).

    Python values are modelled as follows.  A [str] is the list of its
    code points, a [bytes] object is a list of [Byte.byte].  The parts
    of the Python runtime the program calls but does not contain (the
    Unicode case mapping of [str.lower] and the table driven decoders
    of the two Korean code pages) are the fields of the class
    [PyRuntime]; the UTF-8 and Latin-1 decoders, [fnmatch], [os.walk]
    and [os.path.join] (POSIX flavour) are written out. *)

From Stdlib Require Import List NArith String Ascii Lia Bool Arith.
Import ListNotations.

Set Implicit Arguments.

(** ** Python strings *)

Definition str := list N.
Definition bytes := list Byte.byte.

(** [u "abc"] is the Python string with the same (ASCII) characters. *)
Definition u (s : string) : str := map N_of_ascii (list_ascii_of_string s).

(** [ascii_bytes "abc"] is the bytes object [b"abc"]. *)
Definition ascii_bytes (s : string) : bytes := list_byte_of_string s.

Module Py.

(** [s.startswith(prefix)] *)
Fixpoint startswith (s prefix : str) {struct prefix} : bool :=
  match prefix with
  | [] => true
  | p :: prefix' =>
      match s with
      | [] => false
      | c :: s' => N.eqb c p && startswith s' prefix'
      end
  end.

(** [s.endswith(suffix)] *)
Definition endswith (s suffix : str) : bool :=
  startswith (rev s) (rev suffix).

(** [sub in s] *)
Fixpoint contains (sub s : str) : bool :=
  startswith s sub ||
  match s with
  | [] => false
  | _ :: s' => contains sub s'
  end.

(** [a == b] on strings *)
Fixpoint eqb (a b : str) : bool :=
  match a, b with
  | [], [] => true
  | x :: a', y :: b' => N.eqb x y && eqb a' b'
  | _, _ => false
  end.

(** [Py_UNICODE_ISSPACE]: the characters removed by [str.strip()]. *)
Definition isspace (c : N) : bool :=
  ((9 <=? c) && (c <=? 13) || (28 <=? c) && (c <=? 32) ||
   (c =? 133) || (c =? 160) || (c =? 5760) ||
   (8192 <=? c) && (c <=? 8202) || (c =? 8232) || (c =? 8233) ||
   (c =? 8239) || (c =? 8287) || (c =? 12288))%N.

Fixpoint lstrip (s : str) : str :=
  match s with
  | [] => []
  | c :: s' => if isspace c then lstrip s' else s
  end.

(** [s.strip()] *)
Definition strip (s : str) : str := rev (lstrip (rev (lstrip s))).

(** Truth value of a string: [bool(s)]. *)
Definition truthy (s : str) : bool :=
  match s with [] => false | _ => true end.

End Py.

(** ** The Python runtime the program relies on *)

(** Exceptions, all of them subclasses of [Exception]. *)
Inductive exn : Type :=
| PermissionError
| FileNotFoundError
| NotADirectoryError
| OSError
| MemoryError.

Inductive res (A : Type) : Type :=
| Ret (a : A)
| Raise (e : exn).
Arguments Ret {A} a.
Arguments Raise {A} e.

Class PyRuntime : Type := {
  (** [s.lower()], the Unicode lower-casing of the interpreter *)
  str_lower : str -> str;
  (** [bytes.decode("cp949", "replace")] *)
  cp949_decode : bytes -> str;
  (** [bytes.decode("euc-kr", "replace")] *)
  euc_kr_decode : bytes -> str
}.

(** ** [fnmatch]: shell-style name matching

    [fnmatch.fnmatch(name, pat)] normalises both arguments with
    [os.path.normcase] and matches the name against the regular
    expression [fnmatch.translate(pat)].  With the POSIX flavour of
    [os.path], [normcase] is the identity, so the match is
    case-sensitive. *)

Module Fnmatch.

Inductive item : Type :=
| Single (c : N)
| Range (lo hi : N).

Inductive tok : Type :=
| Star
| AnyChar
| Lit (c : N)
| Class (negated : bool) (items : list item).

(** The characters are written by their code: 33 is ["!"], 42 ["*"],
    45 ["-"], 63 ["?"], 91 ["["] and 93 ["]"]. *)

(** The text up to the next ["]"], and what follows it. *)
Fixpoint until_close (s : str) : option (str * str) :=
  match s with
  | [] => None
  | c :: s' =>
      if (c =? 93)%N then Some ([], s')
      else match until_close s' with
           | Some (body, rest) => Some (c :: body, rest)
           | None => None
           end
  end.

(** After a ["["]: skip one ["!"], then one ["]"], then look for the
    closing ["]"].  [None] when the bracket is never closed. *)
Definition bracket (s : str) : option (str * str) :=
  let (p1, s1) := match s with
                  | c :: s' => if (c =? 33)%N then ([c], s') else ([], s)
                  | [] => ([], s)
                  end in
  let (p2, s2) := match s1 with
                  | c :: s' => if (c =? 93)%N then ([c], s') else ([], s1)
                  | [] => ([], s1)
                  end in
  match until_close s2 with
  | Some (body, rest) => Some (p1 ++ p2 ++ body, rest)
  | None => None
  end.

(** The members of a character class, read left to right: a hyphen
    between two characters makes a range, any other character stands
    for itself. *)
Fixpoint parse_items (s : str) : list item :=
  match s with
  | [] => []
  | c :: t =>
      match t with
      | d :: h :: r =>
          if (d =? 45)%N then Range c h :: parse_items r
          else Single c :: parse_items t
      | _ => Single c :: parse_items t
      end
  end.

(** Ranges whose bounds are in the wrong order are dropped. *)
Definition nonempty_item (i : item) : bool :=
  match i with
  | Single _ => true
  | Range lo hi => (lo <=? hi)%N
  end.

(** The class denoted by the text between the brackets.  When dropping
    empty ranges leaves an exclamation mark in front, [translate]
    reads it as a negation. *)
Definition class_of (stuff : str) : tok :=
  match stuff with
  | 33%N :: body => Class true (filter nonempty_item (parse_items body))
  | _ =>
      match filter nonempty_item (parse_items stuff) with
      | Single 33%N :: r => Class true r
      | Range 33%N hi :: r => Class true (Single 45 :: Single hi :: r)
      | items => Class false items
      end
  end.

Fixpoint translate_from (fuel : nat) (pat : str) : list tok :=
  match fuel with
  | O => []
  | S fuel' =>
      match pat with
      | [] => []
      | c :: rest =>
          if (c =? 42)%N then
            match translate_from fuel' rest with
            | Star :: ts => Star :: ts
            | ts => Star :: ts
            end
          else if (c =? 63)%N then AnyChar :: translate_from fuel' rest
          else if (c =? 91)%N then
            match bracket rest with
            | None => Lit c :: translate_from fuel' rest
            | Some (stuff, rest') => class_of stuff :: translate_from fuel' rest'
            end
          else Lit c :: translate_from fuel' rest
      end
  end.

(** [fnmatch.translate(pat)], as a list of tokens. *)
Definition translate (pat : str) : list tok :=
  translate_from (List.length pat) pat.

Definition item_admits (c : N) (i : item) : bool :=
  match i with
  | Single x => (c =? x)%N
  | Range lo hi => ((lo <=? c) && (c <=? hi))%N
  end.

Definition tok_admits (t : tok) (c : N) : bool :=
  match t with
  | Star => true
  | AnyChar => true
  | Lit x => (c =? x)%N
  | Class negated items => xorb negated (existsb (item_admits c) items)
  end.

(** Full match of a string against a token list. *)
Fixpoint matches (ts : list tok) (s : str) : bool :=
  match ts with
  | [] => match s with [] => true | _ :: _ => false end
  | Star :: ts' =>
      (fix star (s : str) : bool :=
         matches ts' s ||
         match s with
         | [] => false
         | _ :: s' => star s'
         end) s
  | t :: ts' =>
      match s with
      | [] => false
      | c :: s' => tok_admits t c && matches ts' s'
      end
  end.

(** [os.path.normcase], POSIX flavour. *)
Definition normcase (s : str) : str := s.

Definition fnmatchcase (name pat : str) : bool :=
  matches (translate pat) name.

Definition fnmatch (name pat : str) : bool :=
  fnmatchcase (normcase name) (normcase pat).

End Fnmatch.

(** ** Extension normalisation (first two lines of [_search_worker]) *)

Definition normalized_ext (ext : str) : str :=
  if Py.startswith ext (u ".") || Py.contains (u "*") ext || Py.contains (u "?") ext
  then ext
  else u "." ++ ext.

Definition pattern (ext : str) : str :=
  if negb (existsb (fun ch => Py.contains [ch] (normalized_ext ext)) (u "*?"))
  then u "*" ++ normalized_ext ext
  else normalized_ext ext.

(** ** The name test of [_iter_files]

    [fnmatch.fnmatch(name, pattern) or
     (pattern.startswith("*.") and name.endswith(pattern[1:]))] *)

Definition name_matches (name pat : str) : bool :=
  Fnmatch.fnmatch name pat ||
  (Py.startswith pat (u "*.") && Py.endswith name (tl pat)).

(** ** Text decoding

    The files are opened with [errors="replace"]: a byte sequence the
    decoder rejects becomes U+FFFD and decoding goes on.  For UTF-8 the
    decoder of CPython is followed: an invalid start byte is replaced
    on its own, a sequence broken by a wrong continuation byte is
    replaced up to (not including) that byte, and a sequence cut short
    by the end of the data is replaced as a whole. *)

Module Codec.

Definition REPLACEMENT : N := 65533.

Definition is_cont (b : N) : bool := ((128 <=? b) && (b <=? 191))%N.

(** The first continuation byte is further restricted after the lead
    bytes E0 (224), ED (237), F0 (240) and F4 (244): no overlong
    forms, no surrogates, nothing above U+10FFFF. *)
Definition second_ok (b0 b1 : N) : bool :=
  is_cont b1 &&
  (if b0 =? 224 then 160 <=? b1
   else if b0 =? 237 then b1 <? 160
   else if b0 =? 240 then 144 <=? b1
   else if b0 =? 244 then b1 <? 144
   else true)%N.

(** One entry per decoded character; [None] marks a replaced range.
    The bytes below 80 (128) are ASCII, C2 (194) to DF start a sequence
    of two bytes, E0 (224) to EF one of three, F0 (240) to F4 one of
    four; the other bytes start nothing. *)
Fixpoint utf8_units (s : list N) : list (option N) :=
  match s with
  | [] => []
  | b0 :: t0 =>
      if (b0 <? 128)%N then Some b0 :: utf8_units t0
      else if ((b0 <? 194) || (245 <=? b0))%N then None :: utf8_units t0
      else
        match t0 with
        | [] => [None]
        | b1 :: t1 =>
            if negb (second_ok b0 b1) then None :: utf8_units t0
            else if (b0 <? 224)%N then
              Some ((b0 - 192) * 64 + (b1 - 128))%N :: utf8_units t1
            else
              match t1 with
              | [] => [None]
              | b2 :: t2 =>
                  if negb (is_cont b2) then None :: utf8_units t1
                  else if (b0 <? 240)%N then
                    Some ((b0 - 224) * 4096 + (b1 - 128) * 64 + (b2 - 128))%N
                      :: utf8_units t2
                  else
                    match t2 with
                    | [] => [None]
                    | b3 :: t3 =>
                        if negb (is_cont b3) then None :: utf8_units t2
                        else
                          Some ((b0 - 240) * 262144 + (b1 - 128) * 4096 +
                                (b2 - 128) * 64 + (b3 - 128))%N
                            :: utf8_units t3
                    end
              end
        end
  end.

(** [data.decode("utf-8", "replace")] *)
Definition utf8_decode (data : bytes) : str :=
  map (fun o => match o with Some c => c | None => REPLACEMENT end)
      (utf8_units (map Byte.to_N data)).

(** [data.decode("utf-8")], [None] for [UnicodeDecodeError] *)
Definition utf8_decode_strict (data : bytes) : option str :=
  let us := utf8_units (map Byte.to_N data) in
  if forallb (fun o => match o with Some _ => true | None => false end) us
  then Some (map (fun o => match o with Some c => c | None => REPLACEMENT end) us)
  else None.

(** [data.decode("latin-1")]: every byte is the character of the same
    number, no byte sequence is rejected. *)
Definition latin1_decode (data : bytes) : str := map Byte.to_N data.

End Codec.

Inductive encoding : Type := utf_8 | cp949 | euc_kr | latin_1.

(** [encodings = ["utf-8", "cp949", "euc-kr", "latin-1"]] *)
Definition encodings : list encoding := [utf_8; cp949; euc_kr; latin_1].

(** Decoding as [open(..., encoding=enc, errors="replace")] does it. *)
Definition decode {R : PyRuntime} (enc : encoding) (data : bytes) : str :=
  match enc with
  | utf_8 => Codec.utf8_decode data
  | cp949 => cp949_decode data
  | euc_kr => euc_kr_decode data
  | latin_1 => Codec.latin1_decode data
  end.

(** ** Text files

    In text mode with the default [newline=None] the line ends
    ["\n"], ["\r"] and ["\r\n"] all reach the program as ["\n"], and
    iterating over the file yields the lines with their line end. *)

Fixpoint readlines (s : str) : list str :=
  match s with
  | [] => []
  | c :: s' =>
      if (c =? 10)%N then [10%N] :: readlines s'
      else if (c =? 13)%N then
        match s' with
        | d :: s'' =>
            if (d =? 10)%N then [10%N] :: readlines s''
            else [10%N] :: readlines s'
        | [] => [[10%N]]
        end
      else
        match readlines s' with
        | [] => [[c]]
        | l :: ls => (c :: l) :: ls
        end
  end.

(** What an [open(path, "r", encoding=enc, errors="replace")] and the
    reads that follow do: [open] raises, or the file opens with the
    given content; with [fault = Some (k, e)] the read after the first
    [k] lines raises [e]. *)
Inductive open_result : Type :=
| OpenRaises (e : exn)
| Opened (data : bytes) (fault : option (nat * exn)).

(** The iteration [for line in f]. *)
Inductive line_stream : Type :=
| Eof
| Line (l : str) (rest : line_stream)
| Fault (e : exn).

Fixpoint text_stream (ls : list str) (fault : option (nat * exn)) : line_stream :=
  match fault, ls with
  | Some (O, e), _ => Fault e
  | Some (S _, e), [] => Fault e
  | Some (S k, e), l :: ls' => Line l (text_stream ls' (Some (k, e)))
  | None, [] => Eof
  | None, l :: ls' => Line l (text_stream ls' None)
  end.

(** [for line in f: if test(line): return True], then [return False] *)
Fixpoint for_lines (test : str -> bool) (f : line_stream) : res bool :=
  match f with
  | Eof => Ret false
  | Line l rest => if test l then Ret true else for_lines test rest
  | Fault e => Raise e
  end.

Section FileContainsText.

Context {R : PyRuntime}.

(** The file system as the content test sees it: the outcome of
    opening [path] in the attempt made with encoding [enc]. *)
Variable io : str -> encoding -> open_result.

(** The body of the [with open(...) as f:] block and the
    [return False] after it. *)
Definition scan_file (f : line_stream) (query : str) (case_sensitive : bool)
  : res bool :=
  if case_sensitive then
    for_lines (fun line => Py.contains query line) f
  else
    let q := str_lower query in
    for_lines (fun line => Py.contains q (str_lower line)) f.

(** One round of the loop [for enc in encodings], without the
    [except]. *)
Definition attempt (path query : str) (case_sensitive : bool) (enc : encoding)
  : res bool :=
  match io path enc with
  | OpenRaises e => Raise e
  | Opened data fault =>
      scan_file (text_stream (readlines (decode enc data)) fault)
                query case_sensitive
  end.

Fixpoint try_encodings (path query : str) (case_sensitive : bool)
         (encs : list encoding) : res bool :=
  match encs with
  | [] => Ret false
  | enc :: encs' =>
      match attempt path query case_sensitive enc with
      | Ret b => Ret b
      | Raise _ => try_encodings path query case_sensitive encs'
      end
  end.

Definition _file_contains_text (path query : str) (case_sensitive : bool)
  : res bool :=
  try_encodings path query case_sensitive encodings.

End FileContainsText.

(** ** Directory trees and [_iter_files] *)

(** What [os.walk] and [os.listdir] find at a path.  A symbolic link
    to a directory behaves like an unreadable directory here: it is
    no regular file and [os.walk] does not descend into it. *)
#[warnings="-register-all"] Inductive node : Type :=
| Regular
| Special
| Directory (entries : list (str * node))
| Unlistable (e : exn).

(** [os.path.join(a, b)], POSIX flavour *)
Definition path_join (a b : str) : str :=
  if Py.startswith b (u "/") then b
  else if negb (Py.truthy a) || Py.endswith a (u "/") then a ++ b
  else a ++ u "/" ++ b.

Definition is_dir (nd : node) : bool :=
  match nd with
  | Directory _ | Unlistable _ => true
  | _ => false
  end.

(** [os.path.isfile] *)
Definition isfile (nd : node) : bool :=
  match nd with
  | Regular => true
  | _ => false
  end.

(** [os.walk(top)]: the pairs (root, files), top-down; a directory that
    cannot be listed is passed over. *)
Fixpoint walk (top : str) (nd : node) : list (str * list str) :=
  match nd with
  | Directory entries =>
      (top, map fst (filter (fun e => negb (is_dir (snd e))) entries)) ::
      (fix subdirs (es : list (str * node)) : list (str * list str) :=
         match es with
         | [] => []
         | (name, d) :: es' =>
             (if is_dir d then walk (path_join top name) d else []) ++ subdirs es'
         end) entries
  | _ => []
  end.

(** A generator run to its end: the values it yields, and the exception
    that ends it, if any. *)
Definition generator : Type := (list str * option exn)%type.

(** What is found at the path [folder], [fs] being the content of the
    folder the search is given: the empty path names no directory. *)
Definition at_path (fs : node) (folder : str) : node :=
  match folder with
  | [] => Unlistable FileNotFoundError
  | _ => fs
  end.

Definition _iter_files (fs : node) (folder pat : str) (recursive : bool)
  : generator :=
  if recursive then
    (flat_map
       (fun rf => map (path_join (fst rf))
                      (filter (fun name => name_matches name pat) (snd rf)))
       (walk folder (at_path fs folder)),
     None)
  else
    match at_path fs folder with
    | Directory entries =>
        (map (fun e => path_join folder (fst e))
             (filter (fun e => isfile (snd e) && name_matches (fst e) pat) entries),
         None)
    | Unlistable PermissionError => ([], None)
    | Unlistable e => ([], Some e)
    | _ => ([], Some NotADirectoryError)
    end.

(** ** The background worker [_search_worker]

    The worker shares two objects with the foreground: the result
    queue, to which it appends, and the stop event, which it reads.
    [stop_event k] is the answer of the [k]-th call of
    [self.stop_event.is_set()] of the run.  The state also keeps the
    trace of what the worker did, in order. *)

Definition SEARCH_DONE : str := u "__SEARCH_DONE__".

Inductive event : Type :=
| EvNext (path : str)                 (* the iterator yields a candidate *)
| EvIsSet (b : bool)                  (* [self.stop_event.is_set()] *)
| EvMatch (path : str) (r : res bool) (* a call of the content test *)
| EvPut (item : str).                 (* [self.result_queue.put(item)] *)

Record wstate : Type := mk_wstate {
  result_queue : list str;
  checks : nat;
  trace : list event
}.

Definition W (A : Type) : Type := wstate -> res A * wstate.

Definition ret {A} (a : A) : W A := fun s => (Ret a, s).

Definition raise {A} (e : exn) : W A := fun s => (Raise e, s).

Definition bind {A B} (m : W A) (k : A -> W B) : W B :=
  fun s =>
    match m s with
    | (Ret a, s') => k a s'
    | (Raise e, s') => (Raise e, s')
    end.

Notation "x <- m ;; k" := (bind m (fun x => k))
  (at level 61, m at next level, right associativity).
Notation "m ;;; k" := (bind m (fun _ => k))
  (at level 61, right associativity).

(** [try: body except Exception: handler] *)
Definition try_except {A} (body : W A) (handler : exn -> W A) : W A :=
  fun s =>
    match body s with
    | (Ret a, s') => (Ret a, s')
    | (Raise e, s') => handler e s'
    end.

(** [try: body finally: cleanup] *)
Definition try_finally {A} (body : W A) (cleanup : W unit) : W A :=
  fun s =>
    match body s with
    | (r, s') =>
        match cleanup s' with
        | (Ret _, s'') => (r, s'')
        | (Raise e, s'') => (Raise e, s'')
        end
    end.

Definition log (ev : event) : W unit :=
  fun s => (Ret tt, mk_wstate (result_queue s) (checks s) (trace s ++ [ev])).

(** [self.result_queue.put(item)]: the queue is unbounded, [put] appends
    and never raises. *)
Definition put (item : str) : W unit :=
  fun s => (Ret tt, mk_wstate (result_queue s ++ [item]) (checks s)
                              (trace s ++ [EvPut item])).

Inductive ctl : Type := Next | Break.

(** [for path in files_iter: body], where the body may [break]. *)
Fixpoint for_each (items : list str) (tail : option exn) (body : str -> W ctl)
  : W unit :=
  match items with
  | [] => match tail with
          | None => ret tt
          | Some e => raise e
          end
  | p :: items' =>
      log (EvNext p) ;;;
      c <- body p ;;
      match c with
      | Break => ret tt
      | Next => for_each items' tail body
      end
  end.

Section Worker.

Variable stop_event : nat -> bool.

(** [self.stop_event.is_set()] *)
Definition is_set : W bool :=
  fun s =>
    let b := stop_event (checks s) in
    (Ret b, mk_wstate (result_queue s) (S (checks s)) (trace s ++ [EvIsSet b])).

(** The worker for an arbitrary content test, which may raise. *)
Section Generic.

Variable contains_text : str -> res bool.

Definition call_contains_text (path : str) : W bool :=
  fun s =>
    let r := contains_text path in
    (r, mk_wstate (result_queue s) (checks s) (trace s ++ [EvMatch path r])).

(** The body of the [for] loop. *)
Definition visit (path : str) : W ctl :=
  stop <- is_set ;;
  if stop then ret Break
  else
    try_except
      (found <- call_contains_text path ;;
       if found then put path else ret tt)
      (fun _ => ret tt) ;;;
    ret Next.

Definition search_loop (files_iter : generator) : W unit :=
  try_finally
    (for_each (fst files_iter) (snd files_iter) visit)
    (put SEARCH_DONE).

End Generic.

Context {R : PyRuntime}.
Variable fs : node.
Variable io : str -> encoding -> open_result.

Definition _search_worker (folder query ext : str)
           (recursive case_sensitive : bool) : W unit :=
  search_loop
    (fun path => _file_contains_text io path query case_sensitive)
    (_iter_files fs folder (pattern ext) recursive).

End Worker.

(** ** The foreground: the state of [FileSearchGUI] *)

Module Gui.

(** [tk.NORMAL] and [tk.DISABLED] *)
Inductive btn_state : Type := NORMAL | DISABLED.

(** The texts written to the status line, with the number put into
    them: "검색 완료: 일치하는 파일 없음." is [DoneNoMatch],
    "검색 완료: {n}개 파일" is [Done n], "진행 중... 현재 {n}개 발견"
    is [InProgress n], "검색 중..." is [Searching], "정지 요청됨..."
    is [StopRequested], "결과가 지워졌습니다." is [Cleared] and
    "대상 폴더와 검색어를 입력하세요." is [Ready]. *)
Inductive status : Type :=
| Ready
| Cleared
| Searching
| StopRequested
| DoneNoMatch
| Done (n : nat)
| InProgress (n : nat).

(** The message boxes: [showinfo] that a search is already running,
    [showerror] for an invalid folder and for an empty query. *)
Inductive dialog : Type :=
| InfoAlreadySearching
| ErrorInvalidFolder
| ErrorEmptyQuery.

(** The dictionary [self.settings]; its keys are those of
    [DEFAULT_SETTINGS]. *)
Record settings_t : Type := mk_settings {
  program_name : str;
  default_folder : str;
  s_folder_history : list str;
  last_folder : str;
  last_query : str;
  last_extension : str;
  s_recursive : bool;
  s_case_sensitive : bool;
  autorun : bool;
  global_hotkey_enabled : bool;
  window_geometry : str
}.

(** The arguments of a started worker thread. *)
Record worker_args : Type := mk_args {
  a_folder : str;
  a_query : str;
  a_ext : str;
  a_recursive : bool;
  a_case_sensitive : bool
}.

(** The fields of [self] the search uses.  [spawned] lists the worker
    threads started so far; a thread object is named by its position
    in that list.  [dialogs] lists the message boxes shown,
    [after_calls] the delays passed to [root.after] for
    [_poll_queue]. *)
Record app : Type := mk_app {
  folder_var : str;
  query_var : str;
  ext_var : str;
  recursive_var : bool;
  case_sensitive_var : bool;
  results : list str;
  selection : list nat;
  active : option nat;
  results_focused : bool;
  status_var : status;
  search_btn : btn_state;
  stop_btn : btn_state;
  stop_event : bool;
  result_queue : list str;
  folder_history : list str;
  folder_combo_values : list str;
  settings : settings_t;
  search_thread : option nat;
  focus_results_after_search : bool;
  spawned : list worker_args;
  dialogs : list dialog;
  after_calls : list nat
}.

Section Setters.

Variable a : app.

Definition set_ext_var (v : str) : app :=
  mk_app (folder_var a) (query_var a) v (recursive_var a)
         (case_sensitive_var a) (results a) (selection a) (active a)
         (results_focused a) (status_var a) (search_btn a) (stop_btn a)
         (stop_event a) (result_queue a) (folder_history a)
         (folder_combo_values a) (settings a) (search_thread a)
         (focus_results_after_search a) (spawned a) (dialogs a)
         (after_calls a).

Definition set_results (v : list str) : app :=
  mk_app (folder_var a) (query_var a) (ext_var a) (recursive_var a)
         (case_sensitive_var a) v (selection a) (active a)
         (results_focused a) (status_var a) (search_btn a) (stop_btn a)
         (stop_event a) (result_queue a) (folder_history a)
         (folder_combo_values a) (settings a) (search_thread a)
         (focus_results_after_search a) (spawned a) (dialogs a)
         (after_calls a).

Definition set_selection (v : list nat) : app :=
  mk_app (folder_var a) (query_var a) (ext_var a) (recursive_var a)
         (case_sensitive_var a) (results a) v (active a)
         (results_focused a) (status_var a) (search_btn a) (stop_btn a)
         (stop_event a) (result_queue a) (folder_history a)
         (folder_combo_values a) (settings a) (search_thread a)
         (focus_results_after_search a) (spawned a) (dialogs a)
         (after_calls a).

Definition set_active (v : option nat) : app :=
  mk_app (folder_var a) (query_var a) (ext_var a) (recursive_var a)
         (case_sensitive_var a) (results a) (selection a) v
         (results_focused a) (status_var a) (search_btn a) (stop_btn a)
         (stop_event a) (result_queue a) (folder_history a)
         (folder_combo_values a) (settings a) (search_thread a)
         (focus_results_after_search a) (spawned a) (dialogs a)
         (after_calls a).

Definition set_results_focused (v : bool) : app :=
  mk_app (folder_var a) (query_var a) (ext_var a) (recursive_var a)
         (case_sensitive_var a) (results a) (selection a) (active a)
         v (status_var a) (search_btn a) (stop_btn a)
         (stop_event a) (result_queue a) (folder_history a)
         (folder_combo_values a) (settings a) (search_thread a)
         (focus_results_after_search a) (spawned a) (dialogs a)
         (after_calls a).

Definition set_status_var (v : status) : app :=
  mk_app (folder_var a) (query_var a) (ext_var a) (recursive_var a)
         (case_sensitive_var a) (results a) (selection a) (active a)
         (results_focused a) v (search_btn a) (stop_btn a)
         (stop_event a) (result_queue a) (folder_history a)
         (folder_combo_values a) (settings a) (search_thread a)
         (focus_results_after_search a) (spawned a) (dialogs a)
         (after_calls a).

Definition set_search_btn (v : btn_state) : app :=
  mk_app (folder_var a) (query_var a) (ext_var a) (recursive_var a)
         (case_sensitive_var a) (results a) (selection a) (active a)
         (results_focused a) (status_var a) v (stop_btn a)
         (stop_event a) (result_queue a) (folder_history a)
         (folder_combo_values a) (settings a) (search_thread a)
         (focus_results_after_search a) (spawned a) (dialogs a)
         (after_calls a).

Definition set_stop_btn (v : btn_state) : app :=
  mk_app (folder_var a) (query_var a) (ext_var a) (recursive_var a)
         (case_sensitive_var a) (results a) (selection a) (active a)
         (results_focused a) (status_var a) (search_btn a) v
         (stop_event a) (result_queue a) (folder_history a)
         (folder_combo_values a) (settings a) (search_thread a)
         (focus_results_after_search a) (spawned a) (dialogs a)
         (after_calls a).

Definition set_stop_event (v : bool) : app :=
  mk_app (folder_var a) (query_var a) (ext_var a) (recursive_var a)
         (case_sensitive_var a) (results a) (selection a) (active a)
         (results_focused a) (status_var a) (search_btn a) (stop_btn a)
         v (result_queue a) (folder_history a)
         (folder_combo_values a) (settings a) (search_thread a)
         (focus_results_after_search a) (spawned a) (dialogs a)
         (after_calls a).

Definition set_result_queue (v : list str) : app :=
  mk_app (folder_var a) (query_var a) (ext_var a) (recursive_var a)
         (case_sensitive_var a) (results a) (selection a) (active a)
         (results_focused a) (status_var a) (search_btn a) (stop_btn a)
         (stop_event a) v (folder_history a)
         (folder_combo_values a) (settings a) (search_thread a)
         (focus_results_after_search a) (spawned a) (dialogs a)
         (after_calls a).

Definition set_folder_history (v : list str) : app :=
  mk_app (folder_var a) (query_var a) (ext_var a) (recursive_var a)
         (case_sensitive_var a) (results a) (selection a) (active a)
         (results_focused a) (status_var a) (search_btn a) (stop_btn a)
         (stop_event a) (result_queue a) v
         (folder_combo_values a) (settings a) (search_thread a)
         (focus_results_after_search a) (spawned a) (dialogs a)
         (after_calls a).

Definition set_folder_combo_values (v : list str) : app :=
  mk_app (folder_var a) (query_var a) (ext_var a) (recursive_var a)
         (case_sensitive_var a) (results a) (selection a) (active a)
         (results_focused a) (status_var a) (search_btn a) (stop_btn a)
         (stop_event a) (result_queue a) (folder_history a)
         v (settings a) (search_thread a)
         (focus_results_after_search a) (spawned a) (dialogs a)
         (after_calls a).

Definition set_settings (v : settings_t) : app :=
  mk_app (folder_var a) (query_var a) (ext_var a) (recursive_var a)
         (case_sensitive_var a) (results a) (selection a) (active a)
         (results_focused a) (status_var a) (search_btn a) (stop_btn a)
         (stop_event a) (result_queue a) (folder_history a)
         (folder_combo_values a) v (search_thread a)
         (focus_results_after_search a) (spawned a) (dialogs a)
         (after_calls a).

Definition set_focus_results_after_search (v : bool) : app :=
  mk_app (folder_var a) (query_var a) (ext_var a) (recursive_var a)
         (case_sensitive_var a) (results a) (selection a) (active a)
         (results_focused a) (status_var a) (search_btn a) (stop_btn a)
         (stop_event a) (result_queue a) (folder_history a)
         (folder_combo_values a) (settings a) (search_thread a)
         v (spawned a) (dialogs a) (after_calls a).

(** [self.search_thread = threading.Thread(...)] followed by
    [self.search_thread.start()] *)
Definition start_thread (args : worker_args) : app :=
  mk_app (folder_var a) (query_var a) (ext_var a) (recursive_var a)
         (case_sensitive_var a) (results a) (selection a) (active a)
         (results_focused a) (status_var a) (search_btn a) (stop_btn a)
         (stop_event a) (result_queue a) (folder_history a)
         (folder_combo_values a) (settings a)
         (Some (List.length (spawned a)))
         (focus_results_after_search a) (spawned a ++ [args]) (dialogs a)
         (after_calls a).

Definition show_dialog (d : dialog) : app :=
  mk_app (folder_var a) (query_var a) (ext_var a) (recursive_var a)
         (case_sensitive_var a) (results a) (selection a) (active a)
         (results_focused a) (status_var a) (search_btn a) (stop_btn a)
         (stop_event a) (result_queue a) (folder_history a)
         (folder_combo_values a) (settings a) (search_thread a)
         (focus_results_after_search a) (spawned a) (dialogs a ++ [d])
         (after_calls a).

(** [self.root.after(ms, self._poll_queue)] *)
Definition root_after (ms : nat) : app :=
  mk_app (folder_var a) (query_var a) (ext_var a) (recursive_var a)
         (case_sensitive_var a) (results a) (selection a) (active a)
         (results_focused a) (status_var a) (search_btn a) (stop_btn a)
         (stop_event a) (result_queue a) (folder_history a)
         (folder_combo_values a) (settings a) (search_thread a)
         (focus_results_after_search a) (spawned a) (dialogs a)
         (after_calls a ++ [ms]).

End Setters.

(** [lst.remove(x)]: drops the first occurrence. *)
Fixpoint list_remove (x : str) (l : list str) : list str :=
  match l with
  | [] => []
  | y :: l' => if Py.eqb x y then l' else y :: list_remove x l'
  end.

(** [x in lst] *)
Definition list_in (x : str) (l : list str) : bool := existsb (Py.eqb x) l.

Definition _update_folder_history (folder : str) (a : app) : app :=
  let a1 := if list_in folder (folder_history a)
            then set_folder_history a (list_remove folder (folder_history a))
            else a in
  let a2 := set_folder_history a1 (folder :: folder_history a1) in
  let a3 := set_folder_history a2 (firstn 15 (folder_history a2)) in
  let a4 := set_folder_combo_values a3 (folder_history a3) in
  let s := settings a4 in
  set_settings a4
    (mk_settings (program_name s) (default_folder s) (folder_history a4)
                 (last_folder s) (last_query s) (last_extension s)
                 (s_recursive s) (s_case_sensitive s) (autorun s)
                 (global_hotkey_enabled s) (window_geometry s)).

Definition _on_stop_clicked (a : app) : app :=
  set_status_var (set_stop_event a true) StopRequested.

Definition _clear_results (a : app) : app :=
  set_status_var
    (set_active (set_selection (set_results a []) []) None) Cleared.

(** What [_poll_queue] does when it takes the sentinel from the
    queue. *)
Definition on_done (a : app) : app :=
  let a1 := set_stop_btn (set_search_btn a NORMAL) DISABLED in
  let a2 := match List.length (results a1) with
            | O => set_status_var a1 DoneNoMatch
            | n => set_status_var a1 (Done n)
            end in
  if focus_results_after_search a2 then
    let a3 := set_results_focused a2 true in
    let a4 := match List.length (results a3) with
              | O => a3
              | _ => set_active (set_selection a3 [0]) (Some 0)
              end in
    set_focus_results_after_search a4 false
  else a2.

(** The loop [while True: item = self.result_queue.get_nowait() ...],
    left through [queue.Empty]; the result carries the local
    variable [updated]. *)
Fixpoint drain (items : list str) (a : app) (updated : bool) : app * bool :=
  match items with
  | [] => (a, updated)
  | item :: items' =>
      let a0 := set_result_queue a items' in
      if Py.eqb item SEARCH_DONE then drain items' (on_done a0) updated
      else drain items' (set_results a0 (results a0 ++ [item])) true
  end.

Definition _poll_queue (a : app) : app :=
  let (a1, updated) := drain (result_queue a) a false in
  let a2 := if updated
            then set_status_var a1 (InProgress (List.length (results a1)))
            else a1 in
  root_after a2 100.

(** [_on_search_clicked].  [isdir] is [os.path.isdir] and [is_alive]
    tells which thread objects are alive at the time of the call. *)
Definition _on_search_clicked (isdir : str -> bool) (is_alive : nat -> bool)
           (from_query : bool) (a : app) : app :=
  if match search_thread a with
     | Some t => is_alive t
     | None => false
     end
  then show_dialog a InfoAlreadySearching
  else
    let folder := Py.strip (folder_var a) in
    let query := query_var a in
    let ext := Py.strip (ext_var a) in
    if negb (Py.truthy folder) || negb (isdir folder)
    then show_dialog a ErrorInvalidFolder
    else if negb (Py.truthy query)
    then show_dialog a ErrorEmptyQuery
    else
      let ext_a := if negb (Py.truthy ext)
                   then (u ".conf", set_ext_var a (u ".conf"))
                   else (ext, a) in
      let ext := fst ext_a in
      let a1 := set_focus_results_after_search (snd ext_a) from_query in
      let a2 := _clear_results a1 in
      let a3 := set_status_var a2 Searching in
      let a4 := set_stop_btn (set_search_btn a3 DISABLED) NORMAL in
      let a5 := set_stop_event a4 false in
      let a6 := _update_folder_history folder a5 in
      let s := settings a6 in
      let a7 := set_settings a6
                  (mk_settings (program_name s) (default_folder s)
                     (s_folder_history s) folder query ext
                     (recursive_var a6) (case_sensitive_var a6) (autorun s)
                     (global_hotkey_enabled s) (window_geometry s)) in
      start_thread a7
        (mk_args folder query ext (recursive_var a7) (case_sensitive_var a7)).

(** [_on_query_enter] *)
Definition _on_query_enter (isdir : str -> bool) (is_alive : nat -> bool)
           (a : app) : app :=
  _on_search_clicked isdir is_alive true
    (set_focus_results_after_search a true).

End Gui.

(** ** The foreground and the worker threads together

    The threads started by [_on_search_clicked] run until they leave
    [_search_worker]; [alive] lists those that have not done so yet.
    Between two callbacks of the foreground a live worker may append to
    the result queue, and it may end. *)

Module System.

Import Gui.

Record sys : Type := mk_sys {
  gui : app;
  alive : list nat
}.

Definition is_alive (s : sys) (t : nat) : bool :=
  existsb (Nat.eqb t) (alive s).

(** The thread objects created between two states of the GUI. *)
Definition started (a a' : app) : list nat :=
  seq (List.length (spawned a))
      (List.length (spawned a') - List.length (spawned a)).

(** The user edits the entry fields and check boxes. *)
Definition edit (a : app) (folder query ext : str) (rec cs : bool) : app :=
  mk_app folder query ext rec cs (results a) (selection a) (active a)
         (results_focused a) (status_var a) (search_btn a) (stop_btn a)
         (stop_event a) (result_queue a) (folder_history a)
         (folder_combo_values a) (settings a) (search_thread a)
         (focus_results_after_search a) (spawned a) (dialogs a)
         (after_calls a).

Inductive step : sys -> sys -> Prop :=
| step_search_clicked (s : sys) (isdir : str -> bool) (from_query : bool) :
    step s
         (mk_sys (_on_search_clicked isdir (is_alive s) from_query (gui s))
                 (alive s ++
                  started (gui s)
                    (_on_search_clicked isdir (is_alive s) from_query (gui s))))
| step_query_enter (s : sys) (isdir : str -> bool) :
    step s
         (mk_sys (_on_query_enter isdir (is_alive s) (gui s))
                 (alive s ++
                  started (gui s)
                    (_on_query_enter isdir (is_alive s) (gui s))))
| step_stop_clicked (s : sys) :
    step s (mk_sys (_on_stop_clicked (gui s)) (alive s))
| step_clear_results (s : sys) :
    step s (mk_sys (_clear_results (gui s)) (alive s))
| step_poll_queue (s : sys) :
    step s (mk_sys (_poll_queue (gui s)) (alive s))
| step_edit (s : sys) (folder query ext : str) (rec cs : bool) :
    step s (mk_sys (edit (gui s) folder query ext rec cs) (alive s))
| step_worker_put (s : sys) (t : nat) (item : str) :
    In t (alive s) ->
    step s (mk_sys (set_result_queue (gui s) (result_queue (gui s) ++ [item]))
                   (alive s))
| step_worker_exit (s : sys) (t : nat) :
    In t (alive s) ->
    step s (mk_sys (gui s) (List.remove Nat.eq_dec t (alive s))).

(** After [__init__]: no thread object, nothing started. *)
Inductive reachable : sys -> Prop :=
| reach_init (a : app) :
    search_thread a = None -> spawned a = [] -> reachable (mk_sys a [])
| reach_step (s s' : sys) : reachable s -> step s s' -> reachable s'.

End System.

(** ** A runtime for ASCII text *)

Definition ascii_lower (c : N) : N :=
  if ((65 <=? c) && (c <=? 90))%N then (c + 32)%N else c.

Definition is_ascii (c : N) : bool := (c <? 128)%N.

(** On ASCII text [str.lower] lower-cases the letters A to Z and leaves
    every other character as it is. *)
Definition lower_agrees_on_ascii (R : PyRuntime) : Prop :=
  forall s, forallb is_ascii s = true -> str_lower s = map ascii_lower s.

(** The part of a Korean code page every table agrees on: the bytes
    below 128 are ASCII; the other bytes are left undecoded here. *)
Definition ascii_decode (data : bytes) : str :=
  map (fun b => if is_ascii (Byte.to_N b) then Byte.to_N b
                else Codec.REPLACEMENT) data.

Definition ascii_runtime : PyRuntime :=
  {| str_lower := map ascii_lower;
     cp949_decode := ascii_decode;
     euc_kr_decode := ascii_decode |}.

(** A state of the GUI as [__init__] leaves it, with two folders in
    the history. *)
Definition sample_app : Gui.app :=
  Gui.mk_app (u "/etc") [] (u ".conf") true false [] [] None false Gui.Ready
             Gui.NORMAL Gui.DISABLED false [] [u "/etc"; u "/srv"]
             [u "/etc"; u "/srv"]
             (Gui.mk_settings (u "SearchConf Finder") (u "/home") [u "/etc"; u "/srv"]
                              (u "/etc") [] (u ".conf") true false false true
                              (u "500x420"))
             None false [] [] [100].

(** ** Vocabulary of the statements *)

(** ["*" in ext or "?" in ext] *)
Definition has_wildcard (ext : str) : bool :=
  Py.contains (u "*") ext || Py.contains (u "?") ext.

(** The conditions under which [_on_search_clicked] goes past its
    three early returns. *)
Definition accepted (isdir : str -> bool) (is_alive : nat -> bool)
           (a : Gui.app) : Prop :=
  match Gui.search_thread a with Some t => is_alive t | None => false end = false /\
  Py.truthy (Py.strip (Gui.folder_var a)) = true /\
  isdir (Py.strip (Gui.folder_var a)) = true /\
  Py.truthy (Gui.query_var a) = true.

(** The characters [fnmatch.translate] gives a meaning of their own:
    the two wildcards and the opening bracket of a character class. *)
Definition glob_special (c : N) : bool :=
  ((c =? 42) || (c =? 63) || (c =? 91))%N.

Definition plain_text (s : str) : bool :=
  forallb (fun c => negb (glob_special c)) s.

(** A text the glob reads literally: every character of it stands for
    itself in [fnmatch.translate]. *)
Definition reads_literally (s : str) : Prop :=
  Fnmatch.translate s = map Fnmatch.Lit s.

(** The line test of the two branches of [_file_contains_text]. *)
Definition line_test {R : PyRuntime} (query : str) (case_sensitive : bool)
           (line : str) : bool :=
  if case_sensitive then Py.contains query line
  else Py.contains (str_lower query) (str_lower line).

(** A content test found the text: it returned [True]. *)
Definition found (r : res bool) : bool :=
  match r with
  | Ret true => true
  | _ => false
  end.

(** The candidates the loop examines when its first check is the
    [k]-th of the run: those before the first check that finds the stop
    event set. *)
Fixpoint visited (stop_event : nat -> bool) (k : nat) (files : list str)
  : list str :=
  match files with
  | [] => []
  | p :: files' =>
      if stop_event k then [] else p :: visited stop_event (S k) files'
  end.

(** The candidate at which the loop breaks, if it does. *)
Fixpoint broken_at (stop_event : nat -> bool) (k : nat) (files : list str)
  : option str :=
  match files with
  | [] => None
  | p :: files' =>
      if stop_event k then Some p else broken_at stop_event (S k) files'
  end.

(** What the worker does for a candidate it examines. *)
Definition visit_events (contains_text : str -> res bool) (p : str) : list event :=
  [EvNext p; EvIsSet false; EvMatch p (contains_text p)] ++
  (if found (contains_text p) then [EvPut p] else []).

(** What the worker does for the candidate at which it breaks. *)
Definition break_events (last : option str) : list event :=
  match last with
  | Some p => [EvNext p; EvIsSet true]
  | None => []
  end.

(** The items put on the queue, read off a trace. *)
Fixpoint puts (t : list event) : list str :=
  match t with
  | [] => []
  | EvPut item :: t' => item :: puts t'
  | _ :: t' => puts t'
  end.

(** The four bytes of ["café"] in Latin-1. *)
Definition latin1_sample : bytes := [Byte.x63; Byte.x61; Byte.x66; Byte.xe9].

(** The GUI while a search runs, the worker having put one path and
    the sentinel since the last tick. *)
Definition finishing_app : Gui.app :=
  Gui.mk_app (u "/etc") (u "port") (u ".conf") true false [] [] None false
             Gui.Searching Gui.DISABLED Gui.NORMAL false
             [u "/etc/x.conf"; SEARCH_DONE]
             [u "/etc"; u "/srv"] [u "/etc"; u "/srv"]
             (Gui.mk_settings (u "SearchConf Finder") (u "/home") [u "/etc"; u "/srv"]
                              (u "/etc") (u "port") (u ".conf") true false false
                              true (u "500x420"))
             (Some 0) false
             [Gui.mk_args (u "/etc") (u "port") (u ".conf") true false] [] [100].

(** The worker threads alive are at most the one [self.search_thread]
    names, and they are among the threads started. *)
Definition single_worker (s : System.sys) : Prop :=
  NoDup (System.alive s) /\
  (forall t, In t (System.alive s) ->
             Gui.search_thread (System.gui s) = Some t) /\
  (forall t, In t (System.alive s) ->
             t < List.length (Gui.spawned (System.gui s))).

(** The sample state after an accepted click on the search button, the
    worker being alive. *)
Definition running_sys : System.sys :=
  System.mk_sys
    (Gui._on_search_clicked (fun _ => true) (fun _ => false) false
       (System.edit sample_app (u "/etc") (u "port") (u "conf") true false))
    [0].

(** The tree of the scenario of the specification: the folder [a]
    holds [x.conf] ("port=1"), [b/y.conf] ("host=none") and [z.txt]
    ("port=1"). *)
Definition scenario_tree : node :=
  Directory [(u "x.conf", Regular);
             (u "b", Directory [(u "y.conf", Regular)]);
             (u "z.txt", Regular)].

Definition scenario_io (path : str) (enc : encoding) : open_result :=
  if Py.eqb path (u "a/x.conf") then Opened (ascii_bytes "port=1") None
  else if Py.eqb path (u "a/b/y.conf") then Opened (ascii_bytes "host=none") None
  else if Py.eqb path (u "a/z.txt") then Opened (ascii_bytes "port=1") None
  else OpenRaises FileNotFoundError.

(** ** Files of a directory tree *)

(** [file_at fs top name path]: the tree [fs], found at the path [top],
    holds an entry [name] that is no directory, and [os.walk] reaches
    it under the path [path]. *)
Inductive file_at : node -> str -> str -> str -> Prop :=
| file_here (entries : list (str * node)) (top name : str) (nd : node) :
    In (name, nd) entries -> is_dir nd = false ->
    file_at (Directory entries) top name (path_join top name)
| file_below (entries : list (str * node)) (top d : str) (sub : node)
             (name path : str) :
    In (d, sub) entries -> file_at sub (path_join top d) name path ->
    file_at (Directory entries) top name path.

(** The number of content tests in a trace. *)
Fixpoint tests (t : list event) : nat :=
  match t with
  | [] => 0
  | EvMatch _ _ :: t' => S (tests t')
  | _ :: t' => tests t'
  end.

(** ** Lines and text *)

(** A text with its line ends translated as text mode does: ["\r\n"]
    and ["\r"] become ["\n"]. *)
Fixpoint universal_newlines (s : str) : str :=
  match s with
  | [] => []
  | c :: s' =>
      if (c =? 13)%N then
        10%N :: match s' with
                | d :: s'' =>
                    if (d =? 10)%N then universal_newlines s''
                    else universal_newlines s'
                | [] => []
                end
      else c :: universal_newlines s'
  end.

(** The shape of the lines of a text file: every line ends with its
    only ["\n"], except that the last one may be a non-empty line
    without any. *)
Inductive lines_wf : list str -> Prop :=
| wf_none : lines_wf []
| wf_last (body : str) : body <> [] -> ~ In 10%N body -> lines_wf [body]
| wf_line (body : str) (ls : list str) :
    ~ In 10%N body -> lines_wf ls -> lines_wf ((body ++ [10%N]) :: ls).

(** ** The parts of the GUI state *)

(** An item of the queue that is not the sentinel. *)
Definition is_result (item : str) : bool := negb (Py.eqb item SEARCH_DONE).

(** What the user entered: folder, query, extension and the two check
    boxes. *)
Definition inputs (a : Gui.app) : str * str * str * bool * bool :=
  (Gui.folder_var a, Gui.query_var a, Gui.ext_var a, Gui.recursive_var a,
   Gui.case_sensitive_var a).

(** What a search in progress rests on, besides the queue: the stop
    event, the thread object and the threads started. *)
Definition search_control (a : Gui.app) : bool * option nat * list Gui.worker_args :=
  (Gui.stop_event a, Gui.search_thread a, Gui.spawned a).

(** What is kept across searches: the folder history, the values of
    the combo box and the settings. *)
Definition kept_data (a : Gui.app) : list str * list str * Gui.settings_t :=
  (Gui.folder_history a, Gui.folder_combo_values a, Gui.settings a).

(** Arguments a worker can work with: a folder, a query and an
    extension that are not empty. *)
Definition valid_args (args : Gui.worker_args) : Prop :=
  Gui.a_folder args <> [] /\ Gui.a_query args <> [] /\ Gui.a_ext args <> [].

(** ** The settings file: [load_settings] and [save_settings] *)

Module Settings.

(** The values a settings dictionary holds: what [json.load] returns.
    A float is kept as its 64 bits. *)
#[warnings="-register-all"] Inductive value : Type :=
| VNone
| VBool (b : bool)
| VInt (n : Z)
| VFloat (bits : N)
| VStr (s : str)
| VList (items : list value)
| VDict (entries : list (str * value)).

(** A Python [dict] with string keys: the entries in insertion order,
    each key once. *)
Definition dict : Type := list (str * value).

(** [list(d)]: the keys in insertion order. *)
Definition dict_keys (d : dict) : list str := map fst d.

(** [d.get(k)] *)
Fixpoint dict_get (k : str) (d : dict) : option value :=
  match d with
  | [] => None
  | (k', v) :: d' => if Py.eqb k k' then Some v else dict_get k d'
  end.

(** [k in d] *)
Definition dict_has (k : str) (d : dict) : bool :=
  existsb (fun e => Py.eqb k (fst e)) d.

(** [d[k] = v]: the value of an existing key is replaced where it
    stands, a new key is appended. *)
Fixpoint dict_set (k : str) (v : value) (d : dict) : dict :=
  match d with
  | [] => [(k, v)]
  | (k', v') :: d' =>
      if Py.eqb k k' then (k', v) :: d' else (k', v') :: dict_set k v d'
  end.

(** The dictionary built from key-value pairs, as a comprehension
    [{k: v for ...}] builds it. *)
Definition dict_of_items (items : list (str * value)) : dict :=
  fold_left (fun d e => dict_set (fst e) (snd e) d) items [].

(** [d.update(other)] *)
Definition dict_update (d other : dict) : dict :=
  fold_left (fun acc e => dict_set (fst e) (snd e) acc) other d.

(** [DEFAULT_SETTINGS]; [home] is [str(Path.home())]. *)
Definition DEFAULT_SETTINGS (home : str) : dict :=
  [ (u "program_name", VStr (u "SearchConf Finder"));
    (u "default_folder", VStr home);
    (u "folder_history", VList []);
    (u "last_folder", VStr []);
    (u "last_query", VStr []);
    (u "last_extension", VStr (u ".conf"));
    (u "recursive", VBool true);
    (u "case_sensitive", VBool false);
    (u "autorun", VBool false);
    (u "global_hotkey_enabled", VBool true);
    (u "window_geometry", VStr (u "500x420")) ].

(** [{k: (list(v) if isinstance(v, list) else v)
      for k, v in DEFAULT_SETTINGS.items()}]: the copy of a list has
    the items of the list. *)
Definition fresh_defaults (home : str) : dict :=
  map (fun e => (fst e, match snd e with
                        | VList items => VList items
                        | v => v
                        end))
      (DEFAULT_SETTINGS home).

(** What is found at [CONFIG_PATH]: no file, a file that cannot be
    opened, a file [json.load] rejects, or a file with the value
    [json.load] returns. *)
Inductive config_file : Type :=
| NoFile
| Unreadable (e : exn)
| NotJson
| Content (v : value).

Definition load_settings (home : str) (file : config_file) : dict :=
  match file with
  | NoFile => fresh_defaults home
  | Content (VDict data) =>
      dict_update
        (fresh_defaults home)
        (dict_of_items
           (filter (fun e => dict_has (fst e) (DEFAULT_SETTINGS home)) data))
  | _ => fresh_defaults home
  end.

(** How a [save_settings] goes: the file is written, and [json.load]
    reads from it the value [json.dump] was given; or the directory
    or the file cannot be made or opened, and the file stays as it is;
    or [json.dump] raises after the file was opened for writing, which
    leaves a truncated file. *)
Inductive save_outcome : Type := Saved | CannotOpen | DumpRaises.

Definition save_settings (outcome : save_outcome) (settings : dict)
           (file : config_file) : config_file :=
  match outcome with
  | Saved => Content (VDict settings)
  | CannotOpen => file
  | DumpRaises => NotJson
  end.

End Settings.

(** ** Start and end of a session: [_apply_initial_values],
    [_browse_folder] and [_save_settings] *)

Module Session.

Import Gui.

Section Setters.

Variable a : app.

Definition set_folder_var (v : str) : app :=
  mk_app v (query_var a) (ext_var a) (recursive_var a)
         (case_sensitive_var a) (results a) (selection a) (active a)
         (results_focused a) (status_var a) (search_btn a) (stop_btn a)
         (stop_event a) (result_queue a) (folder_history a)
         (folder_combo_values a) (settings a) (search_thread a)
         (focus_results_after_search a) (spawned a) (dialogs a)
         (after_calls a).

Definition set_query_var (v : str) : app :=
  mk_app (folder_var a) v (ext_var a) (recursive_var a)
         (case_sensitive_var a) (results a) (selection a) (active a)
         (results_focused a) (status_var a) (search_btn a) (stop_btn a)
         (stop_event a) (result_queue a) (folder_history a)
         (folder_combo_values a) (settings a) (search_thread a)
         (focus_results_after_search a) (spawned a) (dialogs a)
         (after_calls a).

Definition set_recursive_var (v : bool) : app :=
  mk_app (folder_var a) (query_var a) (ext_var a) v
         (case_sensitive_var a) (results a) (selection a) (active a)
         (results_focused a) (status_var a) (search_btn a) (stop_btn a)
         (stop_event a) (result_queue a) (folder_history a)
         (folder_combo_values a) (settings a) (search_thread a)
         (focus_results_after_search a) (spawned a) (dialogs a)
         (after_calls a).

Definition set_case_sensitive_var (v : bool) : app :=
  mk_app (folder_var a) (query_var a) (ext_var a) (recursive_var a)
         v (results a) (selection a) (active a)
         (results_focused a) (status_var a) (search_btn a) (stop_btn a)
         (stop_event a) (result_queue a) (folder_history a)
         (folder_combo_values a) (settings a) (search_thread a)
         (focus_results_after_search a) (spawned a) (dialogs a)
         (after_calls a).

End Setters.

Definition APP_NAME_DEFAULT : str := u "SearchConf Finder".

(** [_focus_query_entry]: the keyboard focus goes to the query entry,
    away from the result list.  The selection inside the entry is not
    part of the state. *)
Definition _focus_query_entry (a : app) : app := set_results_focused a false.

(** [if x in lst: lst.remove(x)] followed by [lst.insert(0, x)] *)
Definition move_to_front (x : str) (l : list str) : list str :=
  x :: (if list_in x l then list_remove x l else l).

(** [_apply_initial_values]; [home] is [str(Path.home())]. *)
Definition _apply_initial_values (home : str) (a : app) : app :=
  let s := settings a in
  let default_folder :=
      if Py.truthy (default_folder s) then default_folder s else home in
  let last_folder :=
      if Py.truthy (last_folder s) then last_folder s else default_folder in
  let a1 := if Py.truthy last_folder
            then set_folder_history a
                   (move_to_front last_folder (folder_history a))
            else if Py.truthy default_folder
            then set_folder_history a
                   (move_to_front default_folder (folder_history a))
            else a in
  let a2 := set_folder_var a1 last_folder in
  let a3 := set_folder_combo_values a2 (folder_history a2) in
  let s3 := settings a3 in
  let a4 := set_settings a3
              (mk_settings (program_name s3) (Gui.default_folder s3)
                 (folder_history a3) (Gui.last_folder s3) (last_query s3)
                 (last_extension s3) (s_recursive s3) (s_case_sensitive s3)
                 (autorun s3) (global_hotkey_enabled s3)
                 (window_geometry s3)) in
  let a5 := set_query_var a4 (last_query (settings a4)) in
  let ext := if Py.truthy (last_extension (settings a5))
             then last_extension (settings a5) else u ".conf" in
  let ext := if negb (Py.truthy (Py.strip ext)) then u ".conf" else ext in
  let a6 := set_ext_var a5 ext in
  let a7 := set_recursive_var a6 (s_recursive (settings a6)) in
  let a8 := set_case_sensitive_var a7 (s_case_sensitive (settings a7)) in
  let a9 := set_status_var a8 Ready in
  _focus_query_entry a9.

(** [_browse_folder]; [chosen] is what [filedialog.askdirectory]
    returns, empty when the dialog is cancelled. *)
Definition _browse_folder (chosen : str) (a : app) : app :=
  if Py.truthy chosen then
    let a1 := set_folder_var a chosen in
    let s := settings a1 in
    let a2 := set_settings a1
                (mk_settings (program_name s) (default_folder s)
                   (s_folder_history s) chosen (last_query s)
                   (last_extension s) (s_recursive s) (s_case_sensitive s)
                   (autorun s) (global_hotkey_enabled s)
                   (window_geometry s)) in
    _update_folder_history chosen a2
  else a.

(** The dictionary [self.settings], with the values of the types of
    [DEFAULT_SETTINGS]. *)
Definition to_dict (s : settings_t) : Settings.dict :=
  [ (u "program_name", Settings.VStr (program_name s));
    (u "default_folder", Settings.VStr (default_folder s));
    (u "folder_history",
     Settings.VList (map Settings.VStr (s_folder_history s)));
    (u "last_folder", Settings.VStr (last_folder s));
    (u "last_query", Settings.VStr (last_query s));
    (u "last_extension", Settings.VStr (last_extension s));
    (u "recursive", Settings.VBool (s_recursive s));
    (u "case_sensitive", Settings.VBool (s_case_sensitive s));
    (u "autorun", Settings.VBool (autorun s));
    (u "global_hotkey_enabled", Settings.VBool (global_hotkey_enabled s));
    (u "window_geometry", Settings.VStr (window_geometry s)) ].

Definition as_str (v : option Settings.value) : option str :=
  match v with Some (Settings.VStr s) => Some s | _ => None end.

Definition as_bool (v : option Settings.value) : option bool :=
  match v with Some (Settings.VBool b) => Some b | _ => None end.

Fixpoint strings (items : list Settings.value) : option (list str) :=
  match items with
  | [] => Some []
  | Settings.VStr s :: items' =>
      match strings items' with
      | Some l => Some (s :: l)
      | None => None
      end
  | _ => None
  end.

Definition as_str_list (v : option Settings.value) : option (list str) :=
  match v with Some (Settings.VList items) => strings items | _ => None end.

(** The settings a dictionary stands for, when its values have the
    types of [DEFAULT_SETTINGS]. *)
Definition of_dict (d : Settings.dict) : option settings_t :=
  match as_str (Settings.dict_get (u "program_name") d) with
  | None => None
  | Some v1 =>
  match as_str (Settings.dict_get (u "default_folder") d) with
  | None => None
  | Some v2 =>
  match as_str_list (Settings.dict_get (u "folder_history") d) with
  | None => None
  | Some v3 =>
  match as_str (Settings.dict_get (u "last_folder") d) with
  | None => None
  | Some v4 =>
  match as_str (Settings.dict_get (u "last_query") d) with
  | None => None
  | Some v5 =>
  match as_str (Settings.dict_get (u "last_extension") d) with
  | None => None
  | Some v6 =>
  match as_bool (Settings.dict_get (u "recursive") d) with
  | None => None
  | Some v7 =>
  match as_bool (Settings.dict_get (u "case_sensitive") d) with
  | None => None
  | Some v8 =>
  match as_bool (Settings.dict_get (u "autorun") d) with
  | None => None
  | Some v9 =>
  match as_bool (Settings.dict_get (u "global_hotkey_enabled") d) with
  | None => None
  | Some v10 =>
  match as_str (Settings.dict_get (u "window_geometry") d) with
  | None => None
  | Some v11 => Some (mk_settings v1 v2 v3 v4 v5 v6 v7 v8 v9 v10 v11)
  end end end end end end end end end end end.

(** [_save_settings].  [title] is [self.root.title()], [geometry] what
    [self.root.winfo_geometry()] returns ([None] when it raises);
    the second component is the settings file afterwards. *)
Definition _save_settings (home title : str) (geometry : option str)
           (outcome : Settings.save_outcome) (a : app)
           (file : Settings.config_file) : app * Settings.config_file :=
  let s := settings a in
  let s' :=
      mk_settings
        (if Py.truthy title then title else APP_NAME_DEFAULT)
        (if Py.truthy (default_folder s) then default_folder s
         else if Py.truthy (folder_var a) then folder_var a else home)
        (folder_history a) (folder_var a) (query_var a) (ext_var a)
        (recursive_var a) (case_sensitive_var a) (autorun s)
        (global_hotkey_enabled s)
        (match geometry with Some g => g | None => window_geometry s end) in
  (set_settings a s', Settings.save_settings outcome (to_dict s') file).

(** The callbacks of the foreground, those of [System.step] and the
    two above, and the runs they make. *)
Inductive step : System.sys -> System.sys -> Prop :=
| step_system (s s' : System.sys) : System.step s s' -> step s s'
| step_browse_folder (s : System.sys) (chosen : str) :
    step s (System.mk_sys (_browse_folder chosen (System.gui s))
                          (System.alive s))
| step_save_settings (s : System.sys) (home title : str)
                     (geometry : option str)
                     (outcome : Settings.save_outcome)
                     (file : Settings.config_file) :
    step s (System.mk_sys
              (fst (_save_settings home title geometry outcome
                                   (System.gui s) file))
              (System.alive s)).

Inductive run (s : System.sys) : System.sys -> Prop :=
| run_none : run s s
| run_step (s' s'' : System.sys) : run s s' -> step s' s'' -> run s s''.

End Session.

(** The search button and the stop button are never both enabled nor
    both disabled. *)
Definition buttons_paired (a : Gui.app) : Prop :=
  (Gui.search_btn a = Gui.NORMAL /\ Gui.stop_btn a = Gui.DISABLED) \/
  (Gui.search_btn a = Gui.DISABLED /\ Gui.stop_btn a = Gui.NORMAL).

(** The combo box and the settings show the folder history, which has
    no entry twice and at most fifteen entries. *)
Definition history_kept (a : Gui.app) : Prop :=
  Gui.folder_combo_values a = Gui.folder_history a /\
  Gui.s_folder_history (Gui.settings a) = Gui.folder_history a /\
  NoDup (Gui.folder_history a) /\
  List.length (Gui.folder_history a) <= 15.

(** The first string that is not empty, [a or b or c]. *)
Definition first_nonempty (a b c : str) : str :=
  if Py.truthy a then a else if Py.truthy b then b else c.

(** The three places the folder history is kept in. *)
Definition kept_data_history (a : Gui.app) : list str * list str * list str :=
  (Gui.folder_history a, Gui.folder_combo_values a,
   Gui.s_folder_history (Gui.settings a)).

(** ** Start with Windows: [set_autorun] and [_ensure_autorun_state] *)

Module Autorun.

(** The registry key [HKEY_CURRENT_USER\...\CurrentVersion\Run] as the
    program meets it: missing ([OpenKey] raises [FileNotFoundError]),
    not to be opened with [KEY_ALL_ACCESS] ([OpenKey] raises another
    error), or open, with the data of the value [RUN_ENTRY_NAME] when
    there is such a value. *)
Inductive run_key : Type :=
| Missing
| Denied
| Present (entry : option str).

(** [creatable] tells whether [CreateKey] succeeds. *)
Record registry : Type := mk_registry {
  key : run_key;
  creatable : bool
}.

(** [f'"{get_executable_path()}"'] *)
Definition command (exe : str) : str := 34%N :: exe ++ [34%N].

(** [set_autorun]; [on_windows] is [winreg is not None and
    os.name == "nt"], [exe] is [get_executable_path()]. *)
Definition set_autorun (on_windows : bool) (exe : str) (enabled : bool)
           (r : registry) : bool * registry :=
  if negb on_windows then (false, r)
  else
    match key r with
    | Present entry =>
        if enabled
        then (true, mk_registry (Present (Some (command exe))) (creatable r))
        else match entry with
             | Some _ => (true, mk_registry (Present None) (creatable r))
             | None => (true, r)
             end
    | Missing =>
        if creatable r
        then if enabled
             then (true, mk_registry (Present (Some (command exe)))
                                      (creatable r))
             else (true, mk_registry (Present None) (creatable r))
        else (false, r)
    | Denied => (false, r)
    end.

(** [_ensure_autorun_state] *)
Definition _ensure_autorun_state (on_windows : bool) (exe : str)
           (a : Gui.app) (r : registry) : Gui.app * registry :=
  let desired := Gui.autorun (Gui.settings a) in
  let (success, r') := set_autorun on_windows exe desired r in
  if negb success && desired
  then let s := Gui.settings a in
       (Gui.set_settings a
          (Gui.mk_settings (Gui.program_name s) (Gui.default_folder s)
             (Gui.s_folder_history s) (Gui.last_folder s) (Gui.last_query s)
             (Gui.last_extension s) (Gui.s_recursive s)
             (Gui.s_case_sensitive s) false (Gui.global_hotkey_enabled s)
             (Gui.window_geometry s)),
        r')
  else (a, r').

End Autorun.

(** ** The global hot keys: [HotkeyThread._register_hotkeys] and
    [HotkeyThread._unregister_hotkeys] *)

Module Hotkey.

Definition MOD_CONTROL : N := 2.
Definition MOD_SHIFT : N := 4.
Definition MOD_NOREPEAT : N := 16384.

(** Ctrl+Shift+8 and Ctrl+Multiply *)
Definition combos : list (N * N) :=
  [ (N.lor (N.lor MOD_CONTROL MOD_SHIFT) MOD_NOREPEAT, 56%N);
    (N.lor MOD_CONTROL MOD_NOREPEAT, 106%N) ].

Definition base_id : N := 40960.

(** The fields of the thread object the two functions use, and
    [held]: the hot keys the system holds for the thread, each with
    its identifier, modifiers and key. *)
Record thread : Type := mk_thread {
  hotkey_ids : list N;
  failed : bool;
  held : list (N * N * N)
}.

Section Register.

(** The answer of [RegisterHotKey], given what the thread holds and
    the identifier, the modifiers and the key asked for. *)
Variable grants : list (N * N * N) -> N -> N -> N -> bool.

(** The loop [for idx, (mods, key) in enumerate(combos)], from [idx]
    on. *)
Fixpoint register_from (idx : N) (cs : list (N * N)) (t : thread) : thread :=
  match cs with
  | [] => t
  | (mods, key) :: cs' =>
      let hotkey_id := (base_id + idx)%N in
      if negb (grants (held t) hotkey_id mods key)
      then mk_thread (hotkey_ids t) true (held t)
      else register_from (idx + 1)%N cs'
             (mk_thread (hotkey_ids t ++ [hotkey_id]) (failed t)
                        (held t ++ [(hotkey_id, mods, key)]))
  end.

(** [UnregisterHotKey(None, hotkey_id)] *)
Definition unregister (hotkey_id : N) (h : list (N * N * N)) : list (N * N * N) :=
  filter (fun e => negb (N.eqb (fst (fst e)) hotkey_id)) h.

Definition _unregister_hotkeys (t : thread) : thread :=
  mk_thread [] (failed t)
            (fold_left (fun h hotkey_id => unregister hotkey_id h)
                       (hotkey_ids t) (held t)).

Definition _register_hotkeys (t : thread) : thread :=
  let t1 := register_from 0%N combos t in
  if failed t1 then _unregister_hotkeys t1 else t1.

End Register.

End Hotkey.

(** The identifiers of the hot keys held. *)
Definition held_ids (t : Hotkey.thread) : list N :=
  map (fun e => fst (fst e)) (Hotkey.held t).

(** * Properties *)

(** Evaluation of the record updates of the GUI state, once the state
    is a constructor. *)
Ltac gui_eval :=
  cbv beta iota zeta delta
    [Gui.set_ext_var Gui.set_results Gui.set_selection Gui.set_active
     Gui.set_results_focused Gui.set_status_var Gui.set_search_btn
     Gui.set_stop_btn Gui.set_stop_event Gui.set_result_queue
     Gui.set_folder_history Gui.set_folder_combo_values Gui.set_settings
     Gui.set_focus_results_after_search Gui.start_thread Gui.show_dialog
     Gui.root_after Gui._update_folder_history Gui._clear_results
     Gui._on_stop_clicked Gui.on_done System.edit
     Gui.folder_var Gui.query_var Gui.ext_var Gui.recursive_var
     Gui.case_sensitive_var Gui.results Gui.selection Gui.active
     Gui.results_focused Gui.status_var Gui.search_btn Gui.stop_btn
     Gui.stop_event Gui.result_queue Gui.folder_history
     Gui.folder_combo_values Gui.settings Gui.search_thread
     Gui.focus_results_after_search Gui.spawned Gui.dialogs Gui.after_calls
     Gui.s_folder_history Gui.program_name Gui.default_folder Gui.last_folder
     Gui.last_query Gui.last_extension Gui.s_recursive Gui.s_case_sensitive
     Gui.autorun Gui.global_hotkey_enabled Gui.window_geometry
     Gui.a_folder Gui.a_query Gui.a_ext Gui.a_recursive Gui.a_case_sensitive
     fst snd].

(** ** Strings *)

Lemma Py_eqb_eq (a b : str) : Py.eqb a b = true <-> a = b.
Proof.
  revert b.
  induction a as [|x a IH]; intros [|y b]; simpl; split; intro H;
    try reflexivity; try discriminate.
  - apply andb_true_iff in H as [Hx Hr].
    apply N.eqb_eq in Hx. apply IH in Hr. congruence.
  - injection H as -> ->.
    rewrite N.eqb_refl. simpl. now apply IH.
Qed.

Lemma Py_eqb_refl (a : str) : Py.eqb a a = true.
Proof. now apply Py_eqb_eq. Qed.

Lemma Py_eqb_neq (a b : str) : Py.eqb a b = false <-> a <> b.
Proof.
  rewrite <- Py_eqb_eq. destruct (Py.eqb a b); split; congruence.
Qed.

Lemma startswith_spec (s p : str) :
  Py.startswith s p = true <-> exists r, s = p ++ r.
Proof.
  revert s.
  induction p as [|c p IH]; intros s; simpl.
  - split; [intros _; now exists s | reflexivity].
  - destruct s as [|d s].
    + split; [discriminate | intros [r Hr]; discriminate].
    + rewrite andb_true_iff, N.eqb_eq, IH. split.
      * intros [-> [r ->]]. now exists r.
      * intros [r Hr]. injection Hr as -> ->. split; [reflexivity | now exists r].
Qed.

Lemma endswith_spec (s x : str) :
  Py.endswith s x = true <-> exists r, s = r ++ x.
Proof.
  unfold Py.endswith. rewrite startswith_spec. split.
  - intros [r Hr]. exists (rev r).
    rewrite <- (rev_involutive s), Hr, rev_app_distr, rev_involutive.
    reflexivity.
  - intros [r ->]. exists (rev r). now rewrite rev_app_distr.
Qed.

Lemma contains_spec (sub s : str) :
  Py.contains sub s = true <-> exists a b, s = a ++ sub ++ b.
Proof.
  induction s as [|c s IH]; simpl.
  - rewrite orb_false_r, startswith_spec. split.
    + intros [r Hr]. now exists [], r.
    + intros [a [b Hab]].
      destruct a; [now exists b | discriminate].
  - rewrite orb_true_iff, startswith_spec, IH. split.
    + intros [[r Hr] | [a [b Hab]]].
      * now exists [], r.
      * exists (c :: a), b. simpl. now rewrite Hab.
    + intros [a [b Hab]]. destruct a as [|d a]; simpl in Hab.
      * left. now exists b.
      * right. injection Hab as _ ->. now exists a, b.
Qed.

(** ** Extension normalisation *)

Lemma pattern_wildcard (ext : str) :
  has_wildcard ext = true -> pattern ext = ext.
Proof.
  unfold has_wildcard, pattern, normalized_ext. intro H.
  assert (Hn : Py.startswith ext (u ".") || Py.contains (u "*") ext
               || Py.contains (u "?") ext = true).
  { rewrite <- orb_assoc, H. apply orb_true_r. }
  rewrite Hn. simpl existsb. change [42%N] with (u "*"). change [63%N] with (u "?").
  rewrite orb_false_r, H. reflexivity.
Qed.

Lemma pattern_plain (ext : str) :
  has_wildcard ext = false ->
  pattern ext =
  u "*" ++ (if Py.startswith ext (u ".") then ext else u "." ++ ext).
Proof.
  unfold has_wildcard, pattern, normalized_ext. intro H.
  apply orb_false_iff in H as [Hs Hq].
  rewrite <- orb_assoc, Hs, Hq, !orb_false_r.
  destruct (Py.startswith ext (u ".")); simpl existsb.
  - change [42%N] with (u "*"). change [63%N] with (u "?").
    now rewrite Hs, Hq.
  - change [42%N] with (u "*"). change [63%N] with (u "?").
    now rewrite Hs, Hq.
Qed.

Section SearchAccepted.

Import Gui.

Variable isdir : str -> bool.
Variable is_alive : nat -> bool.
Variable from_query : bool.
Variable a : app.

Lemma accepted_starts_worker :
  accepted isdir is_alive a ->
  let ext := if Py.truthy (Py.strip (ext_var a))
             then Py.strip (ext_var a) else u ".conf" in
  let a' := _on_search_clicked isdir is_alive from_query a in
  spawned a' =
  spawned a ++ [mk_args (Py.strip (folder_var a)) (query_var a) ext
                        (recursive_var a) (case_sensitive_var a)] /\
  search_thread a' = Some (List.length (spawned a)) /\
  ext_var a' = (if Py.truthy (Py.strip (ext_var a)) then ext_var a else u ".conf").
Proof.
  intros (Hal & Hf & Hd & Hq). unfold _on_search_clicked.
  rewrite Hal, Hf, Hd, Hq. simpl negb. simpl orb. cbv iota.
  destruct a; gui_eval.
  destruct (Py.truthy (Py.strip ext_var0)); gui_eval;
    destruct (list_in _ _); gui_eval; auto.
Qed.

End SearchAccepted.

(** C4.  The glob used for the name test: ["conf"] and [".conf"] give
    ["*.conf"], ["*.txt"] stays as it is, as does every extension that
    contains ["*"] or ["?"]; an extension without wildcard gets its dot
    (if missing) and a leading ["*"]; and when the extension field is
    empty or blank, an accepted search puts [".conf"] into the field
    and starts the worker with it, whose glob is ["*.conf"]. *)
Theorem extension_normalization :
  pattern (u "conf") = u "*.conf" /\
  pattern (u ".conf") = u "*.conf" /\
  pattern (u "*.txt") = u "*.txt" /\
  (forall ext, has_wildcard ext = true -> pattern ext = ext) /\
  (forall ext, has_wildcard ext = false ->
     pattern ext =
     u "*" ++ (if Py.startswith ext (u ".") then ext else u "." ++ ext)) /\
  (forall isdir is_alive from_query a,
     accepted isdir is_alive a ->
     Py.strip (Gui.ext_var a) = [] ->
     let a' := Gui._on_search_clicked isdir is_alive from_query a in
     Gui.ext_var a' = u ".conf" /\
     exists args,
       Gui.spawned a' = Gui.spawned a ++ [args] /\
       Gui.a_ext args = u ".conf" /\
       pattern (Gui.a_ext args) = u "*.conf").
Proof.
  repeat split; try reflexivity.
  - apply pattern_wildcard.
  - apply pattern_plain.
  - destruct (accepted_starts_worker from_query H) as (_ & _ & He).
    rewrite He, H0. reflexivity.
  - destruct (accepted_starts_worker from_query H) as (Hs & _ & _).
    rewrite H0 in Hs. simpl in Hs.
    eexists. split; [exact Hs|]. split; reflexivity.
Qed.

Lemma extension_normalization_witness :
  has_wildcard (u "c?nf") = true /\
  pattern (u "c?nf") = u "c?nf" /\
  has_wildcard (u "ini") = false /\
  pattern (u "ini") = u "*" ++ u ".ini" /\
  accepted (fun _ => true) (fun _ => false)
           (System.edit sample_app (u "/etc") (u "port") (u "  ") true false) /\
  Gui.ext_var
    (Gui._on_search_clicked (fun _ => true) (fun _ => false) false
       (System.edit sample_app (u "/etc") (u "port") (u "  ") true false))
  = u ".conf".
Proof.
  destruct extension_normalization as (_ & _ & _ & Hw & Hp & Hd).
  assert (Hacc : accepted (fun _ => true) (fun _ => false)
                   (System.edit sample_app (u "/etc") (u "port") (u "  ") true false)).
  { repeat split. }
  split; [reflexivity|]. split; [apply Hw; reflexivity|].
  split; [reflexivity|]. split; [exact (Hp (u "ini") eq_refl)|].
  split; [exact Hacc|].
  exact (proj1 (Hd (fun _ => true) (fun _ => false) false _ Hacc eq_refl)).
Defined.

(** ** The name test: glob match and suffix comparison *)

Lemma translate_from_plain (s : str) (fuel : nat) :
  plain_text s = true -> List.length s <= fuel ->
  Fnmatch.translate_from fuel s = map Fnmatch.Lit s.
Proof.
  revert fuel.
  induction s as [|c s IH]; intros fuel Hp Hf.
  - destruct fuel; reflexivity.
  - destruct fuel as [|fuel]; [simpl in Hf; lia|].
    simpl in Hp. apply andb_true_iff in Hp as [Hc Hs].
    unfold glob_special in Hc. rewrite !negb_orb in Hc.
    apply andb_true_iff in Hc as [Hc H91].
    apply andb_true_iff in Hc as [H42 H63].
    apply negb_true_iff in H42, H63, H91.
    simpl. rewrite H42, H63, H91.
    rewrite IH; [reflexivity | assumption | simpl in Hf; lia].
Qed.

Lemma plain_text_reads_literally (s : str) :
  plain_text s = true -> reads_literally s.
Proof.
  intro Hp. apply translate_from_plain; [assumption | lia].
Qed.

Lemma translate_suffix_glob (ext : str) :
  Fnmatch.translate (u "*." ++ ext) =
  Fnmatch.Star :: Fnmatch.Lit 46 :: Fnmatch.translate ext.
Proof. reflexivity. Qed.

Lemma matches_lits (x s : str) :
  Fnmatch.matches (map Fnmatch.Lit x) s = true <-> s = x.
Proof.
  revert s.
  induction x as [|c x IH]; intros [|d s]; simpl; split; intro H;
    try reflexivity; try discriminate.
  - apply andb_true_iff in H as [Hc Hr].
    apply N.eqb_eq in Hc. apply IH in Hr. congruence.
  - injection H as -> ->. rewrite N.eqb_refl. simpl. now apply IH.
Qed.

Lemma matches_star_unfold (ts : list Fnmatch.tok) (s : str) :
  Fnmatch.matches (Fnmatch.Star :: ts) s =
  Fnmatch.matches ts s ||
  match s with
  | [] => false
  | _ :: s' => Fnmatch.matches (Fnmatch.Star :: ts) s'
  end.
Proof. destruct s; reflexivity. Qed.

Lemma matches_star_lits (x s : str) :
  Fnmatch.matches (Fnmatch.Star :: map Fnmatch.Lit x) s = true <->
  exists r, s = r ++ x.
Proof.
  induction s as [|c s IH]; rewrite matches_star_unfold, orb_true_iff, matches_lits.
  - split.
    + intros [<- | H]; [now exists [] | discriminate].
    + intros [r Hr]. left. destruct r; [assumption | discriminate].
  - rewrite IH. split.
    + intros [<- | [r ->]]; [now exists [] | now exists (c :: r)].
    + intros [[|d r] Hr]; [now left | right].
      injection Hr as _ ->. now exists r.
Qed.

Lemma fnmatch_suffix_glob (ext name : str) :
  reads_literally ext ->
  Fnmatch.fnmatch name (u "*." ++ ext) = Py.endswith name (u "." ++ ext).
Proof.
  intro Hl.
  unfold Fnmatch.fnmatch, Fnmatch.normcase, Fnmatch.fnmatchcase.
  rewrite translate_suffix_glob, Hl.
  apply eq_true_iff_eq.
  change (Fnmatch.Lit 46 :: map Fnmatch.Lit ext)
    with (map Fnmatch.Lit (u "." ++ ext)).
  now rewrite matches_star_lits, endswith_spec.
Qed.

(** C8.  For a pattern ["*." ++ ext] whose [ext] is a literal suffix,
    that is, a text in which the glob gives no character a special
    meaning, the test of [_iter_files] (glob match or suffix
    comparison) gives for every file name the same answer as the
    case-sensitive glob match alone: the suffix branch admits no
    further name. *)
Theorem suffix_branch_redundant (ext name : str) :
  reads_literally ext ->
  name_matches name (u "*." ++ ext) = Fnmatch.fnmatch name (u "*." ++ ext).
Proof.
  intro Hl. unfold name_matches.
  rewrite fnmatch_suffix_glob by assumption.
  change (tl (u "*." ++ ext)) with (u "." ++ ext).
  change (Py.startswith (u "*." ++ ext) (u "*.")) with true.
  simpl andb. apply orb_diag.
Qed.

Lemma suffix_branch_redundant_witness :
  reads_literally (u "conf") /\
  name_matches (u "nginx.conf") (u "*." ++ u "conf") =
  Fnmatch.fnmatch (u "nginx.conf") (u "*." ++ u "conf").
Proof.
  split; [reflexivity|].
  apply (@suffix_branch_redundant (u "conf") (u "nginx.conf")). reflexivity.
Defined.

(** Every text without ["*"], ["?"] and ["["] is such a literal suffix,
    and so is a text with a bracket that is never closed. *)
Lemma literal_suffixes :
  (forall ext, plain_text ext = true -> reads_literally ext) /\
  reads_literally (u "[c").
Proof. split; [apply plain_text_reads_literally | reflexivity]. Qed.

(** The suffix has to be literal.  The extension [".[ch]"] contains
    neither ["*"] nor ["?"], so the worker wraps it into the glob
    ["*.[ch]"]; the glob reads the bracket as a character class and
    rejects the file name ["x.[ch]"], which the suffix comparison
    admits. *)
Lemma suffix_branch_admits_more :
  has_wildcard (u ".[ch]") = false /\
  pattern (u ".[ch]") = u "*.[ch]" /\
  Fnmatch.fnmatch (u "x.[ch]") (u "*.[ch]") = false /\
  name_matches (u "x.[ch]") (u "*.[ch]") = true.
Proof. repeat split; vm_compute; reflexivity. Qed.

(** ** The folder history *)

Section FolderHistory.

Import Gui.

Lemma list_in_spec (x : str) (l : list str) : list_in x l = true <-> In x l.
Proof.
  unfold list_in. rewrite existsb_exists. split.
  - intros [y [Hy He]]. apply Py_eqb_eq in He. now subst.
  - intro H. exists x. split; [assumption | apply Py_eqb_refl].
Qed.

Lemma list_remove_incl (x y : str) (l : list str) :
  In y (list_remove x l) -> In y l.
Proof.
  induction l as [|z l IH]; simpl; [tauto|].
  destruct (Py.eqb x z); simpl; tauto.
Qed.

Lemma list_remove_NoDup (x : str) (l : list str) :
  NoDup l -> NoDup (list_remove x l) /\ ~ In x (list_remove x l).
Proof.
  induction 1 as [|z l Hz Hl [IH1 IH2]]; simpl.
  - split; [constructor | tauto].
  - destruct (Py.eqb x z) eqn:E.
    + apply Py_eqb_eq in E. subst z. now split.
    + apply Py_eqb_neq in E. split.
      * constructor; [|assumption].
        intro H. apply Hz. eapply list_remove_incl, H.
      * simpl. intros [H|H]; [congruence | tauto].
Qed.

Lemma firstn_NoDup (n : nat) (l : list str) : NoDup l -> NoDup (firstn n l).
Proof.
  intro H. revert n.
  induction H as [|z l Hz Hl IH]; intros [|n]; simpl; try constructor.
  - intro Hin. apply Hz.
    rewrite <- (firstn_skipn n l). apply in_or_app. now left.
  - apply IH.
Qed.

(** The list [_update_folder_history] leaves in [self.folder_history]. *)
Lemma folder_history_after (folder : str) (a : app) :
  folder_history (_update_folder_history folder a) =
  firstn 15 (folder :: (if list_in folder (folder_history a)
                        then list_remove folder (folder_history a)
                        else folder_history a)).
Proof.
  destruct a. gui_eval. destruct (list_in _ _); reflexivity.
Qed.

Lemma folder_history_mirrored (folder : str) (a : app) :
  folder_combo_values (_update_folder_history folder a) =
    folder_history (_update_folder_history folder a) /\
  s_folder_history (settings (_update_folder_history folder a)) =
    folder_history (_update_folder_history folder a).
Proof.
  destruct a. gui_eval. destruct (list_in _ _); gui_eval; split; reflexivity.
Qed.

End FolderHistory.

(** C10.  After [_update_folder_history folder] the history starts with
    [folder], has at most 15 entries and, if it had no duplicates
    before, has none now; the values of the combo box and the entry
    ["folder_history"] of the settings are equal to it. *)
Theorem update_folder_history_invariant (folder : str) (a : Gui.app) :
  let a' := Gui._update_folder_history folder a in
  nth_error (Gui.folder_history a') 0 = Some folder /\
  (NoDup (Gui.folder_history a) -> NoDup (Gui.folder_history a')) /\
  List.length (Gui.folder_history a') <= 15 /\
  Gui.folder_combo_values a' = Gui.folder_history a' /\
  Gui.s_folder_history (Gui.settings a') = Gui.folder_history a'.
Proof.
  intro a'. subst a'.
  pose proof (folder_history_mirrored folder a) as [Hc Hs].
  rewrite folder_history_after in *.
  repeat split; try assumption.
  - intro Hnd. apply firstn_NoDup.
    destruct (Gui.list_in folder (Gui.folder_history a)) eqn:E.
    + destruct (list_remove_NoDup folder Hnd). now constructor.
    + constructor; [|assumption].
      rewrite <- list_in_spec. congruence.
  - apply firstn_le_length.
Qed.

Lemma update_folder_history_invariant_witness :
  NoDup (Gui.folder_history sample_app) /\
  NoDup (Gui.folder_history (Gui._update_folder_history (u "/srv") sample_app)).
Proof.
  assert (H : NoDup (Gui.folder_history sample_app)).
  { simpl. repeat constructor; simpl; intuition discriminate. }
  split; [exact H|].
  exact (proj1 (proj2 (update_folder_history_invariant (u "/srv") sample_app)) H).
Defined.

(** ** The content test *)

Section ContentTest.

Context {R : PyRuntime}.
Variable io : str -> encoding -> open_result.

Lemma for_lines_all (test : str -> bool) (ls : list str) :
  for_lines test (text_stream ls None) = Ret (existsb test ls).
Proof.
  induction ls as [|l ls IH]; simpl; [reflexivity|].
  destruct (test l); [reflexivity | exact IH].
Qed.

(** With a fault after [k] lines the scan answers [True] if one of
    the first [k] lines passes the test, and raises otherwise. *)
Lemma for_lines_fault (test : str -> bool) (ls : list str) (k : nat) (e : exn) :
  for_lines test (text_stream ls (Some (k, e))) =
  if existsb test (firstn k ls) then Ret true else Raise e.
Proof.
  revert k.
  induction ls as [|l ls IH]; intros [|k]; simpl; try reflexivity.
  destruct (test l); [reflexivity | apply IH].
Qed.

Lemma scan_file_all (ls : list str) (query : str) (cs : bool) :
  scan_file (text_stream ls None) query cs =
  Ret (existsb (line_test query cs) ls).
Proof.
  unfold scan_file, line_test. destruct cs; apply for_lines_all.
Qed.

Lemma try_encodings_total (path query : str) (cs : bool) (encs : list encoding) :
  exists found, try_encodings io path query cs encs = Ret found.
Proof.
  induction encs as [|enc encs IH]; simpl.
  - now exists false.
  - destruct (attempt io path query cs enc) as [found|e].
    + now exists found.
    + exact IH.
Qed.

Lemma try_encodings_all_raise (path query : str) (cs : bool) (encs : list encoding) :
  (forall enc, In enc encs -> exists e, attempt io path query cs enc = Raise e) ->
  try_encodings io path query cs encs = Ret false.
Proof.
  induction encs as [|enc encs IH]; simpl; intro H; [reflexivity|].
  destruct (H enc (or_introl eq_refl)) as [e ->].
  apply IH. intros enc' Hin. apply H. now right.
Qed.

(** The first attempt that does not raise decides: the encodings
    after it are not tried. *)
Lemma try_encodings_first (path query : str) (cs : bool)
      (before after : list encoding) (enc : encoding) (verdict : bool) :
  (forall enc', In enc' before ->
                exists e, attempt io path query cs enc' = Raise e) ->
  attempt io path query cs enc = Ret verdict ->
  try_encodings io path query cs (before ++ enc :: after) = Ret verdict.
Proof.
  induction before as [|enc0 before IH]; simpl; intros Hb He.
  - now rewrite He.
  - destruct (Hb enc0 (or_introl eq_refl)) as [e ->].
    apply IH; [|assumption]. intros enc' Hin. apply Hb. now right.
Qed.

(** A file that opens and reads without error is judged by its
    UTF-8 decoding with replacement characters, whatever the other
    encodings would make of its bytes. *)
Lemma readable_file_judged_as_utf8 (path query : str) (cs : bool) (data : bytes) :
  io path utf_8 = Opened data None ->
  _file_contains_text io path query cs =
  Ret (existsb (line_test query cs) (readlines (Codec.utf8_decode data))).
Proof.
  intro Hio. unfold _file_contains_text, encodings.
  apply (try_encodings_first path query cs [] [cp949; euc_kr; latin_1]).
  - intros enc' [].
  - unfold attempt. rewrite Hio. apply scan_file_all.
Qed.

End ContentTest.

Lemma map_lower_contains (sub line : str) :
  Py.contains sub line = true ->
  Py.contains (map ascii_lower sub) (map ascii_lower line) = true.
Proof.
  rewrite !contains_spec. intros [x [y ->]].
  exists (map ascii_lower x), (map ascii_lower y).
  now rewrite !map_app.
Qed.

(** C6.  A file that opens is judged line by line: in case-sensitive
    mode a line matches when it contains the query, in
    case-insensitive mode when the lower-cased line contains the
    lower-cased query.  Hence, with a [str.lower] that treats ASCII
    text as usual, a file with an ASCII line that contains ["Config"]
    matches the query ["Config"] in both modes and the query
    ["config"] in case-insensitive mode, and the file whose only line
    is ["Config"] does not match ["config"] in case-sensitive mode. *)
Theorem case_sensitivity (R : PyRuntime) (io : str -> encoding -> open_result)
        (path : str) (data : bytes) :
  io path utf_8 = Opened data None ->
  let lines := readlines (Codec.utf8_decode data) in
  (forall query,
     _file_contains_text io path query true =
       Ret (existsb (fun line => Py.contains query line) lines) /\
     _file_contains_text io path query false =
       Ret (existsb (fun line => Py.contains (str_lower query) (str_lower line))
                    lines)) /\
  (lower_agrees_on_ascii R ->
   (forall line, In line lines -> forallb is_ascii line = true ->
                 Py.contains (u "Config") line = true ->
      _file_contains_text io path (u "Config") true = Ret true /\
      _file_contains_text io path (u "Config") false = Ret true /\
      _file_contains_text io path (u "config") false = Ret true) /\
   (data = ascii_bytes "Config" ->
      _file_contains_text io path (u "config") true = Ret false /\
      _file_contains_text io path (u "config") false = Ret true /\
      _file_contains_text io path (u "Config") true = Ret true /\
      _file_contains_text io path (u "Config") false = Ret true)).
Proof.
  intros Hio lines.
  assert (Hgen : forall query cs,
             _file_contains_text io path query cs =
             Ret (existsb (line_test query cs) lines)).
  { intros. now apply readable_file_judged_as_utf8. }
  split; [intro query; split; apply Hgen|].
  intro Hlow.
  assert (HC : str_lower (u "Config") = u "config") by (now rewrite Hlow).
  assert (Hc : str_lower (u "config") = u "config") by (now rewrite Hlow).
  split.
  - intros line Hin Hascii Hsub.
    assert (Hci : Py.contains (u "config") (str_lower line) = true).
    { rewrite Hlow by assumption.
      exact (map_lower_contains (u "Config") line Hsub). }
    rewrite !Hgen. repeat split; f_equal; apply existsb_exists; exists line;
      (split; [assumption|]); unfold line_test; rewrite ?HC, ?Hc; assumption.
  - intros ->. rewrite !Hgen. subst lines. unfold line_test.
    rewrite HC, Hc.
    change (readlines (Codec.utf8_decode (ascii_bytes "Config")))
      with [u "Config"].
    simpl existsb. rewrite HC. repeat split.
Qed.

Lemma case_sensitivity_witness :
  lower_agrees_on_ascii ascii_runtime /\
  _file_contains_text (R := ascii_runtime)
    (fun _ _ => Opened (ascii_bytes "Config") None) (u "app.conf") (u "config") true
    = Ret false /\
  _file_contains_text (R := ascii_runtime)
    (fun _ _ => Opened (ascii_bytes "Config") None) (u "app.conf") (u "config") false
    = Ret true /\
  _file_contains_text (R := ascii_runtime)
    (fun _ _ => Opened (ascii_bytes "Config") None) (u "app.conf") (u "Config") true
    = Ret true.
Proof.
  assert (Hlow : lower_agrees_on_ascii ascii_runtime) by (intros s _; reflexivity).
  pose proof (case_sensitivity ascii_runtime
                (fun _ _ => Opened (ascii_bytes "Config") None) (u "app.conf")
                eq_refl) as [_ H].
  destruct (H Hlow) as [Hline Hfile].
  destruct (Hfile eq_refl) as (H1 & H2 & _).
  destruct (Hline (u "Config") (or_introl eq_refl) eq_refl eq_refl) as (H3 & _).
  repeat split; assumption.
Defined.

(** ** Runs of the worker *)

Section WorkerRuns.

Variable stop_event : nat -> bool.
Variable contains_text : str -> res bool.

Lemma for_each_run (files : list str) (tail : option exn) (s : wstate) :
  for_each files tail (visit stop_event contains_text) s =
  (match broken_at stop_event (checks s) files, tail with
   | None, Some e => Raise e
   | _, _ => Ret tt
   end,
   mk_wstate
     (result_queue s ++
      filter (fun p => found (contains_text p))
             (visited stop_event (checks s) files))
     (checks s + List.length (visited stop_event (checks s) files) +
      match broken_at stop_event (checks s) files with
      | Some _ => 1
      | None => 0
      end)
     (trace s ++
      flat_map (visit_events contains_text)
               (visited stop_event (checks s) files) ++
      break_events (broken_at stop_event (checks s) files))).
Proof.
  revert s.
  induction files as [|p files IH]; intros [q k t].
  - simpl. rewrite !app_nil_r, !Nat.add_0_r. destruct tail; reflexivity.
  - cbn [for_each visited broken_at checks result_queue trace].
    unfold bind at 1. cbn [log checks result_queue trace].
    unfold bind at 1. unfold visit at 1. unfold bind at 1.
    cbn [is_set checks result_queue trace].
    destruct (stop_event k) eqn:Hstop.
    + cbn. unfold ret. f_equal.
      f_equal; [now rewrite app_nil_r | lia | now rewrite <- app_assoc].
    + unfold bind at 1. unfold try_except, bind at 1, call_contains_text.
      cbn [checks result_queue trace].
      destruct (contains_text p) as [[|]|e] eqn:Hct;
        cbn [put ret checks result_queue trace];
        rewrite IH; cbn [checks result_queue trace filter flat_map];
        unfold visit_events; rewrite ?Hct; cbn [found];
        (f_equal; f_equal;
         try (cbn [List.length]; lia);
         repeat rewrite <- app_assoc; reflexivity).
Qed.

(** The whole run of the [try ... finally]. *)
Lemma search_loop_run (files_iter : generator) (s : wstate) :
  search_loop stop_event contains_text files_iter s =
  (match broken_at stop_event (checks s) (fst files_iter), snd files_iter with
   | None, Some e => Raise e
   | _, _ => Ret tt
   end,
   mk_wstate
     (result_queue s ++
      filter (fun p => found (contains_text p))
             (visited stop_event (checks s) (fst files_iter)) ++
      [SEARCH_DONE])
     (checks s + List.length (visited stop_event (checks s) (fst files_iter)) +
      match broken_at stop_event (checks s) (fst files_iter) with
      | Some _ => 1
      | None => 0
      end)
     (trace s ++
      flat_map (visit_events contains_text)
               (visited stop_event (checks s) (fst files_iter)) ++
      break_events (broken_at stop_event (checks s) (fst files_iter)) ++
      [EvPut SEARCH_DONE])).
Proof.
  unfold search_loop, try_finally. rewrite for_each_run.
  cbn [put checks result_queue trace].
  now rewrite <- !app_assoc.
Qed.

End WorkerRuns.

(** ** The candidates are never the sentinel *)

Lemma path_join_has_separator (a b : str) :
  a <> [] -> In 47%N (path_join a b).
Proof.
  intro Ha. unfold path_join.
  destruct (Py.startswith b (u "/")) eqn:Hb.
  - apply startswith_spec in Hb as [r ->]. now left.
  - destruct a as [|c a]; [contradiction|]. cbn [Py.truthy negb orb].
    destruct (Py.endswith (c :: a) (u "/")) eqn:He.
    + apply endswith_spec in He as [r Hr]. rewrite Hr.
      apply in_or_app. left. apply in_or_app. right. now left.
    + apply in_or_app. right. now left.
Qed.

Lemma path_join_nonempty (a b : str) : a <> [] -> path_join a b <> [].
Proof.
  intros Ha H. pose proof (path_join_has_separator b Ha) as Hin.
  rewrite H in Hin. contradiction.
Qed.

Lemma walk_roots_nonempty (nd : node) :
  forall top, top <> [] -> Forall (fun rf => fst rf <> []) (walk top nd).
Proof.
  induction nd as [ | | entries IH | e] using
    (fix ind (P : node -> Prop)
         (HR : P Regular) (HS : P Special)
         (HD : forall es, Forall (fun e => P (snd e)) es -> P (Directory es))
         (HU : forall e, P (Unlistable e)) (nd : node) {struct nd} : P nd :=
       match nd with
       | Regular => HR
       | Special => HS
       | Directory es =>
           HD es ((fix all (l : list (str * node)) : Forall (fun e => P (snd e)) l :=
                     match l with
                     | [] => Forall_nil _
                     | e :: l' => Forall_cons e (ind P HR HS HD HU (snd e)) (all l')
                     end) es)
       | Unlistable e => HU e
       end);
    intros top Htop; simpl; try constructor.
  - assumption.
  - induction IH as [|[name d] es Hd _ IHes]; [constructor|].
    apply Forall_app. split; [|exact IHes].
    destruct (is_dir d); [|constructor].
    apply Hd. now apply path_join_nonempty.
Qed.

Lemma iter_files_have_separator (fs : node) (folder pat : str) (recursive : bool) :
  Forall (fun p => In 47%N p) (fst (_iter_files fs folder pat recursive)).
Proof.
  destruct folder as [|c folder'].
  { destruct recursive; constructor. }
  assert (Hf : c :: folder' <> []) by discriminate.
  unfold _iter_files. cbn [at_path].
  generalize dependent (c :: folder'). intros folder Hf.
  destruct recursive.
  - cbn [fst]. apply Forall_forall. intros p Hp.
    apply in_flat_map in Hp as [rf [Hrf Hp]].
    apply in_map_iff in Hp as [name [<- _]].
    apply path_join_has_separator.
    pose proof (walk_roots_nonempty fs Hf) as Hall.
    rewrite Forall_forall in Hall. now apply Hall.
  - destruct fs as [ | | entries | e]; cbn [fst]; try constructor.
    + apply Forall_forall. intros p Hp.
      apply in_map_iff in Hp as [e [<- _]].
      now apply path_join_has_separator.
    + destruct e; constructor.
Qed.

Lemma visited_incl (stop_event : nat -> bool) (files : list str) :
  forall k p, In p (visited stop_event k files) -> In p files.
Proof.
  induction files as [|q files IH]; intros k p; simpl; [tauto|].
  destruct (stop_event k); simpl; [tauto|].
  intros [H|H]; [now left | right; eapply IH, H].
Qed.

Lemma one_sentinel (items : list str) :
  Forall (fun p => In 47%N p) items ->
  List.length (filter (Py.eqb SEARCH_DONE) (items ++ [SEARCH_DONE])) = 1.
Proof.
  induction 1 as [|p items Hp _ IH]; [reflexivity|].
  cbn [app filter]. destruct (Py.eqb SEARCH_DONE p) eqn:E; [|exact IH].
  apply Py_eqb_eq in E. subst p. exfalso. revert Hp. vm_compute.
  intuition discriminate.
Qed.

(** ** What a trace tells about the puts *)

Lemma puts_app (t1 t2 : list event) : puts (t1 ++ t2) = puts t1 ++ puts t2.
Proof.
  induction t1 as [|[p|b|p r|item] t1 IH]; simpl; rewrite ?IH; reflexivity.
Qed.

Lemma puts_visits (contains_text : str -> res bool) (files : list str) :
  puts (flat_map (visit_events contains_text) files) =
  filter (fun p => found (contains_text p)) files.
Proof.
  induction files as [|p files IH]; [reflexivity|].
  cbn [flat_map filter]. rewrite puts_app, IH. unfold visit_events.
  destruct (found (contains_text p)); reflexivity.
Qed.

Lemma puts_break (last : option str) : puts (break_events last) = [].
Proof. destruct last; reflexivity. Qed.

(** C2.  Every run of the worker, whether the enumeration ends, the
    stop event is found set or the enumeration raises, appends to the
    result queue the files in which the text was found, in the order
    of the enumeration, and then the sentinel, and it puts nothing else;
    the run raises exactly when the enumeration raised before a stop;
    and the sentinel occurs once among the items the run enqueues. *)
Theorem sentinel_enqueued_last
        (R : PyRuntime) (stop_event : nat -> bool) (fs : node)
        (io : str -> encoding -> open_result)
        (folder query ext : str) (recursive case_sensitive : bool) (s0 : wstate) :
  let files_iter := _iter_files fs folder (pattern ext) recursive in
  let run := _search_worker stop_event fs io folder query ext recursive
                            case_sensitive s0 in
  let discovered :=
    filter (fun p => found (_file_contains_text io p query case_sensitive))
           (visited stop_event (checks s0) (fst files_iter)) in
  result_queue (snd run) = result_queue s0 ++ discovered ++ [SEARCH_DONE] /\
  puts (trace (snd run)) = puts (trace s0) ++ discovered ++ [SEARCH_DONE] /\
  fst run = match broken_at stop_event (checks s0) (fst files_iter),
                  snd files_iter with
            | None, Some e => Raise e
            | _, _ => Ret tt
            end /\
  List.length (filter (Py.eqb SEARCH_DONE) (discovered ++ [SEARCH_DONE])) = 1.
Proof.
  intros files_iter run discovered. subst run. unfold _search_worker.
  rewrite search_loop_run. fold files_iter. cbn [fst snd result_queue trace].
  repeat split.
  - rewrite !puts_app, puts_visits, puts_break. reflexivity.
  - apply one_sentinel. apply Forall_forall. intros p Hp.
    subst discovered. apply filter_In in Hp as [Hp _].
    apply visited_incl in Hp.
    pose proof (iter_files_have_separator fs folder (pattern ext) recursive) as Hall.
    rewrite Forall_forall in Hall. now apply Hall.
Qed.


(** ** The shape of a run *)

Ltac peel pre H :=
  destruct pre as [|? pre]; cbn [app] in H;
  [try discriminate H | injection H as ? H; try discriminate].

Section RunShape.

Variable contains_text : str -> res bool.

(** In the events of the loop every candidate taken from the iterator
    is followed at once by a check of the stop event. *)
Lemma next_is_checked (examined : list str) (last : option str) :
  forall pre p post,
    flat_map (visit_events contains_text) examined ++ break_events last =
    pre ++ EvNext p :: post ->
    exists b post', post = EvIsSet b :: post'.
Proof.
  induction examined as [|q examined IH]; intros pre p post H.
  - destruct last as [q|]; cbn in H.
    + peel pre H; [injection H as _ <-; eauto|].
      peel pre H. destruct pre; discriminate.
    + destruct pre; discriminate.
  - cbn [flat_map] in H. unfold visit_events at 1 in H.
    rewrite <- !app_assoc in H. cbn [app] in H.
    peel pre H; [injection H as _ <-; eauto|].
    peel pre H. peel pre H.
    destruct (found (contains_text q)); cbn [app] in H.
    + peel pre H. eapply IH, H.
    + eapply IH, H.
Qed.

(** Nothing follows a check that found the stop event set. *)
Lemma nothing_after_stop (examined : list str) (last : option str) :
  forall pre post,
    flat_map (visit_events contains_text) examined ++ break_events last =
    pre ++ EvIsSet true :: post ->
    post = [].
Proof.
  induction examined as [|q examined IH]; intros pre post H.
  - destruct last as [q|]; cbn in H.
    + peel pre H. peel pre H; [now injection H|].
      destruct pre; discriminate.
    + destruct pre; discriminate.
  - cbn [flat_map] in H. unfold visit_events at 1 in H.
    rewrite <- !app_assoc in H. cbn [app] in H.
    peel pre H. peel pre H. peel pre H.
    destruct (found (contains_text q)); cbn [app] in H.
    + peel pre H. eapply IH, H.
    + eapply IH, H.
Qed.

(** A content test is only made right after a check that found the stop
    event clear. *)
Lemma match_follows_clear_check (examined : list str) (last : option str) :
  forall pre p r post,
    flat_map (visit_events contains_text) examined ++ break_events last =
    pre ++ EvMatch p r :: post ->
    exists pre', pre = pre' ++ [EvNext p; EvIsSet false].
Proof.
  induction examined as [|q examined IH]; intros pre p r post H.
  - destruct last as [q|]; cbn in H.
    + peel pre H. peel pre H. destruct pre; discriminate.
    + destruct pre; discriminate.
  - cbn [flat_map] in H. unfold visit_events at 1 in H.
    rewrite <- !app_assoc in H. cbn [app] in H.
    peel pre H. peel pre H.
    peel pre H; [injection H as <- _; subst; now exists []|].
    subst.
    destruct (found (contains_text q)); cbn [app] in H.
    + peel pre H. subst. destruct (IH _ _ _ _ H) as [pre' ->].
      now exists (EvNext q :: EvIsSet false :: EvMatch q (contains_text q)
                         :: EvPut q :: pre').
    + destruct (IH _ _ _ _ H) as [pre' ->].
      now exists (EvNext q :: EvIsSet false :: EvMatch q (contains_text q) :: pre').
Qed.

End RunShape.

(** C3.  The events of a run of the worker are, in this order: for
    each candidate examined, taking it from the iterator, a check of
    the stop event that finds it clear, the content test and, if the
    text was found, the put of the path; then, if the run is stopped,
    one more candidate and the check that finds the stop event set;
    then the put of the sentinel.  So every candidate is followed by a
    check, a content test happens only right after a check that found
    the event clear, after the check that finds it set the sentinel is
    the only thing put, and the queue keeps what it held and ends with
    the sentinel. *)
Theorem cancellation_safety
        (R : PyRuntime) (stop_event : nat -> bool) (fs : node)
        (io : str -> encoding -> open_result)
        (folder query ext : str) (recursive case_sensitive : bool) (s0 : wstate) :
  let contains_text := fun p => _file_contains_text io p query case_sensitive in
  let s1 := snd (_search_worker stop_event fs io folder query ext recursive
                                case_sensitive s0) in
  exists (examined : list str) (last : option str) (T : list event),
    T = flat_map (visit_events contains_text) examined ++ break_events last /\
    trace s1 = trace s0 ++ T ++ [EvPut SEARCH_DONE] /\
    result_queue s1 =
      result_queue s0 ++
      filter (fun p => found (contains_text p)) examined ++ [SEARCH_DONE] /\
    (forall pre p post, T = pre ++ EvNext p :: post ->
                        exists b post', post = EvIsSet b :: post') /\
    (forall pre p r post, T = pre ++ EvMatch p r :: post ->
                          exists pre', pre = pre' ++ [EvNext p; EvIsSet false]) /\
    (forall pre post, T = pre ++ EvIsSet true :: post -> post = []) /\
    ~ In (EvPut SEARCH_DONE) T.
Proof.
  intros contains_text s1. subst s1. unfold _search_worker.
  rewrite search_loop_run. cbn [snd result_queue trace].
  fold contains_text.
  set (files := fst (_iter_files fs folder (pattern ext) recursive)).
  exists (visited stop_event (checks s0) files),
         (broken_at stop_event (checks s0) files),
         (flat_map (visit_events contains_text)
                   (visited stop_event (checks s0) files) ++
          break_events (broken_at stop_event (checks s0) files)).
  split; [reflexivity|].
  split; [now rewrite <- app_assoc|].
  split; [reflexivity|].
  split; [intros pre p post H; eapply next_is_checked, H|].
  split; [intros pre p r post H; eapply match_follows_clear_check, H|].
  split; [intros pre post H; eapply nothing_after_stop, H|].
  intros Hin.
  apply in_app_or in Hin as [Hin|Hin].
  - apply in_flat_map in Hin as [p [Hp Hin]].
    assert (Hsep : In 47%N p).
    { apply visited_incl in Hp.
      pose proof (iter_files_have_separator fs folder (pattern ext) recursive) as Hall.
      rewrite Forall_forall in Hall. now apply Hall. }
    unfold visit_events in Hin. apply in_app_or in Hin as [Hin|Hin].
    + simpl in Hin. intuition discriminate.
    + destruct (found (contains_text p)); simpl in Hin; [|tauto].
      destruct Hin as [Hin|[]]. injection Hin as ->.
      revert Hsep. vm_compute. intuition discriminate.
  - destruct (broken_at stop_event (checks s0) files); simpl in Hin;
      intuition discriminate.
Qed.

Lemma cancellation_safety_witness :
  exists (T : list event),
    trace (snd (_search_worker (R := ascii_runtime) (fun k => Nat.leb 1 k)
                  (Directory [(u "x.conf", Regular); (u "y.conf", Regular)])
                  (fun _ _ => Opened (ascii_bytes "port=1") None)
                  (u "/etc") (u "port") (u "conf") true false
                  (mk_wstate [] 0 [])))
    = [] ++ T ++ [EvPut SEARCH_DONE] /\
    T = [EvNext (u "/etc/x.conf"); EvIsSet false;
         EvMatch (u "/etc/x.conf") (Ret true); EvPut (u "/etc/x.conf")] ++
        EvNext (u "/etc/y.conf") :: EvIsSet true :: [] /\
    (exists b post',
       [EvIsSet true] = EvIsSet b :: post') /\
    (exists pre',
       [EvNext (u "/etc/x.conf"); EvIsSet false] =
       pre' ++ [EvNext (u "/etc/x.conf"); EvIsSet false]) /\
    ([] : list event) = [].
Proof.
  destruct (cancellation_safety ascii_runtime (fun k => Nat.leb 1 k)
              (Directory [(u "x.conf", Regular); (u "y.conf", Regular)])
              (fun _ _ => Opened (ascii_bytes "port=1") None)
              (u "/etc") (u "port") (u "conf") true false (mk_wstate [] 0 []))
    as (examined & last & T & HT & Htr & _ & Hnext & Hmatch & Hstop & _).
  assert (HT' : T = [EvNext (u "/etc/x.conf"); EvIsSet false;
                     EvMatch (u "/etc/x.conf") (Ret true); EvPut (u "/etc/x.conf")] ++
                    EvNext (u "/etc/y.conf") :: EvIsSet true :: []).
  { apply (app_inv_tail [EvPut SEARCH_DONE]).
    apply (app_inv_head (trace (mk_wstate [] 0 []))).
    rewrite <- Htr. reflexivity. }
  exists T. split; [exact Htr|]. split; [exact HT'|].
  split; [|split].
  - exact (Hnext _ (u "/etc/y.conf") _ HT').
  - exact (Hmatch [EvNext (u "/etc/x.conf"); EvIsSet false] (u "/etc/x.conf")
                  (Ret true)
                  [EvPut (u "/etc/x.conf"); EvNext (u "/etc/y.conf"); EvIsSet true]
                  HT').
  - symmetry.
    exact (Hstop ([EvNext (u "/etc/x.conf"); EvIsSet false;
                   EvMatch (u "/etc/x.conf") (Ret true); EvPut (u "/etc/x.conf")] ++
                  [EvNext (u "/etc/y.conf")]) [] HT').
Defined.

(** C7.  The content test never raises: it returns [False] when every
    attempt raises.  And for the loop of the worker, whatever content
    test it calls: when the test raises for a candidate, the step for
    that candidate puts nothing and goes on to the next one, so that an
    unstopped run tests every candidate and enqueues exactly those for
    which the test returned [True]. *)
Theorem unreadable_file_skipped (R : PyRuntime) :
  (forall io path query cs,
     exists verdict, _file_contains_text io path query cs = Ret verdict) /\
  (forall io path query cs,
     (forall enc, In enc encodings ->
                  exists e, attempt io path query cs enc = Raise e) ->
     _file_contains_text io path query cs = Ret false) /\
  (forall stop_event contains_text path e s,
     stop_event (checks s) = false ->
     contains_text path = Raise e ->
     visit stop_event contains_text path s =
     (Ret Next,
      mk_wstate (result_queue s) (S (checks s))
                (trace s ++ [EvIsSet false; EvMatch path (Raise e)]))) /\
  (forall stop_event contains_text files_iter s0,
     (forall k, stop_event k = false) ->
     let s1 := snd (search_loop stop_event contains_text files_iter s0) in
     trace s1 =
       trace s0 ++ flat_map (visit_events contains_text) (fst files_iter) ++
       [EvPut SEARCH_DONE] /\
     result_queue s1 =
       result_queue s0 ++
       filter (fun p => found (contains_text p)) (fst files_iter) ++
       [SEARCH_DONE]).
Proof.
  split; [|split; [|split]].
  - intros. apply try_encodings_total.
  - intros. now apply try_encodings_all_raise.
  - intros stop_event contains_text path e [q k t] Hs Hc.
    cbn [checks] in Hs.
    unfold visit, bind, is_set, try_except, call_contains_text.
    cbn [checks result_queue trace]. rewrite Hs, Hc. unfold ret.
    cbn [checks result_queue trace]. rewrite <- app_assoc. reflexivity.
  - intros stop_event contains_text files_iter s0 Hstop s1. subst s1.
    rewrite search_loop_run. cbn [snd trace result_queue].
    assert (Hv : forall files k, visited stop_event k files = files).
    { induction files as [|p files IH]; intro k; simpl; [reflexivity|].
      now rewrite Hstop, IH. }
    assert (Hb : forall files k, broken_at stop_event k files = None).
    { induction files as [|p files IH]; intro k; simpl; [reflexivity|].
      now rewrite Hstop, IH. }
    rewrite Hv, Hb. split; reflexivity.
Qed.

Lemma unreadable_file_skipped_witness :
  _file_contains_text (R := ascii_runtime) (fun _ _ => OpenRaises PermissionError)
                      (u "/etc/shadow.conf") (u "root") false = Ret false /\
  result_queue
    (snd (search_loop (fun _ => false)
            (fun p => if Py.eqb p (u "/etc/a.conf") then Raise PermissionError
                      else Ret true)
            ([u "/etc/a.conf"; u "/etc/b.conf"], None) (mk_wstate [] 0 [])))
  = [u "/etc/b.conf"; SEARCH_DONE].
Proof.
  pose proof (unreadable_file_skipped ascii_runtime) as (_ & Hall & _ & Hrun).
  split.
  - apply Hall. intros enc _. exists PermissionError. reflexivity.
  - exact (proj2 (Hrun (fun _ => false)
                   (fun p => if Py.eqb p (u "/etc/a.conf") then Raise PermissionError
                             else Ret true)
                   ([u "/etc/a.conf"; u "/etc/b.conf"], None) (mk_wstate [] 0 [])
                   (fun _ => eq_refl))).
Defined.

(** ** A file in a legacy encoding *)

(** C1, at a file the code can meet.  The bytes of ["café"] in Latin-1
    are no valid UTF-8, and Latin-1, a later entry of the list, decodes
    them to a text that contains the query ["café"].  The file opens,
    so the first attempt, made with UTF-8 and [errors="replace"], is
    the only one: it reads ["caf"] followed by U+FFFD and the answer is
    [False]. *)
Theorem legacy_encoding_not_consulted (R : PyRuntime) (path : str) :
  let io := fun (_ : str) (_ : encoding) => Opened latin1_sample None in
  let query := [99; 97; 102; 233]%N in
  Codec.utf8_decode_strict latin1_sample = None /\
  Codec.latin1_decode latin1_sample = query /\
  existsb (fun line => Py.contains query line)
          (readlines (Codec.latin1_decode latin1_sample)) = true /\
  Codec.utf8_decode latin1_sample = [99; 97; 102; 65533]%N /\
  _file_contains_text io path query true = Ret false.
Proof.
  intros io query. split; [reflexivity|]. split; [reflexivity|].
  split; [reflexivity|]. split; [reflexivity|].
  rewrite (readable_file_judged_as_utf8 io path query true (data := latin1_sample) eq_refl).
  reflexivity.
Qed.

(** ** Polling the queue *)

Section PollQueue.

Import Gui.

Lemma drain_paths (paths rest : list str) :
  forall (a : app) (updated : bool),
    paths <> [] ->
    Forall (fun p => p <> SEARCH_DONE) paths ->
    drain (paths ++ rest) a updated =
    drain rest (set_results (set_result_queue a rest) (results a ++ paths)) true.
Proof.
  induction paths as [|p paths IH]; intros a updated Hne Hall; [contradiction|].
  inversion Hall as [|? ? Hp Hps]; subst.
  apply Py_eqb_neq in Hp. cbn [List.app drain]. rewrite Hp.
  destruct paths as [|p' paths].
  - reflexivity.
  - rewrite IH; [|discriminate|assumption].
    f_equal. destruct a. gui_eval. now rewrite <- app_assoc.
Qed.

(** A tick that takes paths and then the sentinel from the queue: the
    buttons are switched, and the status line ends up with the
    progress text, written after the loop because [updated] is set. *)
Lemma poll_paths_then_sentinel (a : app) (paths : list str) :
  paths <> [] ->
  Forall (fun p => p <> SEARCH_DONE) paths ->
  result_queue a = paths ++ [SEARCH_DONE] ->
  search_btn (_poll_queue a) = NORMAL /\
  stop_btn (_poll_queue a) = DISABLED /\
  results (_poll_queue a) = results a ++ paths /\
  status_var (_poll_queue a) = InProgress (List.length (results a ++ paths)).
Proof.
  intros Hne Hall Hq. unfold _poll_queue. rewrite Hq.
  rewrite drain_paths by assumption.
  cbn [drain]. rewrite Py_eqb_refl.
  destruct a. gui_eval.
  destruct (List.length (results0 ++ paths)) eqn:E;
    destruct focus_results_after_search0; gui_eval;
    rewrite ?E; gui_eval; rewrite ?E; repeat split.
Qed.

(** A tick that finds the sentinel alone writes the summary. *)
Lemma poll_sentinel_alone (a : app) :
  result_queue a = [SEARCH_DONE] ->
  search_btn (_poll_queue a) = NORMAL /\
  stop_btn (_poll_queue a) = DISABLED /\
  status_var (_poll_queue a) =
    match List.length (results a) with
    | O => DoneNoMatch
    | n => Done n
    end.
Proof.
  intros Hq. unfold _poll_queue. rewrite Hq.
  cbn [drain]. rewrite Py_eqb_refl.
  destruct a. gui_eval.
  destruct (List.length results0) eqn:E;
    destruct focus_results_after_search0; gui_eval;
    rewrite ?E; gui_eval; rewrite ?E; repeat split.
Qed.

End PollQueue.

(** C5, at a tick the code can meet.  The tick takes one path and
    then the sentinel from the queue.  Afterwards the search button is
    enabled and the stop button disabled, the path is in the list, and
    the status line reads "in progress, 1 found so far": the summary
    written when the sentinel was taken has been overwritten. *)
Theorem completion_summary_overwritten :
  Gui.result_queue finishing_app = [u "/etc/x.conf"; SEARCH_DONE] /\
  Gui.search_btn (Gui._poll_queue finishing_app) = Gui.NORMAL /\
  Gui.stop_btn (Gui._poll_queue finishing_app) = Gui.DISABLED /\
  Gui.results (Gui._poll_queue finishing_app) = [u "/etc/x.conf"] /\
  Gui.status_var (Gui._poll_queue finishing_app) = Gui.InProgress 1 /\
  Gui.status_var (Gui._poll_queue finishing_app) <> Gui.Done 1.
Proof.
  repeat split; try reflexivity.
  vm_compute. discriminate.
Qed.

(** ** One search at a time *)

Section OneSearch.

Import Gui System.

Lemma search_rejected (isdir : str -> bool) (is_alive : nat -> bool)
      (from_query : bool) (a : app) (t : nat) :
  search_thread a = Some t -> is_alive t = true ->
  _on_search_clicked isdir is_alive from_query a =
  show_dialog a InfoAlreadySearching.
Proof.
  intros Ht Ha. unfold _on_search_clicked. now rewrite Ht, Ha.
Qed.

Lemma search_clicked_cases (isdir : str -> bool) (is_alive : nat -> bool)
      (from_query : bool) (a : app) :
  (exists d, _on_search_clicked isdir is_alive from_query a = show_dialog a d) \/
  (match search_thread a with Some t => is_alive t | None => false end = false /\
   (exists args,
      spawned (_on_search_clicked isdir is_alive from_query a) =
      spawned a ++ [args]) /\
   search_thread (_on_search_clicked isdir is_alive from_query a) =
   Some (List.length (spawned a))).
Proof.
  destruct (match search_thread a with Some t => is_alive t | None => false end)
    eqn:Hal.
  { left. exists InfoAlreadySearching. unfold _on_search_clicked. now rewrite Hal. }
  destruct (Py.truthy (Py.strip (folder_var a))) eqn:Hf.
  2:{ left. exists ErrorInvalidFolder. unfold _on_search_clicked.
      now rewrite Hal, Hf. }
  destruct (isdir (Py.strip (folder_var a))) eqn:Hd.
  2:{ left. exists ErrorInvalidFolder. unfold _on_search_clicked.
      now rewrite Hal, Hf, Hd. }
  destruct (Py.truthy (query_var a)) eqn:Hq.
  2:{ left. exists ErrorEmptyQuery. unfold _on_search_clicked.
      now rewrite Hal, Hf, Hd, Hq. }
  right. split; [reflexivity|].
  assert (Hacc : accepted isdir is_alive a) by (repeat split; assumption).
  destruct (accepted_starts_worker from_query Hacc) as (Hs & Ht & _).
  split; [eexists; exact Hs | exact Ht].
Qed.

Lemma single_worker_length (s : sys) :
  single_worker s -> List.length (alive s) <= 1.
Proof.
  intros (Hnd & Hcur & _).
  destruct (alive s) as [|x [|y l]]; simpl; try lia.
  exfalso.
  assert (Hx : search_thread (gui s) = Some x) by (apply Hcur; now left).
  assert (Hy : search_thread (gui s) = Some y) by (apply Hcur; right; now left).
  rewrite Hx in Hy. injection Hy as <-.
  inversion Hnd as [|? ? Hnin _]. apply Hnin. now left.
Qed.

Lemma is_alive_spec (s : sys) (t : nat) : is_alive s t = true <-> In t (alive s).
Proof.
  unfold is_alive. rewrite existsb_exists. split.
  - intros [x [Hx He]]. apply Nat.eqb_eq in He. now subst.
  - intro H. exists t. split; [assumption | apply Nat.eqb_refl].
Qed.

(** A state change of the foreground that neither starts a thread nor
    touches [self.search_thread] keeps the invariant. *)
Lemma single_worker_same_thread (s : sys) (a' : app) :
  single_worker s ->
  search_thread a' = search_thread (gui s) ->
  spawned a' = spawned (gui s) ->
  single_worker (mk_sys a' (alive s)).
Proof.
  intros (Hnd & Hcur & Hlt) Ht Hs. unfold single_worker. cbn [gui alive].
  rewrite Ht, Hs. repeat split; assumption.
Qed.

Lemma single_worker_search (s : sys) (a0 : app) (isdir : str -> bool)
      (from_query : bool) :
  single_worker s ->
  search_thread a0 = search_thread (gui s) ->
  spawned a0 = spawned (gui s) ->
  single_worker
    (mk_sys (_on_search_clicked isdir (is_alive s) from_query a0)
            (alive s ++
             started (gui s) (_on_search_clicked isdir (is_alive s) from_query a0))).
Proof.
  intros Hinv Ht0 Hs0.
  destruct (search_clicked_cases isdir (is_alive s) from_query a0)
    as [[d Hd] | (Hal & [args Hsp] & Hth)].
  - rewrite Hd. unfold started.
    replace (spawned (show_dialog a0 d)) with (spawned (gui s))
      by (rewrite <- Hs0; destruct a0; reflexivity).
    rewrite Nat.sub_diag. cbn [seq]. rewrite app_nil_r.
    apply single_worker_same_thread; [assumption | |];
      destruct a0; cbn in *; assumption.
  - destruct Hinv as (Hnd & Hcur & Hlt).
    assert (Hnone : alive s = []).
    { destruct (alive s) as [|t l] eqn:E; [reflexivity|]. exfalso.
      pose proof (Hcur t (or_introl eq_refl)) as Hc. rewrite <- Ht0 in Hc.
      rewrite Hc in Hal.
      assert (Hin : In t (alive s)) by (rewrite E; now left).
      apply is_alive_spec in Hin. congruence. }
    unfold single_worker, started. cbn [gui alive].
    rewrite Hsp, Hth, Hnone, Hs0, length_app. cbn [List.length].
    replace (List.length (spawned (gui s)) + 1 - List.length (spawned (gui s)))
      with 1 by lia.
    cbn [seq List.app].
    repeat split.
    + repeat constructor. simpl. tauto.
    + intros t [<-|[]]. reflexivity.
    + intros t [<-|[]]. lia.
Qed.

Lemma drain_keeps_threads (items : list str) :
  forall (a : app) (updated : bool),
    search_thread (fst (drain items a updated)) = search_thread a /\
    spawned (fst (drain items a updated)) = spawned a.
Proof.
  induction items as [|item items IH]; intros a updated; cbn [drain fst].
  - split; reflexivity.
  - destruct (Py.eqb item SEARCH_DONE).
    + destruct (IH (on_done (set_result_queue a items)) updated) as [-> ->].
      destruct a. gui_eval.
      destruct (List.length results0); destruct focus_results_after_search0;
        gui_eval; try (destruct (List.length results0)); split; reflexivity.
    + destruct (IH (set_results (set_result_queue a items)
                                (results (set_result_queue a items) ++ [item]))
                   true) as [-> ->].
      destruct a. split; reflexivity.
Qed.

Lemma poll_keeps_threads (a : app) :
  search_thread (_poll_queue a) = search_thread a /\
  spawned (_poll_queue a) = spawned a.
Proof.
  unfold _poll_queue.
  pose proof (drain_keeps_threads (result_queue a) a false) as [Ht Hs].
  destruct (drain (result_queue a) a false) as [a1 updated].
  cbn [fst] in Ht, Hs. rewrite <- Ht, <- Hs.
  destruct updated; destruct a1; split; reflexivity.
Qed.

Lemma single_worker_step (s s' : sys) :
  single_worker s -> step s s' -> single_worker s'.
Proof.
  intros Hinv Hstep.
  destruct Hstep as [s isdir fq | s isdir | s | s | s | s f q e r c
                     | s t item Hin | s t Hin].
  - now apply single_worker_search.
  - unfold _on_query_enter.
    apply single_worker_search; [assumption | |]; destruct (gui s); reflexivity.
  - apply single_worker_same_thread; [assumption | |]; destruct (gui s); reflexivity.
  - apply single_worker_same_thread; [assumption | |]; destruct (gui s); reflexivity.
  - apply single_worker_same_thread; [assumption | |]; apply poll_keeps_threads.
  - apply single_worker_same_thread; [assumption | |]; destruct (gui s); reflexivity.
  - apply single_worker_same_thread; [assumption | |]; destruct (gui s); reflexivity.
  - destruct Hinv as (Hnd & Hcur & Hlt). unfold single_worker. cbn [gui alive].
    repeat split.
    + clear - Hnd. induction Hnd as [|x l Hx _ IH]; simpl; [constructor|].
      destruct (Nat.eq_dec t x); [assumption|].
      constructor; [|assumption].
      intro H. apply in_remove in H as [H _]. contradiction.
    + intros t' H. apply in_remove in H as [H _]. now apply Hcur.
    + intros t' H. apply in_remove in H as [H _]. now apply Hlt.
Qed.

Lemma reachable_single_worker (s : sys) : reachable s -> single_worker s.
Proof.
  induction 1 as [a Ht Hs | s s' _ IH Hstep].
  - unfold single_worker. cbn [gui alive]. repeat split; try constructor;
      intros t [].
  - eapply single_worker_step; eassumption.
Qed.

End OneSearch.

(** C9.  While the thread named by [self.search_thread] is alive, a
    request for a search, by the button or by the Enter key in the
    query field, only shows the notice: no thread is started and the
    queue, the stop event and the result list stay as they are (after
    a click on the button every field of the state does).  Hence, from
    the start of the program on, at most one worker thread is alive at
    any time, the one [self.search_thread] names. *)
Theorem one_search_at_a_time :
  (forall isdir is_alive from_query a t,
     Gui.search_thread a = Some t -> is_alive t = true ->
     let a' := Gui._on_search_clicked isdir is_alive from_query a in
     a' = Gui.show_dialog a Gui.InfoAlreadySearching /\
     Gui.dialogs a' = Gui.dialogs a ++ [Gui.InfoAlreadySearching] /\
     Gui.spawned a' = Gui.spawned a /\
     Gui.search_thread a' = Gui.search_thread a /\
     Gui.result_queue a' = Gui.result_queue a /\
     Gui.stop_event a' = Gui.stop_event a /\
     Gui.results a' = Gui.results a) /\
  (forall isdir is_alive a t,
     Gui.search_thread a = Some t -> is_alive t = true ->
     let a' := Gui._on_query_enter isdir is_alive a in
     Gui.dialogs a' = Gui.dialogs a ++ [Gui.InfoAlreadySearching] /\
     Gui.spawned a' = Gui.spawned a /\
     Gui.search_thread a' = Gui.search_thread a /\
     Gui.result_queue a' = Gui.result_queue a /\
     Gui.stop_event a' = Gui.stop_event a /\
     Gui.results a' = Gui.results a) /\
  (forall s, System.reachable s ->
             List.length (System.alive s) <= 1 /\
             forall t, In t (System.alive s) ->
                       Gui.search_thread (System.gui s) = Some t).
Proof.
  split; [|split].
  - intros isdir is_alive from_query a t Ht Ha a'. subst a'.
    rewrite (search_rejected isdir is_alive from_query a Ht Ha).
    destruct a. repeat split.
  - intros isdir is_alive a t Ht Ha a'. subst a'. unfold Gui._on_query_enter.
    rewrite (@search_rejected isdir is_alive true _ t);
      [destruct a; repeat split | destruct a; exact Ht | exact Ha].
  - intros s Hr. apply reachable_single_worker in Hr.
    split; [now apply single_worker_length | apply Hr].
Qed.

Lemma one_search_at_a_time_witness :
  System.reachable running_sys /\
  List.length (System.alive running_sys) <= 1 /\
  Gui.spawned (Gui._on_search_clicked (fun _ => true)
                 (System.is_alive running_sys) false (System.gui running_sys))
  = Gui.spawned (System.gui running_sys).
Proof.
  assert (Hr : System.reachable running_sys).
  { pose (s0 := System.mk_sys sample_app []).
    assert (H0 : System.reachable s0) by (now constructor).
    pose (s1 := System.mk_sys
                  (System.edit sample_app (u "/etc") (u "port") (u "conf") true false)
                  []).
    assert (H1 : System.reachable s1).
    { apply (System.reach_step H0).
      exact (System.step_edit s0 (u "/etc") (u "port") (u "conf") true false). }
    apply (System.reach_step H1).
    exact (System.step_search_clicked s1 (fun _ => true) false). }
  split; [exact Hr|].
  split.
  - exact (proj1 (proj2 (proj2 one_search_at_a_time) running_sys Hr)).
  - refine (proj1 (proj2 (proj2
      (proj1 one_search_at_a_time (fun _ => true) (System.is_alive running_sys)
         false (System.gui running_sys) 0 eq_refl eq_refl)))).
Defined.

(** ** The scenarios of the specification *)

(** Query ["port"], extension [".conf"], case-insensitive, never
    stopped: with and without recursion the worker reports [a/x.conf]
    and then the sentinel. *)
Example scenario_recursive :
  result_queue
    (snd (_search_worker (R := ascii_runtime) (fun _ => false) scenario_tree
            scenario_io (u "a") (u "port") (u ".conf") true false
            (mk_wstate [] 0 [])))
  = [u "a/x.conf"; SEARCH_DONE].
Proof. reflexivity. Qed.

Example scenario_direct_children :
  result_queue
    (snd (_search_worker (R := ascii_runtime) (fun _ => false) scenario_tree
            scenario_io (u "a") (u "port") (u ".conf") false false
            (mk_wstate [] 0 [])))
  = [u "a/x.conf"; SEARCH_DONE].
Proof. reflexivity. Qed.

(** The candidates of the recursive walk, in the order of [os.walk]:
    the files of a folder before those of its sub-folders. *)
Example scenario_candidates :
  _iter_files scenario_tree (u "a") (pattern (u ".conf")) true
  = ([u "a/x.conf"; u "a/b/y.conf"], None).
Proof. reflexivity. Qed.

(** A folder that cannot be listed: without recursion a permission
    error ends the enumeration quietly, any other error leaves the
    worker as an exception, after the sentinel has been put. *)
Example unlistable_folder :
  _search_worker (R := ascii_runtime) (fun _ => false)
    (Unlistable PermissionError) scenario_io (u "a") (u "port") (u ".conf")
    false false (mk_wstate [] 0 [])
  = (Ret tt, mk_wstate [SEARCH_DONE] 0 [EvPut SEARCH_DONE]) /\
  _search_worker (R := ascii_runtime) (fun _ => false)
    (Unlistable OSError) scenario_io (u "a") (u "port") (u ".conf")
    false false (mk_wstate [] 0 [])
  = (Raise OSError, mk_wstate [SEARCH_DONE] 0 [EvPut SEARCH_DONE]).
Proof. split; reflexivity. Qed.

(** * Further properties *)

(** ** The enumeration and the directory tree *)

Lemma node_induction (P : node -> Prop) :
  P Regular -> P Special ->
  (forall es, Forall (fun e => P (snd e)) es -> P (Directory es)) ->
  (forall e, P (Unlistable e)) ->
  forall nd, P nd.
Proof.
  intros HR HS HD HU.
  fix ind 1. intros [ | | es | e].
  - exact HR.
  - exact HS.
  - apply HD. induction es as [|e es IH]; constructor; [apply ind | exact IH].
  - apply HU.
Qed.

Lemma walk_directory (top : str) (es : list (str * node)) :
  walk top (Directory es) =
  (top, map fst (filter (fun e => negb (is_dir (snd e))) es)) ::
  flat_map (fun e => if is_dir (snd e)
                     then walk (path_join top (fst e)) (snd e) else []) es.
Proof.
  cbn [walk]. f_equal.
  induction es as [|[name d] es IH]; [reflexivity|].
  cbn [flat_map fst snd]. now rewrite IH.
Qed.

Section WalkFiles.

Variable keep : str -> bool.

(** The paths [_iter_files] makes of the pairs of [os.walk]. *)
Let paths_of (rf : str * list str) : list str :=
  map (path_join (fst rf)) (filter keep (snd rf)).

Lemma walk_files_sound (nd : node) :
  forall top p,
    In p (flat_map paths_of (walk top nd)) ->
    exists name, file_at nd top name p /\ keep name = true.
Proof.
  induction nd as [ | | es IH | e] using node_induction; intros top p Hin;
    try contradiction.
  rewrite walk_directory in Hin.
  cbn [flat_map] in Hin. apply in_app_or in Hin as [Hin|Hin].
  - unfold paths_of in Hin. cbn [fst snd] in Hin.
    apply in_map_iff in Hin as [name [<- Hname]].
    apply filter_In in Hname as [Hname Hkeep].
    apply in_map_iff in Hname as [[name' nd] [Heq Hent]].
    cbn [fst] in Heq. subst name'.
    apply filter_In in Hent as [Hent Hdir]. cbn [snd] in Hdir.
    exists name. split; [|assumption].
    eapply file_here; [exact Hent | now apply negb_true_iff].
  - apply in_flat_map in Hin as [rf [Hrf Hp]].
    apply in_flat_map in Hrf as [[d sub] [Hent Hrf]]. cbn [fst snd] in Hrf.
    destruct (is_dir sub) eqn:Hd; [|contradiction].
    rewrite Forall_forall in IH.
    destruct (IH (d, sub) Hent (path_join top d) p) as [name [Hfile Hkeep]].
    { apply in_flat_map. now exists rf. }
    exists name. split; [|assumption].
    eapply file_below; [exact Hent | exact Hfile].
Qed.

Lemma walk_files_complete (nd : node) (top name p : str) :
  file_at nd top name p -> keep name = true ->
  In p (flat_map paths_of (walk top nd)).
Proof.
  intros Hfile Hkeep.
  induction Hfile as [es top name nd Hent Hdir | es top d sub name p Hent Hfile IH];
    rewrite walk_directory; cbn [flat_map]; apply in_or_app.
  - left. unfold paths_of. cbn [fst snd].
    apply in_map. apply filter_In. split; [|assumption].
    apply in_map_iff. exists (name, nd). split; [reflexivity|].
    apply filter_In. split; [assumption|]. cbn [snd]. now rewrite Hdir.
  - right.
    assert (Hd : is_dir sub = true) by (destruct Hfile; reflexivity).
    specialize (IH Hkeep).
    apply in_flat_map in IH as [rf [Hrf Hp]].
    apply in_flat_map. exists rf. split; [|assumption].
    apply in_flat_map. exists (d, sub). split; [assumption|].
    cbn [fst snd]. now rewrite Hd.
Qed.

End WalkFiles.

(** X1.  With recursion [_iter_files] yields exactly the paths of the
    entries below the folder that are no directories and whose name
    passes the name test; for the empty folder name it yields nothing. *)
Theorem recursive_enumeration (fs : node) (folder pat p : str) :
  In p (fst (_iter_files fs folder pat true)) <->
  folder <> [] /\
  exists name, file_at fs folder name p /\ name_matches name pat = true.
Proof.
  unfold _iter_files. cbn [fst]. split.
  - intro Hin. destruct folder as [|c folder]; [contradiction|].
    split; [discriminate|]. cbn [at_path] in Hin.
    now apply walk_files_sound in Hin.
  - intros [Hf [name [Hfile Hname]]].
    destruct folder as [|c folder]; [contradiction|]. cbn [at_path].
    eapply walk_files_complete; eassumption.
Qed.

Lemma recursive_enumeration_witness :
  u "a" <> [] /\
  In (u "a/b/y.conf") (fst (_iter_files scenario_tree (u "a") (u "*.conf") true)).
Proof.
  split; [discriminate|].
  apply (proj2 (recursive_enumeration scenario_tree (u "a") (u "*.conf")
                  (u "a/b/y.conf"))).
  split; [discriminate|]. exists (u "y.conf"). split; [|reflexivity].
  apply (@file_below _ (u "a") (u "b") (Directory [(u "y.conf", Regular)])).
  - right. now left.
  - apply (@file_here [(u "y.conf", Regular)] (path_join (u "a") (u "b"))
                      (u "y.conf") Regular); [now left | reflexivity].
Defined.

(** X2.  Without recursion [_iter_files] yields the regular files that
    are entries of the folder itself and pass the name test, and each
    of them is also yielded with recursion: switching recursion on
    loses no candidate. *)
Theorem direct_children_enumeration (fs : node) (folder pat p : str) :
  (In p (fst (_iter_files fs folder pat false)) <->
   folder <> [] /\
   exists entries name,
     fs = Directory entries /\ In (name, Regular) entries /\
     name_matches name pat = true /\ p = path_join folder name) /\
  (In p (fst (_iter_files fs folder pat false)) ->
   In p (fst (_iter_files fs folder pat true))).
Proof.
  assert (Hchar : In p (fst (_iter_files fs folder pat false)) <->
                  folder <> [] /\
                  exists entries name,
                    fs = Directory entries /\ In (name, Regular) entries /\
                    name_matches name pat = true /\ p = path_join folder name).
  { unfold _iter_files. split.
    - intro Hin. destruct folder as [|c folder]; [contradiction|].
      split; [discriminate|]. cbn [at_path] in Hin.
      destruct fs as [ | | entries | e]; try contradiction.
      + cbn [fst] in Hin. apply in_map_iff in Hin as [[name nd] [<- Hent]].
        apply filter_In in Hent as [Hent Hok]. cbn [fst snd] in *.
        apply andb_true_iff in Hok as [Hreg Hname].
        destruct nd; try discriminate.
        exists entries, name. repeat split; assumption.
      + destruct e; contradiction.
    - intros [Hf (entries & name & -> & Hent & Hname & ->)].
      destruct folder as [|c folder]; [contradiction|]. cbn [at_path fst].
      apply in_map_iff. exists (name, Regular). split; [reflexivity|].
      apply filter_In. split; [assumption|]. cbn [fst snd isfile]. exact Hname. }
  split; [exact Hchar|].
  intro Hin. apply Hchar in Hin as [Hf (entries & name & -> & Hent & Hname & ->)].
  apply recursive_enumeration. split; [assumption|].
  exists name. split; [|assumption].
  eapply file_here; [exact Hent | reflexivity].
Qed.

Lemma direct_children_enumeration_witness :
  In (u "a/x.conf") (fst (_iter_files scenario_tree (u "a") (u "*.conf") false)) /\
  In (u "a/x.conf") (fst (_iter_files scenario_tree (u "a") (u "*.conf") true)).
Proof.
  assert (H : In (u "a/x.conf")
                 (fst (_iter_files scenario_tree (u "a") (u "*.conf") false))).
  { apply (proj1 (direct_children_enumeration scenario_tree (u "a") (u "*.conf")
                    (u "a/x.conf"))).
    split; [discriminate|].
    eexists _, (u "x.conf"). split; [reflexivity|].
    split; [now left|]. split; reflexivity. }
  split; [exact H|].
  exact (proj2 (direct_children_enumeration scenario_tree (u "a") (u "*.conf")
                  (u "a/x.conf")) H).
Defined.

(** ** What a search reports *)

Lemma found_true (r : res bool) : found r = true <-> r = Ret true.
Proof.
  destruct r as [[|]|e]; simpl; split; intro H; try reflexivity;
    discriminate.
Qed.

Lemma visited_never_stopped (stop_event : nat -> bool) (files : list str) :
  (forall k, stop_event k = false) ->
  forall k, visited stop_event k files = files.
Proof.
  intro Hstop.
  induction files as [|p files IH]; intro k; simpl; [reflexivity|].
  now rewrite Hstop, IH.
Qed.

Lemma visited_bounded (stop_event : nat -> bool) (files : list str) :
  forall k n, stop_event (k + n) = true ->
              List.length (visited stop_event k files) <= n.
Proof.
  induction files as [|p files IH]; intros k n Hstop; simpl; [lia|].
  destruct (stop_event k) eqn:Hk; simpl; [lia|].
  destruct n as [|n].
  - rewrite Nat.add_0_r in Hstop. congruence.
  - apply le_n_S. apply IH. now rewrite <- Nat.add_succ_comm in Hstop.
Qed.

Lemma tests_app (t1 t2 : list event) : tests (t1 ++ t2) = tests t1 + tests t2.
Proof.
  induction t1 as [|[p|b|p r|item] t1 IH]; simpl; rewrite ?IH; reflexivity.
Qed.

Lemma tests_visits (contains_text : str -> res bool) (files : list str) :
  tests (flat_map (visit_events contains_text) files) = List.length files.
Proof.
  induction files as [|p files IH]; [reflexivity|].
  cbn [flat_map]. rewrite tests_app, IH. unfold visit_events.
  destruct (found (contains_text p)); reflexivity.
Qed.

(** X3.  A recursive search enqueues, before the sentinel, only paths
    of entries below the folder that are no directories, whose name
    passes the name test and in which the content test found the
    query; and when the stop event is never set it enqueues every such
    path. *)
Theorem recursive_search_reports
        (R : PyRuntime) (stop_event : nat -> bool) (fs : node)
        (io : str -> encoding -> open_result)
        (folder query ext : str) (case_sensitive : bool) (s0 : wstate) :
  let s1 := snd (_search_worker stop_event fs io folder query ext true
                                case_sensitive s0) in
  let wanted := fun p =>
    (folder <> [] /\
     exists name, file_at fs folder name p /\
                  name_matches name (pattern ext) = true) /\
    _file_contains_text io p query case_sensitive = Ret true in
  exists reported,
    result_queue s1 = result_queue s0 ++ reported ++ [SEARCH_DONE] /\
    (forall p, In p reported -> wanted p) /\
    ((forall k, stop_event k = false) ->
     forall p, wanted p -> In p reported).
Proof.
  intros s1 wanted. subst s1. unfold _search_worker.
  rewrite search_loop_run. cbn [snd result_queue].
  eexists. split; [reflexivity|]. split.
  - intros p Hin. apply filter_In in Hin as [Hin Hfound].
    apply visited_incl in Hin. apply recursive_enumeration in Hin.
    split; [assumption | now apply found_true].
  - intros Hstop p [Htree Hcontent].
    rewrite visited_never_stopped by assumption.
    apply filter_In. split.
    + now apply recursive_enumeration.
    + now apply found_true.
Qed.

Lemma recursive_search_reports_witness :
  exists reported,
    result_queue
      (snd (_search_worker (R := ascii_runtime) (fun _ => false) scenario_tree
              scenario_io (u "a") (u "port") (u ".conf") true false
              (mk_wstate [] 0 [])))
    = [] ++ reported ++ [SEARCH_DONE] /\
    In (u "a/x.conf") reported.
Proof.
  destruct (recursive_search_reports ascii_runtime (fun _ => false) scenario_tree
              scenario_io (u "a") (u "port") (u ".conf") false (mk_wstate [] 0 []))
    as (reported & Hq & _ & Hall).
  exists reported. split; [exact Hq|].
  apply Hall; [reflexivity|].
  split; [|reflexivity].
  split; [discriminate|]. exists (u "x.conf"). split; [|reflexivity].
  apply (@file_here _ (u "a") (u "x.conf") Regular); [now left | reflexivity].
Defined.

(** X4.  If the [n]-th check of the stop event after the start of a
    run finds it set (counting from 0), the run makes at most [n]
    content tests and enqueues at most [n] paths before the
    sentinel. *)
Theorem stop_bounds_work
        (R : PyRuntime) (stop_event : nat -> bool) (fs : node)
        (io : str -> encoding -> open_result)
        (folder query ext : str) (recursive case_sensitive : bool)
        (s0 : wstate) (n : nat) :
  stop_event (checks s0 + n) = true ->
  let s1 := snd (_search_worker stop_event fs io folder query ext recursive
                                case_sensitive s0) in
  tests (trace s1) <= tests (trace s0) + n /\
  List.length (result_queue s1) <= List.length (result_queue s0) + n + 1.
Proof.
  intros Hstop s1. subst s1. unfold _search_worker.
  rewrite search_loop_run. cbn [snd result_queue trace].
  set (files := fst (_iter_files fs folder (pattern ext) recursive)).
  pose proof (visited_bounded stop_event files (checks s0) n Hstop) as Hlen.
  split.
  - rewrite !tests_app, tests_visits.
    destruct (broken_at stop_event (checks s0) files); simpl; lia.
  - rewrite !length_app. cbn [List.length].
    pose proof (filter_length_le
                  (fun p => found (_file_contains_text io p query case_sensitive))
                  (visited stop_event (checks s0) files)).
    lia.
Qed.

Lemma stop_bounds_work_witness :
  tests (trace (snd (_search_worker (R := ascii_runtime) (fun k => Nat.leb 1 k)
                       scenario_tree scenario_io (u "a") (u "port") (u ".conf")
                       true false (mk_wstate [] 0 [])))) <= 0 + 1.
Proof.
  exact (proj1 (stop_bounds_work ascii_runtime (fun k => Nat.leb 1 k) scenario_tree
                  scenario_io (u "a") (u "port") (u ".conf") true false
                  (mk_wstate [] 0 []) 1 eq_refl)).
Defined.

(** ** Lines and text *)

Lemma str_length_ind (P : str -> Prop) :
  (forall s, (forall t, List.length t < List.length s -> P t) -> P s) ->
  forall s, P s.
Proof.
  intros H s.
  assert (Hn : forall n t, List.length t < n -> P t).
  { induction n as [|n IH]; intros t Hlt; [lia|].
    apply H. intros t' Hlt'. apply IH. lia. }
  apply (Hn (S (List.length s))). lia.
Qed.

Lemma readlines_wf (s : str) : lines_wf (readlines s).
Proof.
  induction s as [s IH] using str_length_ind.
  destruct s as [|c s']; [constructor|].
  cbn [readlines].
  destruct (c =? 10)%N eqn:E10.
  { apply (wf_line [] (ls := readlines s')); [intros []|].
    apply IH. simpl. lia. }
  destruct (c =? 13)%N eqn:E13.
  { destruct s' as [|d s''].
    - apply (wf_line [] (ls := [])); [intros [] | constructor].
    - destruct (d =? 10)%N.
      + apply (wf_line [] (ls := readlines s'')); [intros []|].
        apply IH. simpl. lia.
      + apply (wf_line [] (ls := readlines (d :: s''))); [intros []|].
        apply IH. simpl. lia. }
  apply N.eqb_neq in E10.
  assert (Hwf : lines_wf (readlines s')) by (apply IH; simpl; lia).
  destruct (readlines s') as [|l ls].
  - apply wf_last; [discriminate|]. intros [H|[]]. congruence.
  - inversion Hwf as [ | body Hne Hno | body ls' Hno Hls]; subst.
    + apply wf_last; [discriminate|]. intros [H|H]; [congruence | contradiction].
    + change (c :: body ++ [10%N]) with ((c :: body) ++ [10%N]).
      apply wf_line; [|assumption].
      intros [H|H]; [congruence | contradiction].
Qed.

Lemma concat_readlines (s : str) : List.concat (readlines s) = universal_newlines s.
Proof.
  induction s as [s IH] using str_length_ind.
  destruct s as [|c s']; [reflexivity|].
  cbn [readlines universal_newlines].
  destruct (c =? 10)%N eqn:E10.
  { apply N.eqb_eq in E10. subst c. cbn [N.eqb Pos.eqb List.concat List.app].
    f_equal. apply IH. simpl. lia. }
  destruct (c =? 13)%N eqn:E13.
  { destruct s' as [|d s'']; [reflexivity|].
    destruct (d =? 10)%N; cbn [List.concat List.app]; f_equal; apply IH; simpl; lia. }
  assert (Hc : List.concat (readlines s') = universal_newlines s')
    by (apply IH; simpl; lia).
  rewrite <- Hc.
  destruct (readlines s') as [|l ls]; reflexivity.
Qed.

Lemma contains_nil (q : str) : q <> [] -> Py.contains q [] = false.
Proof. destruct q; [contradiction | reflexivity]. Qed.

(** A text without the character [c] lies on one side of a [c]. *)
Lemma contains_separated (q a b : str) (c : N) :
  q <> [] -> ~ In c q ->
  Py.contains q (a ++ c :: b) = Py.contains q a || Py.contains q b.
Proof.
  intros Hne Hno. apply eq_true_iff_eq.
  rewrite orb_true_iff, !contains_spec. split.
  - intros (x & y & Heq).
    apply app_eq_app in Heq as [l [[-> Heq] | [-> Heq]]].
    + apply app_eq_app in Heq as [l2 [[-> Heq] | [-> Heq]]].
      * destruct l2 as [|c' l2].
        -- left. exists x, []. now rewrite !app_nil_r.
        -- injection Heq as <- _. exfalso. apply Hno.
           apply in_or_app. right. now left.
      * left. exists x, l2. now rewrite app_assoc.
    + destruct l as [|c' l].
      * destruct q as [|c' q]; [contradiction|].
        injection Heq as <- _. exfalso. apply Hno. now left.
      * injection Heq as _ ->. right. now exists l, y.
  - intros [(x & y & ->) | (x & y & ->)].
    + exists x, (y ++ c :: b). now rewrite <- !app_assoc.
    + exists (a ++ c :: x), y. now rewrite <- app_assoc.
Qed.

Lemma contains_lines (q : str) (ls : list str) :
  lines_wf ls -> q <> [] -> ~ In 10%N q ->
  Py.contains q (List.concat ls) = existsb (Py.contains q) ls.
Proof.
  intros Hwf Hne Hno.
  induction Hwf as [ | body Hb Hnb | body ls Hnb Hwf IH].
  - now apply contains_nil.
  - cbn [List.concat existsb]. now rewrite app_nil_r, orb_false_r.
  - cbn [List.concat existsb]. rewrite <- app_assoc. cbn [List.app].
    rewrite contains_separated by assumption. rewrite IH. f_equal.
    rewrite contains_separated by assumption.
    now rewrite (contains_nil Hne), orb_false_r.
Qed.

(** X5.  In case-sensitive mode, for a query that is not empty and
    contains no ["\n"], searching a file that opens line by line gives
    the same answer as searching its whole text (decoded, with the
    line ends translated to ["\n"]) for the query. *)
Theorem line_search_is_text_search
        (R : PyRuntime) (io : str -> encoding -> open_result)
        (path query : str) (data : bytes) :
  io path utf_8 = Opened data None ->
  query <> [] -> ~ In 10%N query ->
  _file_contains_text io path query true =
  Ret (Py.contains query (universal_newlines (Codec.utf8_decode data))).
Proof.
  intros Hio Hne Hno.
  rewrite (readable_file_judged_as_utf8 io path query true Hio).
  rewrite <- concat_readlines, contains_lines;
    [reflexivity | apply readlines_wf | assumption | assumption].
Qed.

Lemma line_search_is_text_search_witness :
  _file_contains_text (R := ascii_runtime) scenario_io (u "a/x.conf") (u "rt=") true
  = Ret (Py.contains (u "rt=")
           (universal_newlines (Codec.utf8_decode (ascii_bytes "port=1")))).
Proof.
  apply (@line_search_is_text_search ascii_runtime scenario_io (u "a/x.conf")
           (u "rt=") (ascii_bytes "port=1") eq_refl).
  - discriminate.
  - simpl. intuition discriminate.
Defined.

(** ** ASCII files *)

Lemma utf8_units_ascii (bs : list N) :
  forallb is_ascii bs = true -> Codec.utf8_units bs = map Some bs.
Proof.
  induction bs as [|b bs IH]; [reflexivity|].
  cbn [forallb]. intro H. apply andb_true_iff in H as [Hb Hbs].
  unfold is_ascii in Hb. cbn [Codec.utf8_units map]. rewrite Hb.
  now rewrite IH.
Qed.

Lemma utf8_decode_ascii (data : bytes) :
  forallb (fun b => is_ascii (Byte.to_N b)) data = true ->
  Codec.utf8_decode data = map Byte.to_N data.
Proof.
  intro H. unfold Codec.utf8_decode.
  rewrite utf8_units_ascii.
  - rewrite map_map. apply map_id.
  - rewrite forallb_forall in *. intros n Hn.
    apply in_map_iff in Hn as [b [<- Hb]]. now apply H.
Qed.

Lemma universal_newlines_chars (s : str) (c : N) :
  In c (universal_newlines s) -> In c s \/ c = 10%N.
Proof.
  induction s as [s IH] using str_length_ind.
  destruct s as [|d s']; [intros []|].
  cbn [universal_newlines].
  destruct (d =? 13)%N.
  - intros [<-|Hin]; [now right|].
    destruct s' as [|e s'']; [contradiction|].
    destruct (e =? 10)%N.
    + destruct (IH s'') as [H|H]; [simpl; lia | assumption | | now right].
      left. right. now right.
    + destruct (IH (e :: s'')) as [H|H]; [simpl; lia | assumption | | now right].
      left. now right.
  - intros [<-|Hin]; [left; now left|].
    destruct (IH s') as [H|H]; [simpl; lia | assumption | | now right].
    left. now right.
Qed.

Lemma readlines_ascii (s line : str) :
  forallb is_ascii s = true -> In line (readlines s) ->
  forallb is_ascii line = true.
Proof.
  intros Hs Hline. apply forallb_forall. intros c Hc.
  assert (Hin : In c (universal_newlines s)).
  { rewrite <- concat_readlines. apply in_concat. now exists line. }
  apply universal_newlines_chars in Hin as [Hin | ->]; [|reflexivity].
  rewrite forallb_forall in Hs. now apply Hs.
Qed.

(** X6.  With a [str.lower] that treats ASCII text as usual, for a
    file of ASCII bytes that opens and an ASCII query: whenever the
    case-sensitive test finds the query, the case-insensitive test
    finds it too. *)
Theorem case_insensitive_finds_more
        (R : PyRuntime) (io : str -> encoding -> open_result)
        (path query : str) (data : bytes) :
  lower_agrees_on_ascii R ->
  io path utf_8 = Opened data None ->
  forallb (fun b => is_ascii (Byte.to_N b)) data = true ->
  forallb is_ascii query = true ->
  _file_contains_text io path query true = Ret true ->
  _file_contains_text io path query false = Ret true.
Proof.
  intros Hlow Hio Hdata Hquery.
  rewrite !(readable_file_judged_as_utf8 io path query _ Hio).
  intro Hcs. injection Hcs as Hcs. f_equal.
  apply existsb_exists in Hcs as [line [Hline Hsub]].
  apply existsb_exists. exists line. split; [assumption|].
  unfold line_test in *.
  assert (Hascii : forallb is_ascii line = true).
  { apply (readlines_ascii (Codec.utf8_decode data)); [|assumption].
    rewrite utf8_decode_ascii by assumption.
    rewrite forallb_forall in *. intros n Hn.
    apply in_map_iff in Hn as [b [<- Hb]]. now apply Hdata. }
  rewrite !Hlow by assumption. now apply map_lower_contains.
Qed.

Lemma case_insensitive_finds_more_witness :
  _file_contains_text (R := ascii_runtime) scenario_io (u "a/x.conf") (u "port") false
  = Ret true.
Proof.
  apply (@case_insensitive_finds_more ascii_runtime scenario_io (u "a/x.conf")
           (u "port") (ascii_bytes "port=1")).
  - intros s _. reflexivity.
  - reflexivity.
  - reflexivity.
  - reflexivity.
  - reflexivity.
Defined.

(** ** Read errors *)

(** X7.  When the file opens with UTF-8 and a read raises after [k]
    lines: if one of these [k] lines passes the line test the answer
    is [True], the error never being met; otherwise the error is
    swallowed and the answer is that of the remaining encodings, tried
    in their order. *)
Theorem read_error_after_lines
        (R : PyRuntime) (io : str -> encoding -> open_result)
        (path query : str) (case_sensitive : bool)
        (data : bytes) (k : nat) (e : exn) :
  io path utf_8 = Opened data (Some (k, e)) ->
  _file_contains_text io path query case_sensitive =
  if existsb (line_test query case_sensitive)
             (firstn k (readlines (Codec.utf8_decode data)))
  then Ret true
  else try_encodings io path query case_sensitive [cp949; euc_kr; latin_1].
Proof.
  intro Hio. unfold _file_contains_text, encodings.
  cbn [try_encodings]. unfold attempt at 1. rewrite Hio.
  unfold scan_file, line_test. cbn [decode].
  destruct case_sensitive; rewrite for_lines_fault;
    destruct (existsb _ _); reflexivity.
Qed.

Lemma read_error_after_lines_witness :
  _file_contains_text (R := ascii_runtime)
    (fun _ enc => match enc with
                  | utf_8 => Opened (ascii_bytes "port=1") (Some (1, OSError))
                  | _ => OpenRaises OSError
                  end)
    (u "a/x.conf") (u "port") true
  = Ret true.
Proof.
  exact (@read_error_after_lines ascii_runtime
           (fun _ enc => match enc with
                         | utf_8 => Opened (ascii_bytes "port=1") (Some (1, OSError))
                         | _ => OpenRaises OSError
                         end)
           (u "a/x.conf") (u "port") true (ascii_bytes "port=1") 1 OSError eq_refl).
Defined.

(** X8.  The encodings are tried in the order of the list and the
    first attempt that does not raise decides: if the attempts with
    all the encodings before [enc] raise and the file opens and reads
    without error with [enc], the answer is that of the line test on
    the lines of the text decoded with [enc]. *)
Theorem first_clean_attempt_decides
        (R : PyRuntime) (io : str -> encoding -> open_result)
        (path query : str) (case_sensitive : bool)
        (before after : list encoding) (enc : encoding) (data : bytes) :
  encodings = before ++ enc :: after ->
  (forall enc', In enc' before ->
                exists e, attempt io path query case_sensitive enc' = Raise e) ->
  io path enc = Opened data None ->
  _file_contains_text io path query case_sensitive =
  Ret (existsb (line_test query case_sensitive) (readlines (decode enc data))).
Proof.
  intros Hsplit Hbefore Hio. unfold _file_contains_text. rewrite Hsplit.
  apply try_encodings_first; [assumption|].
  unfold attempt. rewrite Hio. apply scan_file_all.
Qed.

Lemma first_clean_attempt_decides_witness :
  _file_contains_text (R := ascii_runtime)
    (fun _ enc => match enc with
                  | utf_8 => OpenRaises OSError
                  | _ => Opened (ascii_bytes "port=1") None
                  end)
    (u "a/x.conf") (u "port") true
  = Ret (existsb (line_test (R := ascii_runtime) (u "port") true)
                 (readlines (decode (R := ascii_runtime) cp949
                                    (ascii_bytes "port=1")))).
Proof.
  apply (@first_clean_attempt_decides ascii_runtime
           (fun _ enc => match enc with
                         | utf_8 => OpenRaises OSError
                         | _ => Opened (ascii_bytes "port=1") None
                         end)
           (u "a/x.conf") (u "port") true [utf_8] [euc_kr; latin_1] cp949
           (ascii_bytes "port=1")).
  - reflexivity.
  - intros enc' [<-|[]]. exists OSError. reflexivity.
  - reflexivity.
Defined.

(** ** Polling, in general *)

Section PollGeneral.

Import Gui.

Lemma on_done_fields (a : app) :
  results (on_done a) = results a /\
  result_queue (on_done a) = result_queue a /\
  search_btn (on_done a) = NORMAL /\
  stop_btn (on_done a) = DISABLED /\
  inputs (on_done a) = inputs a /\
  search_control (on_done a) = search_control a /\
  kept_data (on_done a) = kept_data a /\
  dialogs (on_done a) = dialogs a /\
  after_calls (on_done a) = after_calls a.
Proof.
  destruct a. unfold inputs, search_control, kept_data. gui_eval.
  destruct (List.length results0) eqn:E; destruct focus_results_after_search0;
    gui_eval; rewrite ?E; gui_eval; repeat split.
Qed.

Lemma drain_fields (items : list str) :
  forall (a : app) (updated : bool),
    results (fst (drain items a updated)) = results a ++ filter is_result items /\
    result_queue (fst (drain items a updated)) =
      match items with [] => result_queue a | _ => [] end /\
    search_btn (fst (drain items a updated)) =
      (if existsb (Py.eqb SEARCH_DONE) items then NORMAL else search_btn a) /\
    stop_btn (fst (drain items a updated)) =
      (if existsb (Py.eqb SEARCH_DONE) items then DISABLED else stop_btn a) /\
    inputs (fst (drain items a updated)) = inputs a /\
    search_control (fst (drain items a updated)) = search_control a /\
    kept_data (fst (drain items a updated)) = kept_data a /\
    dialogs (fst (drain items a updated)) = dialogs a /\
    after_calls (fst (drain items a updated)) = after_calls a.
Proof.
  induction items as [|item items IH]; intros a updated.
  - cbn [drain fst filter existsb]. rewrite app_nil_r. repeat split.
  - cbn [drain filter existsb]. unfold is_result at 1.
    destruct (Py.eqb item SEARCH_DONE) eqn:E.
    + apply Py_eqb_eq in E. subst item. rewrite Py_eqb_refl. cbn [negb orb].
      destruct (IH (on_done (set_result_queue a items)) updated)
        as (H1 & H2 & H3 & H4 & H5 & H6 & H7 & H8 & H9).
      destruct (on_done_fields (set_result_queue a items))
        as (D1 & D2 & D3 & D4 & D5 & D6 & D7 & D8 & D9).
      rewrite H1, H2, H3, H4, H5, H6, H7, H8, H9, D1, D2, D3, D4, D5, D6, D7, D8, D9.
      destruct a. unfold inputs, search_control, kept_data.
      destruct (existsb (Py.eqb SEARCH_DONE) items); destruct items;
        repeat split.
    + assert (E' : Py.eqb SEARCH_DONE item = false).
      { apply Py_eqb_neq. apply Py_eqb_neq in E. congruence. }
      rewrite E'. cbn [negb orb].
      destruct (IH (set_results (set_result_queue a items)
                                (results (set_result_queue a items) ++ [item]))
                   true)
        as (H1 & H2 & H3 & H4 & H5 & H6 & H7 & H8 & H9).
      rewrite H1, H2, H3, H4, H5, H6, H7, H8, H9.
      destruct a. unfold inputs, search_control, kept_data. gui_eval.
      rewrite <- app_assoc.
      destruct (existsb (Py.eqb SEARCH_DONE) items); destruct items;
        repeat split.
Qed.

Lemma poll_queue_unfold (a : app) :
  _poll_queue a =
  root_after
    (if snd (drain (result_queue a) a false)
     then set_status_var (fst (drain (result_queue a) a false))
            (InProgress (List.length (results (fst (drain (result_queue a) a false)))))
     else fst (drain (result_queue a) a false))
    100.
Proof.
  unfold _poll_queue. destruct (drain (result_queue a) a false); reflexivity.
Qed.

Lemma poll_tail_fields (a1 : app) (updated : bool) :
  let a2 := root_after
              (if updated
               then set_status_var a1 (InProgress (List.length (results a1)))
               else a1) 100 in
  results a2 = results a1 /\
  result_queue a2 = result_queue a1 /\
  search_btn a2 = search_btn a1 /\
  stop_btn a2 = stop_btn a1 /\
  inputs a2 = inputs a1 /\
  search_control a2 = search_control a1 /\
  kept_data a2 = kept_data a1 /\
  dialogs a2 = dialogs a1 /\
  after_calls a2 = after_calls a1 ++ [100].
Proof.
  destruct updated; destruct a1; repeat split.
Qed.

Lemma poll_queue_fields (a : app) :
  results (_poll_queue a) = results a ++ filter is_result (result_queue a) /\
  result_queue (_poll_queue a) = [] /\
  search_btn (_poll_queue a) =
    (if existsb (Py.eqb SEARCH_DONE) (result_queue a)
     then NORMAL else search_btn a) /\
  stop_btn (_poll_queue a) =
    (if existsb (Py.eqb SEARCH_DONE) (result_queue a)
     then DISABLED else stop_btn a).
Proof.
  rewrite poll_queue_unfold.
  pose proof (drain_fields (result_queue a) a false)
    as (H1 & H2 & H3 & H4 & _).
  pose proof (poll_tail_fields (fst (drain (result_queue a) a false))
                               (snd (drain (result_queue a) a false)))
    as (P1 & P2 & P3 & P4 & _).
  cbv zeta in P1, P2, P3, P4.
  rewrite P1, P2, P3, P4, H1, H2, H3, H4.
  repeat split. destruct (result_queue a); reflexivity.
Qed.

Lemma sentinel_in_queue (items : list str) :
  existsb (Py.eqb SEARCH_DONE) items = true <-> In SEARCH_DONE items.
Proof.
  rewrite existsb_exists. split.
  - intros [x [Hx He]]. apply Py_eqb_eq in He. now subst.
  - intro H. exists SEARCH_DONE. split; [assumption | apply Py_eqb_refl].
Qed.

End PollGeneral.

(** X9.  A poll tick appends to the result list the items of the queue
    that are not the sentinel, in their order, and leaves the queue
    empty; if the sentinel was in the queue the search button is
    enabled and the stop button disabled afterwards, otherwise both
    buttons are as before. *)
Theorem poll_shows_queue (a : Gui.app) :
  Gui.results (Gui._poll_queue a) =
    Gui.results a ++ filter is_result (Gui.result_queue a) /\
  Gui.result_queue (Gui._poll_queue a) = [] /\
  (In SEARCH_DONE (Gui.result_queue a) ->
   Gui.search_btn (Gui._poll_queue a) = Gui.NORMAL /\
   Gui.stop_btn (Gui._poll_queue a) = Gui.DISABLED) /\
  (~ In SEARCH_DONE (Gui.result_queue a) ->
   Gui.search_btn (Gui._poll_queue a) = Gui.search_btn a /\
   Gui.stop_btn (Gui._poll_queue a) = Gui.stop_btn a).
Proof.
  destruct (poll_queue_fields a) as (H1 & H2 & H3 & H4).
  split; [exact H1|]. split; [exact H2|]. rewrite H3, H4. split.
  - intro H. apply sentinel_in_queue in H. rewrite H. now split.
  - intro H. destruct (existsb (Py.eqb SEARCH_DONE) (Gui.result_queue a)) eqn:E;
      [exfalso; apply H; now apply sentinel_in_queue | now split].
Qed.

Lemma poll_shows_queue_witness :
  In SEARCH_DONE (Gui.result_queue finishing_app) /\
  Gui.search_btn (Gui._poll_queue finishing_app) = Gui.NORMAL /\
  ~ In SEARCH_DONE (Gui.result_queue sample_app) /\
  Gui.search_btn (Gui._poll_queue sample_app) = Gui.search_btn sample_app.
Proof.
  assert (H1 : In SEARCH_DONE (Gui.result_queue finishing_app))
    by (right; now left).
  assert (H2 : ~ In SEARCH_DONE (Gui.result_queue sample_app)) by (intros []).
  split; [exact H1|].
  split; [exact (proj1 (proj1 (proj2 (proj2 (poll_shows_queue finishing_app))) H1))|].
  split; [exact H2|].
  exact (proj1 (proj2 (proj2 (proj2 (poll_shows_queue sample_app))) H2)).
Defined.

(** X10.  A poll tick changes neither what the user entered, nor the
    stop event, the thread object or the threads started, nor the
    folder history, the combo box or the settings, and it shows no
    message box; it schedules exactly one further tick, 100 ms
    later. *)
Theorem poll_leaves_search_alone (a : Gui.app) :
  inputs (Gui._poll_queue a) = inputs a /\
  search_control (Gui._poll_queue a) = search_control a /\
  kept_data (Gui._poll_queue a) = kept_data a /\
  Gui.dialogs (Gui._poll_queue a) = Gui.dialogs a /\
  Gui.after_calls (Gui._poll_queue a) = Gui.after_calls a ++ [100].
Proof.
  rewrite poll_queue_unfold.
  pose proof (drain_fields (Gui.result_queue a) a false)
    as (_ & _ & _ & _ & H5 & H6 & H7 & H8 & H9).
  pose proof (poll_tail_fields (fst (Gui.drain (Gui.result_queue a) a false))
                               (snd (Gui.drain (Gui.result_queue a) a false)))
    as (_ & _ & _ & _ & P5 & P6 & P7 & P8 & P9).
  cbv zeta in P5, P6, P7, P8, P9.
  rewrite P5, P6, P7, P8, P9, H5, H6, H7, H8, H9. repeat split.
Qed.

(** ** From the worker to the result list *)

Lemma filter_results_paths (items : list str) :
  Forall (fun p => In 47%N p) items -> filter is_result items = items.
Proof.
  induction 1 as [|p items Hp _ IH]; [reflexivity|].
  cbn [filter]. rewrite IH. unfold is_result.
  destruct (Py.eqb p SEARCH_DONE) eqn:E; [|reflexivity].
  apply Py_eqb_eq in E. subst p. exfalso. revert Hp. vm_compute.
  intuition discriminate.
Qed.

(** X11.  When a worker has run to its end on the queue of the GUI,
    the next poll tick shows what was still waiting in the queue and
    then the files the worker found, in the order of the enumeration,
    leaves the queue empty, enables the search button and disables the
    stop button. *)
Theorem finished_search_is_shown
        (R : PyRuntime) (stop_event : nat -> bool) (fs : node)
        (io : str -> encoding -> open_result)
        (folder query ext : str) (recursive case_sensitive : bool)
        (a : Gui.app) :
  let s1 := snd (_search_worker stop_event fs io folder query ext recursive
                                case_sensitive
                                (mk_wstate (Gui.result_queue a) 0 [])) in
  let a' := Gui._poll_queue (Gui.set_result_queue a (result_queue s1)) in
  let discovered :=
    filter (fun p => found (_file_contains_text io p query case_sensitive))
           (visited stop_event 0
                    (fst (_iter_files fs folder (pattern ext) recursive))) in
  Gui.results a' =
    Gui.results a ++ filter is_result (Gui.result_queue a) ++ discovered /\
  Gui.result_queue a' = [] /\
  Gui.search_btn a' = Gui.NORMAL /\
  Gui.stop_btn a' = Gui.DISABLED.
Proof.
  intros s1 a' discovered. subst s1 a'. unfold _search_worker.
  rewrite search_loop_run. cbn [snd result_queue checks]. fold discovered.
  set (b := Gui.set_result_queue a (Gui.result_queue a ++ discovered ++ [SEARCH_DONE])).
  assert (Hq : Gui.result_queue b = Gui.result_queue a ++ discovered ++ [SEARCH_DONE])
    by (subst b; destruct a; reflexivity).
  assert (Hr : Gui.results b = Gui.results a) by (subst b; destruct a; reflexivity).
  destruct (poll_queue_fields b) as (H1 & H2 & H3 & H4).
  assert (Hin : existsb (Py.eqb SEARCH_DONE) (Gui.result_queue b) = true).
  { apply sentinel_in_queue. rewrite Hq.
    apply in_or_app. right. apply in_or_app. right. now left. }
  rewrite H1, H2, H3, H4, Hin, Hq, Hr, !filter_app.
  change (filter is_result [SEARCH_DONE]) with (@nil str).
  rewrite app_nil_r.
  repeat split. do 2 f_equal.
  apply filter_results_paths.
  apply Forall_forall. intros p Hp. subst discovered.
  apply filter_In in Hp as [Hp _]. apply visited_incl in Hp.
  pose proof (iter_files_have_separator fs folder (pattern ext) recursive) as Hall.
  rewrite Forall_forall in Hall. now apply Hall.
Qed.

(** ** Starting a search *)

Section StartSearch.

Import Gui.

Variable isdir : str -> bool.
Variable is_alive : nat -> bool.
Variable from_query : bool.

Lemma not_accepted_dialog (a : app) :
  ~ accepted isdir is_alive a ->
  exists d, _on_search_clicked isdir is_alive from_query a = show_dialog a d.
Proof.
  intro Hna. unfold _on_search_clicked.
  destruct (match search_thread a with Some t => is_alive t | None => false end)
    eqn:Hal; [eexists; reflexivity|].
  destruct (Py.truthy (Py.strip (folder_var a))) eqn:Hf; cbn [negb orb];
    [|eexists; reflexivity].
  destruct (isdir (Py.strip (folder_var a))) eqn:Hd; cbn [negb];
    [|eexists; reflexivity].
  destruct (Py.truthy (query_var a)) eqn:Hq; cbn [negb];
    [|eexists; reflexivity].
  exfalso. apply Hna. repeat split; assumption.
Qed.

(** The state an accepted search leaves. *)
Lemma accepted_search_fields (a : app) :
  accepted isdir is_alive a ->
  let a' := _on_search_clicked isdir is_alive from_query a in
  let folder := Py.strip (folder_var a) in
  let ext := if Py.truthy (Py.strip (ext_var a))
             then Py.strip (ext_var a) else u ".conf" in
  results a' = [] /\
  status_var a' = Searching /\
  search_btn a' = DISABLED /\
  stop_btn a' = NORMAL /\
  stop_event a' = false /\
  result_queue a' = result_queue a /\
  dialogs a' = dialogs a /\
  focus_results_after_search a' = from_query /\
  folder_history a' =
    firstn 15 (folder :: (if list_in folder (folder_history a)
                          then list_remove folder (folder_history a)
                          else folder_history a)) /\
  last_folder (settings a') = folder /\
  last_query (settings a') = query_var a /\
  last_extension (settings a') = ext /\
  s_recursive (settings a') = recursive_var a /\
  s_case_sensitive (settings a') = case_sensitive_var a /\
  s_folder_history (settings a') = folder_history a'.
Proof.
  intros (Hal & Hf & Hd & Hq). unfold _on_search_clicked.
  rewrite Hal, Hf, Hd, Hq. simpl negb. simpl orb. cbv iota.
  destruct a; gui_eval.
  destruct (Py.truthy (Py.strip ext_var0)); gui_eval;
    destruct (list_in _ _); gui_eval; repeat split.
Qed.

End StartSearch.

Lemma accepted_dec (isdir : str -> bool) (is_alive : nat -> bool) (a : Gui.app) :
  accepted isdir is_alive a \/ ~ accepted isdir is_alive a.
Proof.
  unfold accepted.
  destruct (match Gui.search_thread a with Some t => is_alive t | None => false end);
    [right; intros (H & _); discriminate|].
  destruct (Py.truthy (Py.strip (Gui.folder_var a)));
    [|right; intros (_ & H & _); discriminate].
  destruct (isdir (Py.strip (Gui.folder_var a)));
    [|right; intros (_ & _ & H & _); discriminate].
  destruct (Py.truthy (Gui.query_var a));
    [|right; intros (_ & _ & _ & H); discriminate].
  left. repeat split.
Qed.

Lemma truthy_nonempty (s : str) : Py.truthy s = true -> s <> [].
Proof. destruct s; [discriminate | discriminate]. Qed.

(** X12.  A click on the search button starts a worker thread exactly
    when the request is accepted (no live worker, a folder that is a
    directory, a query that is not empty), and then without any
    message box; a request that is not accepted changes nothing in the
    state and shows one message box. *)
Theorem search_starts_iff_accepted
        (isdir : str -> bool) (is_alive : nat -> bool) (from_query : bool)
        (a : Gui.app) :
  let a' := Gui._on_search_clicked isdir is_alive from_query a in
  (accepted isdir is_alive a ->
   (exists args, Gui.spawned a' = Gui.spawned a ++ [args]) /\
   Gui.dialogs a' = Gui.dialogs a) /\
  (~ accepted isdir is_alive a ->
   (exists d, a' = Gui.show_dialog a d) /\
   Gui.spawned a' = Gui.spawned a).
Proof.
  intro a'. subst a'. split.
  - intro Hacc. split.
    + destruct (accepted_starts_worker from_query Hacc) as (Hs & _).
      eexists. exact Hs.
    + apply (accepted_search_fields from_query Hacc).
  - intro Hna. destruct (not_accepted_dialog from_query Hna) as [d Hd].
    split; [now exists d|]. rewrite Hd. destruct a; reflexivity.
Qed.

Lemma search_starts_iff_accepted_witness :
  accepted (fun _ => true) (fun _ => false)
           (System.edit sample_app (u "/etc") (u "port") (u "conf") true false) /\
  Gui.dialogs (Gui._on_search_clicked (fun _ => true) (fun _ => false) false
                 (System.edit sample_app (u "/etc") (u "port") (u "conf") true false))
  = [] /\
  ~ accepted (fun _ => true) (fun _ => false) sample_app /\
  Gui.spawned (Gui._on_search_clicked (fun _ => true) (fun _ => false) false sample_app)
  = [].
Proof.
  assert (H1 : accepted (fun _ => true) (fun _ => false)
                 (System.edit sample_app (u "/etc") (u "port") (u "conf") true false))
    by (repeat split).
  assert (H2 : ~ accepted (fun _ => true) (fun _ => false) sample_app)
    by (intros (_ & _ & _ & H); discriminate).
  split; [exact H1|].
  split; [exact (proj2 (proj1 (search_starts_iff_accepted (fun _ => true)
                                 (fun _ => false) false _) H1))|].
  split; [exact H2|].
  exact (proj2 (proj2 (search_starts_iff_accepted (fun _ => true)
                         (fun _ => false) false sample_app) H2)).
Defined.

Section ValidArguments.

Import Gui System.

Lemma search_spawns_valid (isdir : str -> bool) (is_alive : nat -> bool)
      (from_query : bool) (a : app) :
  Forall valid_args (spawned a) ->
  Forall valid_args (spawned (_on_search_clicked isdir is_alive from_query a)).
Proof.
  intro Hall.
  destruct (accepted_dec isdir is_alive a) as [Hacc | Hna].
  - destruct (accepted_starts_worker from_query Hacc) as (Hs & _).
    rewrite Hs. apply Forall_app. split; [assumption|].
    constructor; [|constructor].
    destruct Hacc as (_ & Hf & _ & Hq).
    unfold valid_args. cbn [a_folder a_query a_ext].
    repeat split; try (now apply truthy_nonempty).
    destruct (Py.truthy (Py.strip (ext_var a))) eqn:He;
      [now apply truthy_nonempty | discriminate].
  - destruct (not_accepted_dialog from_query Hna) as [d ->].
    destruct a; exact Hall.
Qed.

End ValidArguments.

(** X13.  In every state the program reaches, each worker thread that
    was ever started got a folder, a query and an extension that are
    not empty. *)
Theorem workers_get_valid_arguments (s : System.sys) :
  System.reachable s ->
  Forall valid_args (Gui.spawned (System.gui s)).
Proof.
  induction 1 as [a Ht Hs | s s' _ IH Hstep].
  - cbn [System.gui]. rewrite Hs. constructor.
  - destruct Hstep as [s isdir fq | s isdir | s | s | s | s f q e r c
                       | s t item Hin | s t Hin]; cbn [System.gui].
    + now apply search_spawns_valid.
    + unfold Gui._on_query_enter. apply search_spawns_valid.
      destruct (System.gui s); exact IH.
    + destruct (System.gui s); exact IH.
    + destruct (System.gui s); exact IH.
    + now rewrite (proj2 (poll_keeps_threads (System.gui s))).
    + destruct (System.gui s); exact IH.
    + destruct (System.gui s); exact IH.
    + exact IH.
Qed.

Lemma workers_get_valid_arguments_witness :
  System.reachable running_sys /\
  Forall valid_args (Gui.spawned (System.gui running_sys)).
Proof.
  assert (Hr : System.reachable running_sys).
  { pose (s0 := System.mk_sys sample_app []).
    assert (H0 : System.reachable s0) by (now constructor).
    pose (s1 := System.mk_sys
                  (System.edit sample_app (u "/etc") (u "port") (u "conf") true false)
                  []).
    assert (H1 : System.reachable s1).
    { apply (System.reach_step H0).
      exact (System.step_edit s0 (u "/etc") (u "port") (u "conf") true false). }
    apply (System.reach_step H1).
    exact (System.step_search_clicked s1 (fun _ => true) false). }
  split; [exact Hr|].
  exact (workers_get_valid_arguments Hr).
Defined.

(** X14.  An accepted search empties the result list, shows the
    "searching" status, disables the search button and enables the
    stop button, clears the stop event, and records the stripped
    folder, the query, the extension handed to the worker and the two
    check boxes in the settings; it leaves the result queue as it
    is. *)
Theorem accepted_search_state
        (isdir : str -> bool) (is_alive : nat -> bool) (from_query : bool)
        (a : Gui.app) :
  accepted isdir is_alive a ->
  let a' := Gui._on_search_clicked isdir is_alive from_query a in
  Gui.results a' = [] /\
  Gui.status_var a' = Gui.Searching /\
  Gui.search_btn a' = Gui.DISABLED /\
  Gui.stop_btn a' = Gui.NORMAL /\
  Gui.stop_event a' = false /\
  Gui.result_queue a' = Gui.result_queue a /\
  Gui.last_folder (Gui.settings a') = Py.strip (Gui.folder_var a) /\
  Gui.last_query (Gui.settings a') = Gui.query_var a /\
  (exists args, Gui.spawned a' = Gui.spawned a ++ [args] /\
                Gui.last_extension (Gui.settings a') = Gui.a_ext args) /\
  Gui.s_recursive (Gui.settings a') = Gui.recursive_var a /\
  Gui.s_case_sensitive (Gui.settings a') = Gui.case_sensitive_var a.
Proof.
  intros Hacc a'. subst a'.
  destruct (accepted_search_fields from_query Hacc)
    as (H1 & H2 & H3 & H4 & H5 & H6 & _ & _ & _ & H10 & H11 & H12 & H13 & H14 & _).
  destruct (accepted_starts_worker from_query Hacc) as (Hs & _).
  repeat split; try assumption.
  eexists. split; [exact Hs|]. exact H12.
Qed.

Lemma accepted_search_state_witness :
  Gui.stop_event
    (Gui._on_search_clicked (fun _ => true) (fun _ => false) false
       (Gui._on_stop_clicked
          (System.edit sample_app (u "/etc") (u "port") (u "conf") true false)))
  = false.
Proof.
  refine (proj1 (proj2 (proj2 (proj2 (proj2
    (accepted_search_state (isdir := fun _ => true) (is_alive := fun _ => false)
       false
       (a := Gui._on_stop_clicked
               (System.edit sample_app (u "/etc") (u "port") (u "conf") true false))
       _)))))).
  repeat split.
Defined.

(** ** More on the folder history *)

Section HistoryMore.

Import Gui.

Lemma list_remove_head (x : str) (l : list str) : list_remove x (x :: l) = l.
Proof. cbn [list_remove]. now rewrite Py_eqb_refl. Qed.

Lemma list_in_head (x : str) (l : list str) : list_in x (x :: l) = true.
Proof. unfold list_in. cbn [existsb]. now rewrite Py_eqb_refl. Qed.

Lemma list_remove_keeps (x y : str) (l : list str) :
  In y l -> y <> x -> In y (list_remove x l).
Proof.
  intros Hin Hne.
  induction l as [|z l IH]; [contradiction|].
  cbn [list_remove]. destruct (Py.eqb x z) eqn:E.
  - apply Py_eqb_eq in E. subst z. destruct Hin as [H|H]; [congruence | exact H].
  - destruct Hin as [H|H]; [now left | right; now apply IH].
Qed.

Lemma list_remove_length (x : str) (l : list str) :
  In x l -> S (List.length (list_remove x l)) = List.length l.
Proof.
  induction l as [|z l IH]; [contradiction|].
  cbn [list_remove]. destruct (Py.eqb x z) eqn:E; [reflexivity|].
  intros [H|H].
  - apply Py_eqb_neq in E. congruence.
  - cbn [List.length]. now rewrite IH.
Qed.

(** The whole state after [_update_folder_history]. *)
Lemma update_folder_history_state (folder : str) (a : app) :
  _update_folder_history folder a =
  let h := firstn 15 (folder :: (if list_in folder (folder_history a)
                                 then list_remove folder (folder_history a)
                                 else folder_history a)) in
  set_settings
    (set_folder_combo_values (set_folder_history a h) h)
    (mk_settings (program_name (settings a)) (default_folder (settings a)) h
                 (last_folder (settings a)) (last_query (settings a))
                 (last_extension (settings a)) (s_recursive (settings a))
                 (s_case_sensitive (settings a)) (autorun (settings a))
                 (global_hotkey_enabled (settings a))
                 (window_geometry (settings a))).
Proof.
  destruct a. gui_eval. destruct (list_in _ _); reflexivity.
Qed.

End HistoryMore.

(** X15.  Entering the same folder into the history twice in a row
    leaves the same state as entering it once. *)
Theorem update_folder_history_idempotent (folder : str) (a : Gui.app) :
  Gui._update_folder_history folder (Gui._update_folder_history folder a) =
  Gui._update_folder_history folder a.
Proof.
  rewrite (update_folder_history_state folder (Gui._update_folder_history folder a)).
  rewrite (update_folder_history_state folder a).
  cbv zeta.
  set (l := if Gui.list_in folder (Gui.folder_history a)
            then Gui.list_remove folder (Gui.folder_history a)
            else Gui.folder_history a).
  change (firstn 15 (folder :: l)) with (folder :: firstn 14 l).
  destruct a. gui_eval.
  rewrite list_in_head, list_remove_head.
  change (firstn 15 (folder :: firstn 14 l)) with (folder :: firstn 14 (firstn 14 l)).
  rewrite firstn_firstn. reflexivity.
Qed.

(** X16.  An update of the history loses no entry as long as there is
    room: if the history has fewer than 15 entries, or has at most 15
    and already holds the folder, every entry it had is still in it
    afterwards. *)
Theorem update_folder_history_keeps_entries (folder : str) (a : Gui.app) :
  List.length (Gui.folder_history a) < 15 \/
  (In folder (Gui.folder_history a) /\ List.length (Gui.folder_history a) <= 15) ->
  forall x, In x (Gui.folder_history a) ->
            In x (Gui.folder_history (Gui._update_folder_history folder a)).
Proof.
  intros Hroom x Hx. rewrite folder_history_after.
  destruct (Gui.list_in folder (Gui.folder_history a)) eqn:E.
  - apply list_in_spec in E.
    pose proof (list_remove_length folder (Gui.folder_history a) E) as Hlen.
    rewrite firstn_all2 by (cbn [List.length]; lia).
    destruct (Py.eqb x folder) eqn:Ex.
    + apply Py_eqb_eq in Ex. subst x. now left.
    + apply Py_eqb_neq in Ex. right. now apply list_remove_keeps.
  - destruct Hroom as [Hlt | [Hin _]].
    + rewrite firstn_all2 by (cbn [List.length]; lia). now right.
    + apply list_in_spec in Hin. congruence.
Qed.

Lemma update_folder_history_keeps_entries_witness :
  List.length (Gui.folder_history sample_app) < 15 /\
  In (u "/srv") (Gui.folder_history sample_app) /\
  In (u "/srv")
     (Gui.folder_history (Gui._update_folder_history (u "/var") sample_app)).
Proof.
  assert (H1 : List.length (Gui.folder_history sample_app) < 15) by (simpl; lia).
  assert (H2 : In (u "/srv") (Gui.folder_history sample_app)) by (right; now left).
  split; [exact H1|]. split; [exact H2|].
  exact (update_folder_history_keeps_entries (u "/var") sample_app (or_introl H1)
           (u "/srv") H2).
Defined.


(** ** The settings file *)

Section SettingsFile.

Import Settings.

Variable home : str.

Lemma dict_has_In (k : str) (d : dict) :
  dict_has k d = true <-> In k (dict_keys d).
Proof.
  unfold dict_has, dict_keys. rewrite existsb_exists. split.
  - intros [e [He Hk]]. apply Py_eqb_eq in Hk. subst k. now apply in_map.
  - intro H. apply in_map_iff in H. destruct H as [e [He Hin]].
    exists e. split; [assumption|]. subst k. apply Py_eqb_refl.
Qed.

Lemma dict_set_keys (k : str) (v : value) (d : dict) :
  dict_has k d = true -> dict_keys (dict_set k v d) = dict_keys d.
Proof.
  induction d as [|[k' v'] d IH]; [discriminate|].
  cbn [dict_has existsb fst dict_set]. destruct (Py.eqb k k') eqn:E.
  - reflexivity.
  - cbn [orb]. intro H. cbn [dict_keys map fst]. f_equal. now apply IH.
Qed.

Lemma dict_set_new (k : str) (v : value) (d : dict) :
  dict_has k d = false -> dict_set k v d = d ++ [(k, v)].
Proof.
  induction d as [|[k' v'] d IH]; [reflexivity|].
  cbn [dict_has existsb fst dict_set]. destruct (Py.eqb k k') eqn:E.
  - discriminate.
  - cbn [orb]. intro H. cbn [List.app]. f_equal. now apply IH.
Qed.

Lemma dict_get_set (k k' : str) (v : value) (d : dict) :
  dict_get k (dict_set k' v d) =
  if Py.eqb k k' then Some v else dict_get k d.
Proof.
  induction d as [|[k0 v0] d IH].
  - reflexivity.
  - cbn [dict_set]. destruct (Py.eqb k' k0) eqn:E0.
    + apply Py_eqb_eq in E0. subst k0. cbn [dict_get].
      now destruct (Py.eqb k k').
    + cbn [dict_get]. rewrite IH. destruct (Py.eqb k k0) eqn:E1.
      * apply Py_eqb_eq in E1. subst k0.
        destruct (Py.eqb k k') eqn:E2; [|reflexivity].
        apply Py_eqb_eq in E2. subst k'. rewrite Py_eqb_refl in E0.
        discriminate.
      * reflexivity.
Qed.

Lemma dict_get_None (k : str) (d : dict) :
  dict_get k d = None <-> ~ In k (dict_keys d).
Proof.
  induction d as [|[k' v'] d IH].
  - cbn. tauto.
  - cbn [dict_get dict_keys map fst In]. destruct (Py.eqb k k') eqn:E.
    + apply Py_eqb_eq in E. subst k'. split; [discriminate|]. tauto.
    + apply Py_eqb_neq in E. rewrite IH. unfold dict_keys. split.
      * intros H [H1|H1]; [congruence | tauto].
      * tauto.
Qed.

Lemma dict_update_keys (other d : dict) :
  Forall (fun e => dict_has (fst e) d = true) other ->
  dict_keys (dict_update d other) = dict_keys d.
Proof.
  unfold dict_update. revert d.
  induction other as [|e other IH]; intros d H; [reflexivity|].
  inversion H as [|e' l' He Hl]; subst. cbn [fold_left].
  rewrite IH.
  - now apply dict_set_keys.
  - eapply Forall_impl; [|exact Hl]. intros e' He'.
    apply dict_has_In. rewrite dict_set_keys by assumption.
    now apply dict_has_In.
Qed.

Lemma dict_get_update (k : str) (other d : dict) :
  NoDup (dict_keys other) ->
  dict_get k (dict_update d other) =
  match dict_get k other with
  | Some v => Some v
  | None => dict_get k d
  end.
Proof.
  unfold dict_update. revert d.
  induction other as [|[k' v'] other IH]; intros d H; [reflexivity|].
  cbn [dict_keys map fst] in H. inversion H as [|x l Hnot Hnd]; subst.
  cbn [fold_left fst snd dict_get]. rewrite IH by exact Hnd.
  destruct (Py.eqb k k') eqn:E.
  - apply Py_eqb_eq in E. subst k'.
    apply dict_get_None in Hnot. rewrite Hnot.
    rewrite dict_get_set. now rewrite Py_eqb_refl.
  - destruct (dict_get k other); [reflexivity|].
    rewrite dict_get_set. now rewrite E.
Qed.

Lemma dict_fold_items (items acc : dict) :
  NoDup (dict_keys acc ++ dict_keys items) ->
  fold_left (fun d e => dict_set (fst e) (snd e) d) items acc = acc ++ items.
Proof.
  revert acc. induction items as [|[k v] items IH]; intros acc H.
  - cbn. now rewrite app_nil_r.
  - cbn [fold_left fst snd]. cbn [dict_keys map fst] in H.
    assert (Hnew : dict_has k acc = false).
    { destruct (dict_has k acc) eqn:E; [|reflexivity].
      apply dict_has_In in E. apply NoDup_remove_2 in H.
      exfalso. apply H. apply in_or_app. now left. }
    rewrite dict_set_new by exact Hnew. rewrite IH.
    + now rewrite <- app_assoc.
    + unfold dict_keys in *. rewrite map_app. cbn [map fst].
      rewrite <- app_assoc. exact H.
Qed.

Lemma dict_of_items_nodup (items : dict) :
  NoDup (dict_keys items) -> dict_of_items items = items.
Proof.
  intro H. unfold dict_of_items. now rewrite dict_fold_items.
Qed.


Lemma dict_ext (d1 d2 : dict) :
  dict_keys d1 = dict_keys d2 ->
  NoDup (dict_keys d1) ->
  (forall k, In k (dict_keys d1) -> dict_get k d1 = dict_get k d2) ->
  d1 = d2.
Proof.
  revert d2. induction d1 as [|[k v] d1 IH]; intros [|[k2 v2] d2] Hk Hnd Hg;
    try discriminate; [reflexivity|].
  cbn [dict_keys map fst] in Hk, Hnd. injection Hk as <- Hk.
  inversion Hnd as [|x l Hnot Hnd']; subst.
  assert (Hv : v = v2).
  { specialize (Hg k (or_introl eq_refl)). cbn [dict_get] in Hg.
    rewrite Py_eqb_refl in Hg. congruence. }
  subst v2. f_equal. apply IH; [exact Hk | exact Hnd' |].
  intros k' Hin. specialize (Hg k' (or_intror Hin)). cbn [dict_get] in Hg.
  destruct (Py.eqb k' k) eqn:E; [|exact Hg].
  apply Py_eqb_eq in E. subst k'. contradiction.
Qed.

Lemma fresh_defaults_eq : fresh_defaults home = DEFAULT_SETTINGS home.
Proof. reflexivity. Qed.

Lemma default_keys_nodup : NoDup (dict_keys (DEFAULT_SETTINGS home)).
Proof.
  repeat (constructor;
          [ cbv; intros H;
            repeat (destruct H as [H|H]; [discriminate H|]); exact H |]).
  constructor.
Qed.



(** A file that is missing, unreadable, not JSON, or JSON but not an
    object gives the defaults. *)
Lemma load_settings_fallback (file : config_file) :
  (forall data, file <> Content (VDict data)) ->
  load_settings home file = DEFAULT_SETTINGS home.
Proof.
  intro H. destruct file as [| e | | v]; try reflexivity.
  destruct v; try reflexivity. now elim (H entries).
Qed.

(** A save that fails while writing loses the stored settings: the
    next start finds the defaults. *)
Lemma failed_dump_resets (settings : dict) (file : config_file) :
  load_settings home (save_settings DumpRaises settings file) =
  DEFAULT_SETTINGS home.
Proof. reflexivity. Qed.

Lemma stored_settings_reload (s : dict) :
  dict_keys s = dict_keys (DEFAULT_SETTINGS home) ->
  load_settings home (Content (VDict s)) = s.
Proof.
  intro Hk. cbn [load_settings].
  assert (Hnd : NoDup (dict_keys s)).
  { rewrite Hk. apply default_keys_nodup. }
  assert (Hall : forall e, In e s ->
                           dict_has (fst e) (DEFAULT_SETTINGS home) = true).
  { intros e He. apply dict_has_In. rewrite <- Hk. unfold dict_keys.
    now apply in_map. }
  assert (Hf : filter (fun e => dict_has (fst e) (DEFAULT_SETTINGS home)) s
               = s).
  { clear Hk Hnd. induction s as [|e s' IH]; [reflexivity|].
    cbn [filter]. rewrite (Hall e (or_introl eq_refl)). f_equal.
    apply IH. intros e' He'. apply Hall. now right. }
  rewrite Hf. rewrite dict_of_items_nodup by exact Hnd.
  assert (Hkeys : dict_keys (dict_update (fresh_defaults home) s) =
                  dict_keys s).
  { rewrite dict_update_keys.
    - now rewrite fresh_defaults_eq.
    - rewrite fresh_defaults_eq. apply Forall_forall. exact Hall. }
  apply dict_ext.
  - exact Hkeys.
  - rewrite Hkeys. exact Hnd.
  - intros k Hin. rewrite Hkeys in Hin.
    rewrite dict_get_update by exact Hnd.
    destruct (dict_get k s) eqn:E; [reflexivity|].
    apply dict_get_None in E. contradiction.
Qed.

End SettingsFile.


(** X18.  When the file holds a JSON object, a key of
    [DEFAULT_SETTINGS] has the value of the file if the file has the
    key (whatever the type of that value) and the default value
    otherwise; any other key has no value. *)
Theorem load_settings_merges (home : str) (data : Settings.dict) (k : str) :
  NoDup (Settings.dict_keys data) ->
  Settings.dict_get k
    (Settings.load_settings home (Settings.Content (Settings.VDict data))) =
  if Settings.dict_has k (Settings.DEFAULT_SETTINGS home)
  then match Settings.dict_get k data with
       | Some v => Some v
       | None => Settings.dict_get k (Settings.DEFAULT_SETTINGS home)
       end
  else None.
Proof.
  intro Hnd. cbn [Settings.load_settings].
  set (known := filter (fun e => Settings.dict_has (fst e)
                                   (Settings.DEFAULT_SETTINGS home)) data).
  assert (Hknd : NoDup (Settings.dict_keys known)).
  { unfold known. clear -Hnd. induction data as [|[k' v'] data IH].
    - constructor.
    - cbn [Settings.dict_keys map fst] in Hnd.
      inversion Hnd as [|x l Hnot Hnd']; subst.
      cbn [filter fst].
      destruct (Settings.dict_has k' (Settings.DEFAULT_SETTINGS home)).
      + cbn [Settings.dict_keys map fst]. constructor; [|now apply IH].
        intro Hin. apply Hnot. unfold Settings.dict_keys in *.
        apply in_map_iff in Hin. destruct Hin as [e [He Hin]].
        apply filter_In in Hin. apply in_map_iff. exists e. tauto.
      + now apply IH. }
  rewrite dict_of_items_nodup by exact Hknd.
  rewrite dict_get_update by exact Hknd. rewrite fresh_defaults_eq.
  assert (Hget : Settings.dict_get k known =
                 if Settings.dict_has k (Settings.DEFAULT_SETTINGS home)
                 then Settings.dict_get k data else None).
  { unfold known. clear. induction data as [|[k' v'] data IH].
    - cbn [filter Settings.dict_get].
      now destruct (Settings.dict_has k (Settings.DEFAULT_SETTINGS home)).
    - cbn [filter fst Settings.dict_get].
      destruct (Py.eqb k k') eqn:E.
      + apply Py_eqb_eq in E. subst k'.
        destruct (Settings.dict_has k (Settings.DEFAULT_SETTINGS home)) eqn:Hh.
        * cbn [Settings.dict_get]. now rewrite Py_eqb_refl.
        * rewrite IH. reflexivity.
      + destruct (Settings.dict_has k' (Settings.DEFAULT_SETTINGS home)).
        * cbn [Settings.dict_get]. rewrite E. exact IH.
        * exact IH. }
  rewrite Hget.
  destruct (Settings.dict_has k (Settings.DEFAULT_SETTINGS home)) eqn:Hh.
  - reflexivity.
  - destruct (Settings.dict_get k (Settings.DEFAULT_SETTINGS home)) eqn:Hd;
      [|reflexivity].
    assert (Hin : Settings.dict_get k (Settings.DEFAULT_SETTINGS home)
                  <> None) by congruence.
    rewrite dict_get_None in Hin.
    assert (Hin' : In k (Settings.dict_keys (Settings.DEFAULT_SETTINGS home))).
    { destruct (in_dec (list_eq_dec N.eq_dec) k
                  (Settings.dict_keys (Settings.DEFAULT_SETTINGS home)));
        [assumption | contradiction]. }
    apply dict_has_In in Hin'. congruence.
Qed.

Lemma load_settings_merges_witness :
  Settings.dict_get (u "recursive")
    (Settings.load_settings (u "/home/kim")
       (Settings.Content
          (Settings.VDict [(u "recursive", Settings.VStr (u "no"));
                           (u "theme", Settings.VStr (u "dark"))]))) =
  Some (Settings.VStr (u "no")).
Proof.
  rewrite (@load_settings_merges (u "/home/kim")
             [(u "recursive", Settings.VStr (u "no"));
              (u "theme", Settings.VStr (u "dark"))]
             (u "recursive")).
  - reflexivity.
  - repeat (constructor;
            [ cbv; intros H;
              repeat (destruct H as [H|H]; [discriminate H|]); exact H |]).
    constructor.
Defined.




(** ** Start and end of a session *)

Ltac session_eval :=
  cbv beta iota zeta delta
    [Session.set_folder_var Session.set_query_var Session.set_recursive_var
     Session.set_case_sensitive_var Session._focus_query_entry
     Session._apply_initial_values Session._save_settings
     Gui.set_ext_var Gui.set_results Gui.set_selection Gui.set_active
     Gui.set_results_focused Gui.set_status_var Gui.set_search_btn
     Gui.set_stop_btn Gui.set_stop_event Gui.set_result_queue
     Gui.set_folder_history Gui.set_folder_combo_values Gui.set_settings
     Gui.set_focus_results_after_search Gui.start_thread Gui.show_dialog
     Gui.root_after Gui._update_folder_history Gui._clear_results
     Gui._on_stop_clicked Gui.on_done System.edit
     Gui.folder_var Gui.query_var Gui.ext_var Gui.recursive_var
     Gui.case_sensitive_var Gui.results Gui.selection Gui.active
     Gui.results_focused Gui.status_var Gui.search_btn Gui.stop_btn
     Gui.stop_event Gui.result_queue Gui.folder_history
     Gui.folder_combo_values Gui.settings Gui.search_thread
     Gui.focus_results_after_search Gui.spawned Gui.dialogs Gui.after_calls
     Gui.s_folder_history Gui.program_name Gui.default_folder Gui.last_folder
     Gui.last_query Gui.last_extension Gui.s_recursive Gui.s_case_sensitive
     Gui.autorun Gui.global_hotkey_enabled Gui.window_geometry
     fst snd].

Section SessionStart.

Import Gui Session.

Variable home : str.

Lemma strip_conf : Py.strip (u ".conf") = u ".conf".
Proof. reflexivity. Qed.

(** The fields [_apply_initial_values] writes. *)
Lemma apply_initial_values_fields (a : app) :
  let a' := _apply_initial_values home a in
  let s := settings a in
  let folder := first_nonempty (last_folder s) (default_folder s) home in
  folder_var a' = folder /\
  folder_history a' = (if Py.truthy folder
                       then move_to_front folder (folder_history a)
                       else folder_history a) /\
  folder_combo_values a' = folder_history a' /\
  s_folder_history (settings a') = folder_history a' /\
  query_var a' = last_query s /\
  ext_var a' = (if Py.truthy (Py.strip (last_extension s))
                then last_extension s else u ".conf") /\
  recursive_var a' = s_recursive s /\
  case_sensitive_var a' = s_case_sensitive s /\
  search_btn a' = search_btn a /\
  stop_btn a' = stop_btn a.
Proof.
  destruct a as [fv qv ev rv cv rs sel act rf st sb tb se rq fh fc s0 th fr
                 sp dl ac].
  destruct s0 as [pn df sh lf lq le sr sc au gh wg].
  unfold first_nonempty. session_eval.
  assert (Hext : (if negb (Py.truthy
                             (Py.strip (if Py.truthy le then le else u ".conf")))
                  then u ".conf"
                  else if Py.truthy le then le else u ".conf") =
                 (if Py.truthy (Py.strip le) then le else u ".conf")).
  { destruct le as [|c le]; [reflexivity|]. cbn [Py.truthy].
    now destruct (Py.truthy (Py.strip (c :: le))). }
  destruct lf as [|c1 lf]; cbn [Py.truthy];
    [destruct df as [|c2 df]; cbn [Py.truthy];
     [destruct home as [|c3 h]; cbn [Py.truthy]|]|];
    session_eval; rewrite Hext; repeat split.
Qed.

Lemma move_to_front_facts (x : str) (l : list str) :
  nth_error (move_to_front x l) 0 = Some x /\
  (forall y, In y l -> In y (move_to_front x l)) /\
  (NoDup l -> NoDup (move_to_front x l)) /\
  List.length (move_to_front x l) =
    (if list_in x l then List.length l else S (List.length l)).
Proof.
  unfold move_to_front. split; [reflexivity|]. split; [|split].
  - intros y Hy. destruct (list_in x l) eqn:E; [|now right].
    destruct (Py.eqb y x) eqn:Exy.
    + apply Py_eqb_eq in Exy. now left.
    + right. apply list_remove_keeps; [exact Hy|].
      now apply Py_eqb_neq in Exy.
  - intro Hnd. destruct (list_in x l) eqn:E.
    + destruct (list_remove_NoDup x Hnd). now constructor.
    + constructor; [|assumption]. rewrite <- list_in_spec. congruence.
  - destruct (list_in x l) eqn:E; [|reflexivity].
    cbn [List.length]. apply list_in_spec in E.
    pose proof (list_remove_length x l E). lia.
Qed.

End SessionStart.


(** X20.  [_apply_initial_values] puts into the folder field the first
    of the stored last folder, the stored default folder and the home
    directory that is not empty, and leaves an extension that is not
    blank.  When that folder is not empty it becomes the first entry
    of the history, which keeps every entry it had and is not cut to
    fifteen entries here; the combo box and the settings show the
    history. *)
Theorem initial_values_from_settings (home : str) (a : Gui.app) :
  let a' := Session._apply_initial_values home a in
  let folder := first_nonempty (Gui.last_folder (Gui.settings a))
                               (Gui.default_folder (Gui.settings a)) home in
  Gui.folder_var a' = folder /\
  Gui.folder_combo_values a' = Gui.folder_history a' /\
  Gui.s_folder_history (Gui.settings a') = Gui.folder_history a' /\
  Py.strip (Gui.ext_var a') <> [] /\
  (folder <> [] ->
   nth_error (Gui.folder_history a') 0 = Some folder /\
   (forall x, In x (Gui.folder_history a) -> In x (Gui.folder_history a')) /\
   (NoDup (Gui.folder_history a) -> NoDup (Gui.folder_history a')) /\
   List.length (Gui.folder_history a') =
     (if Gui.list_in folder (Gui.folder_history a)
      then List.length (Gui.folder_history a)
      else S (List.length (Gui.folder_history a)))).
Proof.
  intros a' folder.
  destruct (apply_initial_values_fields home a)
    as (Hf & Hh & Hc & Hs & _ & He & _).
  fold a' in Hf, Hh, Hc, Hs, He. fold folder in Hf, Hh.
  repeat split; try assumption.
  - rewrite He.
    destruct (Py.truthy (Py.strip (Gui.last_extension (Gui.settings a))))
      eqn:E.
    + intro H. rewrite H in E. discriminate.
    + discriminate.
  - rewrite Hh. destruct folder; [contradiction|]. cbn [Py.truthy].
    apply move_to_front_facts.
  - rewrite Hh. destruct folder; [contradiction|]. cbn [Py.truthy].
    apply move_to_front_facts.
  - rewrite Hh. destruct folder; [contradiction|]. cbn [Py.truthy].
    apply move_to_front_facts.
  - rewrite Hh. destruct folder; [contradiction|]. cbn [Py.truthy].
    apply move_to_front_facts.
Qed.

Lemma initial_values_from_settings_witness :
  nth_error
    (Gui.folder_history (Session._apply_initial_values (u "/home/kim")
                                                       sample_app)) 0 =
  Some (u "/etc").
Proof.
  refine (proj1 (proj2 (proj2 (proj2 (proj2
            (initial_values_from_settings (u "/home/kim") sample_app)))) _)).
  discriminate.
Defined.

Section SessionEnd.

Import Gui Session.

Variable home : str.

Lemma to_dict_keys (s : settings_t) :
  Settings.dict_keys (to_dict s) =
  Settings.dict_keys (Settings.DEFAULT_SETTINGS home).
Proof. reflexivity. Qed.

Lemma strings_map (l : list str) : strings (map Settings.VStr l) = Some l.
Proof.
  induction l as [|x l IH]; [reflexivity|].
  cbn [map strings]. now rewrite IH.
Qed.

Lemma of_dict_to_dict (s : settings_t) : of_dict (to_dict s) = Some s.
Proof.
  destruct s as [pn df sh lf lq le sr sc au gh wg].
  unfold of_dict.
  change (Settings.dict_get (u "program_name") (to_dict _))
    with (Some (Settings.VStr pn)).
  change (Settings.dict_get (u "default_folder") (to_dict _))
    with (Some (Settings.VStr df)).
  change (Settings.dict_get (u "folder_history") (to_dict _))
    with (Some (Settings.VList (map Settings.VStr sh))).
  change (Settings.dict_get (u "last_folder") (to_dict _))
    with (Some (Settings.VStr lf)).
  change (Settings.dict_get (u "last_query") (to_dict _))
    with (Some (Settings.VStr lq)).
  change (Settings.dict_get (u "last_extension") (to_dict _))
    with (Some (Settings.VStr le)).
  change (Settings.dict_get (u "recursive") (to_dict _))
    with (Some (Settings.VBool sr)).
  change (Settings.dict_get (u "case_sensitive") (to_dict _))
    with (Some (Settings.VBool sc)).
  change (Settings.dict_get (u "autorun") (to_dict _))
    with (Some (Settings.VBool au)).
  change (Settings.dict_get (u "global_hotkey_enabled") (to_dict _))
    with (Some (Settings.VBool gh)).
  change (Settings.dict_get (u "window_geometry") (to_dict _))
    with (Some (Settings.VStr wg)).
  cbn [as_str as_bool as_str_list]. now rewrite strings_map.
Qed.

(** The settings written by a successful [_save_settings] are those
    the next [load_settings] returns. *)
Lemma saved_settings_load (title : str) (geometry : option str)
      (a : app) (previous : Settings.config_file) :
  of_dict
    (Settings.load_settings home
       (snd (_save_settings home title geometry Settings.Saved a previous))) =
  Some (settings
          (fst (_save_settings home title geometry Settings.Saved a previous))).
Proof.
  unfold _save_settings. cbn [fst snd Settings.save_settings].
  rewrite stored_settings_reload by apply to_dict_keys.
  rewrite of_dict_to_dict. destruct a. reflexivity.
Qed.

End SessionEnd.

(** X21.  A session is restored: when [_save_settings] succeeds and the
    next start reads the file, [_apply_initial_values] shows the query
    and the two check boxes as they were, the folder field if it was
    not empty, the extension if it was not blank, and every entry of
    the folder history. *)
Theorem session_restored (home title : str) (geometry : option str)
        (previous : Settings.config_file) (a b : Gui.app) :
  let saved :=
      Session._save_settings home title geometry Settings.Saved a previous in
  Session.of_dict (Settings.load_settings home (snd saved)) =
    Some (Gui.settings b) ->
  Gui.folder_history b = Gui.s_folder_history (Gui.settings b) ->
  let b' := Session._apply_initial_values home b in
  Gui.query_var b' = Gui.query_var a /\
  Gui.recursive_var b' = Gui.recursive_var a /\
  Gui.case_sensitive_var b' = Gui.case_sensitive_var a /\
  (Gui.folder_var a <> [] -> Gui.folder_var b' = Gui.folder_var a) /\
  (Py.strip (Gui.ext_var a) <> [] -> Gui.ext_var b' = Gui.ext_var a) /\
  (forall x, In x (Gui.folder_history a) -> In x (Gui.folder_history b')).
Proof.
  intros saved Hload Hhist b'.
  unfold saved in Hload. rewrite saved_settings_load in Hload.
  injection Hload as Hs.
  destruct (apply_initial_values_fields home b)
    as (Hf & Hh & _ & _ & Hq & He & Hr & Hc & _).
  fold b' in Hf, Hh, Hq, He, Hr, Hc.
  rewrite <- Hs in Hf, Hh, Hq, He, Hr, Hc. rewrite <- Hs in Hhist.
  destruct a as [fv qv ev rv cv rs sel act rf st sb tb se rq fh fc s0 th fr
                 sp dl ac].
  unfold Session._save_settings in Hf, Hh, Hq, He, Hr, Hc, Hhist.
  cbn [fst Gui.settings Gui.set_settings Gui.last_folder Gui.default_folder
       Gui.last_query Gui.last_extension Gui.s_recursive
       Gui.s_case_sensitive Gui.s_folder_history Gui.folder_var
       Gui.query_var Gui.ext_var Gui.recursive_var Gui.case_sensitive_var
       Gui.folder_history] in Hf, Hh, Hq, He, Hr, Hc, Hhist.
  cbn [Gui.folder_var Gui.query_var Gui.ext_var Gui.recursive_var
       Gui.case_sensitive_var Gui.folder_history].
  repeat split; try assumption.
  - intro Hne. rewrite Hf. unfold first_nonempty.
    destruct fv; [contradiction | reflexivity].
  - intro Hne. rewrite He.
    destruct (Py.strip ev); [contradiction | reflexivity].
  - intros x Hx. rewrite Hh, Hhist.
    match goal with
    | |- In _ (if Py.truthy ?f then _ else _) => destruct (Py.truthy f)
    end; [|exact Hx].
    now apply move_to_front_facts.
Qed.

Lemma session_restored_witness :
  let a := System.edit sample_app (u "/srv") (u "port") (u "*.ini") false true in
  let b := fst (Session._save_settings (u "/home/kim") (u "Finder") None
                                       Settings.Saved a Settings.NoFile) in
  Gui.query_var (Session._apply_initial_values (u "/home/kim") b) = u "port" /\
  Gui.folder_var (Session._apply_initial_values (u "/home/kim") b) = u "/srv".
Proof.
  intros a b.
  assert (H1 : Session.of_dict
                 (Settings.load_settings (u "/home/kim")
                    (snd (Session._save_settings (u "/home/kim") (u "Finder")
                            None Settings.Saved a Settings.NoFile))) =
               Some (Gui.settings b)) by reflexivity.
  assert (H2 : Gui.folder_history b = Gui.s_folder_history (Gui.settings b))
    by reflexivity.
  pose proof (@session_restored (u "/home/kim") (u "Finder") None
                Settings.NoFile a b H1 H2) as (Hq & _ & _ & Hf & _).
  split; [exact Hq|]. apply Hf. discriminate.
Defined.


(** ** What holds along every run of the foreground *)

Section Runs.

Import Gui.

(** A property of the GUI state that every callback keeps is kept by
    every step, and so along every run. *)
Lemma step_keeps (P : app -> Prop) :
  (forall isdir is_alive from_query a,
      P a -> P (_on_search_clicked isdir is_alive from_query a)) ->
  (forall a, P a -> P (set_focus_results_after_search a true)) ->
  (forall a, P a -> P (_on_stop_clicked a)) ->
  (forall a, P a -> P (_clear_results a)) ->
  (forall a, P a -> P (_poll_queue a)) ->
  (forall a folder query ext rec cs,
      P a -> P (System.edit a folder query ext rec cs)) ->
  (forall a q, P a -> P (set_result_queue a q)) ->
  (forall a chosen, P a -> P (Session._browse_folder chosen a)) ->
  (forall a home title geometry outcome file,
      P a ->
      P (fst (Session._save_settings home title geometry outcome a file))) ->
  forall s s', Session.step s s' -> P (System.gui s) -> P (System.gui s').
Proof.
  intros Hsearch Hflag Hstop Hclear Hpoll Hedit Hput Hbrowse Hsave s s' Hstep.
  destruct Hstep as [s s' Hsys | s chosen | s home title geometry outcome file];
    cbn [System.gui]; intro HP.
  - destruct Hsys; cbn [System.gui] in *.
    + now apply Hsearch.
    + unfold _on_query_enter. apply Hsearch. now apply Hflag.
    + now apply Hstop.
    + now apply Hclear.
    + now apply Hpoll.
    + now apply Hedit.
    + now apply Hput.
    + exact HP.
  - now apply Hbrowse.
  - now apply Hsave.
Qed.

Lemma run_keeps (P : app -> Prop) :
  (forall s s', Session.step s s' -> P (System.gui s) -> P (System.gui s')) ->
  forall s s', Session.run s s' -> P (System.gui s) -> P (System.gui s').
Proof.
  intros Hstep s s' Hrun HP.
  induction Hrun as [|s' s'' Hrun IH Hs]; [exact HP|].
  eapply Hstep; [exact Hs | exact IH].
Qed.

Lemma poll_queue_kept (a : app) :
  kept_data (_poll_queue a) = kept_data a.
Proof.
  rewrite poll_queue_unfold.
  pose proof (drain_fields (result_queue a) a false)
    as (_ & _ & _ & _ & _ & _ & H7 & _).
  pose proof (poll_tail_fields (fst (drain (result_queue a) a false))
                               (snd (drain (result_queue a) a false)))
    as (_ & _ & _ & _ & _ & _ & P7 & _).
  cbv zeta in P7. now rewrite P7, H7.
Qed.

Lemma history_entry_kept (folder : str) (h : list str) :
  NoDup h ->
  NoDup (firstn 15 (folder :: (if list_in folder h
                               then list_remove folder h else h))) /\
  List.length (firstn 15 (folder :: (if list_in folder h
                                     then list_remove folder h else h))) <= 15.
Proof.
  intro Hnd. split; [|apply firstn_le_length].
  apply firstn_NoDup. destruct (list_in folder h) eqn:E.
  - destruct (list_remove_NoDup folder Hnd). now constructor.
  - constructor; [|assumption]. rewrite <- list_in_spec. congruence.
Qed.

Lemma update_folder_history_kept (folder : str) (a : app) :
  NoDup (folder_history a) -> history_kept (_update_folder_history folder a).
Proof.
  intro Hnd. unfold history_kept.
  destruct (folder_history_mirrored folder a) as [Hc Hs].
  rewrite Hc, Hs, folder_history_after.
  destruct (history_entry_kept folder Hnd). repeat split; assumption.
Qed.

Lemma accepted_search_is_update (isdir : str -> bool) (is_alive : nat -> bool)
      (from_query : bool) (a : app) :
  accepted isdir is_alive a ->
  kept_data_history (_on_search_clicked isdir is_alive from_query a) =
  kept_data_history (_update_folder_history (Py.strip (folder_var a)) a).
Proof.
  intros (Hal & Hf & Hd & Hq). unfold _on_search_clicked.
  rewrite Hal, Hf, Hd, Hq. simpl negb. simpl orb. cbv iota.
  unfold kept_data_history.
  destruct a; gui_eval.
  destruct (Py.truthy (Py.strip ext_var0)); gui_eval;
    destruct (list_in _ _); gui_eval; reflexivity.
Qed.

Lemma history_kept_by_data (a b : app) :
  kept_data_history a = kept_data_history b ->
  history_kept b -> history_kept a.
Proof.
  unfold kept_data_history, history_kept. intro H.
  injection H as H1 H2 H3. now rewrite H1, H2, H3.
Qed.

Lemma search_keeps_history (isdir : str -> bool) (is_alive : nat -> bool)
      (from_query : bool) (a : app) :
  history_kept a ->
  history_kept (_on_search_clicked isdir is_alive from_query a).
Proof.
  intro H. destruct (accepted_dec isdir is_alive a) as [Ha|Hna].
  - eapply history_kept_by_data.
    + now apply accepted_search_is_update.
    + apply update_folder_history_kept. apply H.
  - destruct (@not_accepted_dialog isdir is_alive from_query a Hna) as [d ->].
    destruct a. exact H.
Qed.

Lemma search_keeps_buttons (isdir : str -> bool) (is_alive : nat -> bool)
      (from_query : bool) (a : app) :
  buttons_paired a ->
  buttons_paired (_on_search_clicked isdir is_alive from_query a).
Proof.
  intro H. destruct (accepted_dec isdir is_alive a) as [Ha|Hna].
  - destruct (@accepted_search_fields isdir is_alive from_query a Ha)
      as (_ & _ & Hs & Ht & _).
    right. now split.
  - destruct (@not_accepted_dialog isdir is_alive from_query a Hna) as [d ->].
    destruct a. exact H.
Qed.

Lemma poll_keeps_buttons (a : app) :
  buttons_paired a -> buttons_paired (_poll_queue a).
Proof.
  intro H. destruct (poll_queue_fields a) as (_ & _ & Hs & Ht).
  unfold buttons_paired. rewrite Hs, Ht.
  destruct (existsb (Py.eqb SEARCH_DONE) (result_queue a)); [|exact H].
  left. now split.
Qed.

Lemma browse_keeps_history (chosen : str) (a : app) :
  history_kept a -> history_kept (Session._browse_folder chosen a).
Proof.
  intro H. unfold Session._browse_folder.
  destruct (Py.truthy chosen); [|exact H].
  apply update_folder_history_kept. destruct a. apply H.
Qed.

Lemma browse_keeps_buttons (chosen : str) (a : app) :
  buttons_paired a -> buttons_paired (Session._browse_folder chosen a).
Proof.
  intro H. unfold Session._browse_folder.
  destruct (Py.truthy chosen); [|exact H].
  rewrite update_folder_history_state. destruct a. exact H.
Qed.

Lemma step_keeps_buttons (s s' : System.sys) :
  Session.step s s' ->
  buttons_paired (System.gui s) -> buttons_paired (System.gui s').
Proof.
  apply (step_keeps buttons_paired).
  - intros. now apply search_keeps_buttons.
  - intros a H. destruct a. exact H.
  - intros a H. destruct a. exact H.
  - intros a H. destruct a. exact H.
  - intros. now apply poll_keeps_buttons.
  - intros a f q e r c H. destruct a. exact H.
  - intros a q H. destruct a. exact H.
  - intros. now apply browse_keeps_buttons.
  - intros a h t g o f H. destruct a. exact H.
Qed.

Lemma step_keeps_history (s s' : System.sys) :
  Session.step s s' ->
  history_kept (System.gui s) -> history_kept (System.gui s').
Proof.
  apply (step_keeps history_kept).
  - intros. now apply search_keeps_history.
  - intros a H. destruct a. exact H.
  - intros a H. destruct a. exact H.
  - intros a H. destruct a. exact H.
  - intros a H. unfold history_kept in *.
    pose proof (poll_queue_kept a) as Hk. unfold kept_data in Hk.
    injection Hk as H1 H2 H3. now rewrite H1, H2, H3.
  - intros a f q e r c H. destruct a. exact H.
  - intros a q H. destruct a. exact H.
  - intros. now apply browse_keeps_history.
  - intros a h t g o f H. destruct a.
    unfold history_kept in *. cbn in *. tauto.
Qed.

End Runs.

(** X22.  Along every run of the foreground (searches started from the
    button or the query field, stop, clear, poll ticks, edits, folder
    dialogs, saving the settings, workers putting items and ending)
    exactly one of the search button and the stop button is enabled,
    if that is so at the start. *)
Theorem buttons_stay_paired (s s' : System.sys) :
  Session.run s s' ->
  buttons_paired (System.gui s) -> buttons_paired (System.gui s').
Proof.
  apply (run_keeps buttons_paired). apply step_keeps_buttons.
Qed.

Lemma buttons_stay_paired_witness :
  buttons_paired
    (Gui._on_search_clicked (fun _ => true) (fun _ => false) false
       (System.edit sample_app (u "/etc") (u "port") (u ".conf") true false)).
Proof.
  refine (@buttons_stay_paired
            (System.mk_sys
               (System.edit sample_app (u "/etc") (u "port") (u ".conf")
                            true false) [])
            (System.mk_sys
               (Gui._on_search_clicked (fun _ => true) (fun _ => false) false
                  (System.edit sample_app (u "/etc") (u "port") (u ".conf")
                               true false))
               ([] ++ System.started
                        (System.edit sample_app (u "/etc") (u "port")
                                     (u ".conf") true false)
                        (Gui._on_search_clicked (fun _ => true)
                           (fun _ => false) false
                           (System.edit sample_app (u "/etc") (u "port")
                                        (u ".conf") true false))))
            _ _).
  - eapply Session.run_step; [apply Session.run_none|].
    apply Session.step_system.
    exact (System.step_search_clicked
             (System.mk_sys
                (System.edit sample_app (u "/etc") (u "port") (u ".conf")
                             true false) [])
             (fun _ => true) false).
  - left. split; reflexivity.
Defined.

(** X23.  Along every run of the foreground the folder history has no
    entry twice and at most fifteen entries, and the combo box and the
    settings show it, if that is so at the start. *)
Theorem history_stays_kept (s s' : System.sys) :
  Session.run s s' ->
  history_kept (System.gui s) -> history_kept (System.gui s').
Proof.
  apply (run_keeps history_kept). apply step_keeps_history.
Qed.

Lemma history_stays_kept_witness :
  history_kept (Session._browse_folder (u "/opt") sample_app).
Proof.
  refine (@history_stays_kept
            (System.mk_sys sample_app [])
            (System.mk_sys (Session._browse_folder (u "/opt") sample_app) [])
            _ _).
  - eapply Session.run_step; [apply Session.run_none|].
    exact (Session.step_browse_folder (System.mk_sys sample_app [])
                                      (u "/opt")).
  - unfold history_kept. cbn.
    repeat split; try lia.
    repeat (constructor;
            [ cbv; intros H;
              repeat (destruct H as [H|H]; [discriminate H|]); exact H |]).
    constructor.
Defined.


(** ** Start with Windows *)

Lemma set_autorun_cases (on_windows : bool) (exe : str) (enabled : bool)
      (r : Autorun.registry) :
  let result := Autorun.set_autorun on_windows exe enabled r in
  (fst result = true <->
   on_windows = true /\
   ((exists entry, Autorun.key r = Autorun.Present entry) \/
    (Autorun.key r = Autorun.Missing /\ Autorun.creatable r = true))) /\
  (fst result = true ->
   Autorun.key (snd result) =
   Autorun.Present (if enabled then Some (Autorun.command exe) else None)) /\
  (fst result = false -> snd result = r).
Proof.
  destruct r as [k c]. unfold Autorun.set_autorun.
  cbn [Autorun.key Autorun.creatable].
  destruct on_windows; cbn [negb].
  - destruct k as [| | [e|]]; [destruct c| | |]; destruct enabled;
      cbn [fst snd Autorun.key]; repeat split;
      try discriminate; try reflexivity;
      try (intros (_ & [[e' He]|[He Hc]]); discriminate);
      try (left; eexists; reflexivity);
      try (right; split; reflexivity).
  - cbn [fst snd]. repeat split; try discriminate; try reflexivity.
    intros (H & _). discriminate.
Qed.

(** X24.  [set_autorun] reports success exactly when it runs on Windows
    and the Run key can be opened, or is missing and can be created.
    After a success the key holds the quoted path of the executable
    when autorun was to be enabled and no entry when it was to be
    disabled, whatever it held before; after a failure the registry is
    as it was. *)
Theorem set_autorun_outcome (on_windows : bool) (exe : str) (enabled : bool)
        (r : Autorun.registry) :
  let result := Autorun.set_autorun on_windows exe enabled r in
  (fst result = true <->
   on_windows = true /\
   ((exists entry, Autorun.key r = Autorun.Present entry) \/
    (Autorun.key r = Autorun.Missing /\ Autorun.creatable r = true))) /\
  (fst result = true ->
   Autorun.key (snd result) =
   Autorun.Present (if enabled then Some (Autorun.command exe) else None)) /\
  (fst result = false -> snd result = r).
Proof. apply set_autorun_cases. Qed.

Lemma set_autorun_outcome_witness :
  Autorun.key
    (snd (Autorun.set_autorun true (u "C:/Tools/finder.exe") true
            (Autorun.mk_registry Autorun.Missing true))) =
  Autorun.Present (Some (Autorun.command (u "C:/Tools/finder.exe"))).
Proof.
  apply (proj1 (proj2 (set_autorun_outcome true (u "C:/Tools/finder.exe") true
                         (Autorun.mk_registry Autorun.Missing true)))).
  reflexivity.
Defined.

(** X25.  After [_ensure_autorun_state] the setting [autorun] is on
    only if the Run key holds the quoted path of the executable; where
    the key can be written, the setting is as it was and the key
    holds the entry exactly when the setting is on.  The folder
    history and the stored folder, query and extension are not
    touched. *)
Theorem autorun_setting_is_honest (on_windows : bool) (exe : str)
        (a : Gui.app) (r : Autorun.registry) :
  let result := Autorun._ensure_autorun_state on_windows exe a r in
  let a' := fst result in
  let r' := snd result in
  (Gui.autorun (Gui.settings a') = true ->
   Gui.autorun (Gui.settings a) = true /\
   Autorun.key r' = Autorun.Present (Some (Autorun.command exe))) /\
  (fst (Autorun.set_autorun on_windows exe (Gui.autorun (Gui.settings a)) r)
     = true ->
   a' = a /\
   Autorun.key r' =
   Autorun.Present (if Gui.autorun (Gui.settings a)
                    then Some (Autorun.command exe) else None)) /\
  (fst (Autorun.set_autorun on_windows exe (Gui.autorun (Gui.settings a)) r)
     = false ->
   r' = r /\ Gui.autorun (Gui.settings a') = false) /\
  kept_data_history a' = kept_data_history a /\
  Gui.last_folder (Gui.settings a') = Gui.last_folder (Gui.settings a) /\
  Gui.last_query (Gui.settings a') = Gui.last_query (Gui.settings a) /\
  Gui.last_extension (Gui.settings a') = Gui.last_extension (Gui.settings a).
Proof.
  intros result a' r'. subst a' r' result.
  unfold Autorun._ensure_autorun_state.
  pose proof (set_autorun_cases on_windows exe
                (Gui.autorun (Gui.settings a)) r) as (_ & Hok & Hfail).
  cbv zeta in Hok, Hfail.
  destruct (Autorun.set_autorun on_windows exe
              (Gui.autorun (Gui.settings a)) r) as [ok r1].
  cbn [fst snd] in *.
  destruct a as [fv qv ev rv cv rs sel act rf st sb tb se rq fh fc s0 th fr
                 sp dl ac].
  destruct s0 as [pn df sh lf lq le sr sc au gh wg].
  cbn [Gui.settings Gui.autorun] in *.
  destruct ok; cbn [negb andb].
  - specialize (Hok eq_refl). cbn [fst snd Gui.settings Gui.autorun].
    split; [|split; [|split]].
    + intro Hau. subst au. now split.
    + intros _. now split.
    + discriminate.
    + repeat split.
  - specialize (Hfail eq_refl). subst r1.
    destruct au; cbn [fst snd Gui.settings Gui.set_settings Gui.autorun];
      (split; [|split; [|split]]);
      try discriminate; try (intros _; now split); try (repeat split);
      try (intro H; now split).
Qed.

Lemma autorun_setting_is_honest_witness :
  let a := Gui.set_settings sample_app
             (Gui.mk_settings (u "SearchConf Finder") (u "/home") []
                (u "/etc") [] (u ".conf") true false true true (u "500x420")) in
  Gui.autorun
    (Gui.settings
       (fst (Autorun._ensure_autorun_state true (u "C:/Tools/finder.exe") a
               (Autorun.mk_registry Autorun.Denied false)))) = false.
Proof.
  intro a.
  apply (proj1 (proj2 (proj2
           (autorun_setting_is_honest true (u "C:/Tools/finder.exe") a
              (Autorun.mk_registry Autorun.Denied false))))).
  reflexivity.
Defined.

(** ** The global hot keys *)

Section Hotkeys.

Import Hotkey.

Variable grants : list (N * N * N) -> N -> N -> N -> bool.

Lemma unregister_all (ids : list N) :
  forall h : list (N * N * N),
    (forall e, In e h -> In (fst (fst e)) ids) ->
    fold_left (fun h hotkey_id => unregister hotkey_id h) ids h = [].
Proof.
  induction ids as [|i ids IH]; intros h Hall.
  - destruct h as [|e h]; [reflexivity|]. elim (Hall e). now left.
  - cbn [fold_left]. apply IH. intros e He. unfold unregister in He.
    apply filter_In in He. destruct He as [He Hne].
    destruct (Hall e He) as [Hi|Hi]; [|exact Hi].
    rewrite <- Hi, N.eqb_refl in Hne. discriminate.
Qed.

Lemma unregister_listed (t : thread) :
  held_ids t = hotkey_ids t ->
  held (_unregister_hotkeys t) = [] /\ hotkey_ids (_unregister_hotkeys t) = [].
Proof.
  intro H. unfold _unregister_hotkeys. cbn [held hotkey_ids].
  split; [|reflexivity]. apply unregister_all. intros e He.
  rewrite <- H. unfold held_ids.
  exact (in_map (fun e0 : N * N * N => fst (fst e0)) (held t) e He).
Qed.

Lemma register_hotkeys_cases (t : thread) :
  held_ids t = hotkey_ids t ->
  let t' := _register_hotkeys grants t in
  let first := (40960, 16390, 56)%N in
  let second := (40961, 16386, 106)%N in
  held_ids t' = hotkey_ids t' /\
  (failed t' = false <->
   failed t = false /\
   grants (held t) 40960%N 16390%N 56%N = true /\
   grants (held t ++ [first]) 40961%N 16386%N 106%N = true) /\
  (failed t' = true -> hotkey_ids t' = [] /\ held t' = []) /\
  (failed t' = false ->
   hotkey_ids t' = hotkey_ids t ++ [40960; 40961]%N /\
   held t' = held t ++ [first; second]).
Proof.
  intros Hinv t' first second. subst t' first second.
  unfold _register_hotkeys, combos.
  change (N.lor (N.lor MOD_CONTROL MOD_SHIFT) MOD_NOREPEAT) with 16390%N.
  change (N.lor MOD_CONTROL MOD_NOREPEAT) with 16386%N.
  cbn [register_from]. change (base_id + 0)%N with 40960%N.
  change (base_id + (0 + 1))%N with 40961%N.
  cbn [held hotkey_ids failed].
  destruct (grants (held t) 40960%N 16390%N 56%N) eqn:G1; cbn [negb].
  - destruct (grants (held t ++ [(40960%N, 16390%N, 56%N)])
                     40961%N 16386%N 106%N) eqn:G2; cbn [negb].
    + cbn [failed]. destruct (failed t) eqn:F.
      * destruct (@unregister_listed
                    (mk_thread ((hotkey_ids t ++ [40960%N]) ++ [40961%N]) true
                       ((held t ++ [(40960%N, 16390%N, 56%N)]) ++
                        [(40961%N, 16386%N, 106%N)]))) as [Hh Hi].
        { unfold held_ids in *. cbn [held hotkey_ids].
          rewrite !map_app. cbn [map fst]. now rewrite Hinv. }
        unfold held_ids. rewrite Hh, Hi.
        cbn [_unregister_hotkeys failed map].
        repeat split; try discriminate; try reflexivity.
        intros (H & _). discriminate.
      * unfold held_ids in *. cbn [held hotkey_ids failed].
        rewrite !map_app. cbn [map fst]. rewrite Hinv, <- !app_assoc.
        cbn [List.app]. repeat split; try discriminate; reflexivity.
    + cbn [failed].
      destruct (@unregister_listed
                  (mk_thread (hotkey_ids t ++ [40960%N]) true
                     (held t ++ [(40960%N, 16390%N, 56%N)]))) as [Hh Hi].
      { unfold held_ids in *. cbn [held hotkey_ids].
        rewrite !map_app. cbn [map fst]. now rewrite Hinv. }
      unfold held_ids. rewrite Hh, Hi.
      cbn [_unregister_hotkeys failed map].
      repeat split; try discriminate; try reflexivity.
      intros (_ & _ & H). discriminate.
  - cbn [failed].
    destruct (@unregister_listed (mk_thread (hotkey_ids t) true (held t)))
      as [Hh Hi]; [exact Hinv|].
    unfold held_ids. rewrite Hh, Hi.
    cbn [_unregister_hotkeys failed map].
    repeat split; try discriminate; try reflexivity.
    intros (_ & H & _). discriminate.
Qed.

End Hotkeys.

(** X26.  Registering the hot keys is all or nothing.  Whatever the
    system answers, a thread that holds the hot keys it lists does so
    afterwards; it has not failed exactly when it had not failed
    before and both registrations were granted, and then holds
    Ctrl+Shift+8 and Ctrl+Multiply under the identifiers 0xA000 and
    0xA001 besides what it held; if it has failed it holds no hot key
    at all. *)
Theorem hotkeys_all_or_nothing
        (grants : list (N * N * N) -> N -> N -> N -> bool) (t : Hotkey.thread) :
  held_ids t = Hotkey.hotkey_ids t ->
  let t' := Hotkey._register_hotkeys grants t in
  let first := (40960, 16390, 56)%N in
  let second := (40961, 16386, 106)%N in
  held_ids t' = Hotkey.hotkey_ids t' /\
  (Hotkey.failed t' = false <->
   Hotkey.failed t = false /\
   grants (Hotkey.held t) 40960%N 16390%N 56%N = true /\
   grants (Hotkey.held t ++ [first]) 40961%N 16386%N 106%N = true) /\
  (Hotkey.failed t' = true ->
   Hotkey.hotkey_ids t' = [] /\ Hotkey.held t' = []) /\
  (Hotkey.failed t' = false ->
   Hotkey.hotkey_ids t' = Hotkey.hotkey_ids t ++ [40960; 40961]%N /\
   Hotkey.held t' = Hotkey.held t ++ [first; second]).
Proof. apply register_hotkeys_cases. Qed.

Lemma hotkeys_all_or_nothing_witness :
  Hotkey.held
    (Hotkey._register_hotkeys
       (fun _ hotkey_id _ _ => N.eqb hotkey_id 40960)
       (Hotkey.mk_thread [] false [])) = [].
Proof.
  refine (proj2 (proj1 (proj2 (proj2
            (@hotkeys_all_or_nothing
               (fun _ hotkey_id _ _ => N.eqb hotkey_id 40960)
               (Hotkey.mk_thread [] false []) eq_refl))) _)).
  reflexivity.
Defined.
